(** * FinTrack: the user financial-data store and the derived metrics

    A shallow embedding of [connect.py]: the login and key derivation
    ([hash_email], [authenticate_user]), the load/save layer over MongoDB
    with its session-state fallback, the mutating handlers of the pages,
    the aggregate computations ([get_monthly_data], the budget table, the
    savings rate, [generate_ai_insights]) and what the dashboard, the
    budget, the analytics and the profile page compute from them.

    Conventions of the embedding.
    - A Python [str] is a Rocq [string]; a character of the string is the
      code point of the same number, so the model covers the code points
      below 256.
    - Amounts (Python [int] and [float]) are exact rationals [Q]; rounding
      of binary floating point is not modelled, and equality of amounts is
      [Qeq] ([==]).
    - [st.session_state] is a record of optional entries; an entry that is
      [None] is a key that is absent.
    - Exceptions are values: a computation returns [Ok v] or [Raise e];
      the read of an unbound local variable in [analytics_page], which ends
      the page, is one of the outcomes of that page.
    - What the environment decides (button clicks, the clock, whether a
      MongoDB call fails) is an argument of the function that asks for it.
    - [print], [st.write] and the other rendering calls are not modelled,
      except for the checks that [st.progress] and [st.number_input] make
      on their arguments, which can end a page. *)

From Stdlib Require Import ZArith QArith Qfield Qminmax Lqa.
From Stdlib.Strings Require Import Ascii String Byte.
From stdpp Require Import base option list strings gmap vector finite.

Set Default Proof Using "Type".
Local Open Scope string_scope.

(* ===================================================================== *)
(** * Python values used by the program *)
(* ===================================================================== *)

Module Py.

(** The exceptions the modelled code can meet; all of them derive from
    Python's [Exception]. *)
Inductive exn : Type :=
| AttributeError (attr : string)
| KeyError (label : nat)
| ValueError
| ZeroDivisionError
| PyMongoError
| StreamlitAPIException.

Inductive result (A : Type) : Type :=
| Ok (a : A)
| Raise (e : exn).
Arguments Ok {A} a.
Arguments Raise {A} e.

#[global] Instance result_ret : MRet result := λ A a, Ok a.
#[global] Instance result_bind : MBind result := λ A B f r,
  match r with Ok a => f a | Raise e => Raise e end.

(** [x / y] on numbers: a zero divisor is a [ZeroDivisionError]. *)
Definition truediv (x y : Q) : result Q :=
  if Qeq_bool y 0 then Raise ZeroDivisionError else Ok (x / y)%Q.

(** ** [str] *)

Definition code (c : ascii) : N := N_of_ascii c.

(** [c.lower()] for one code point below 256: the letters A-Z and the
    Latin-1 capitals U+00C0-U+00DE (without the multiplication sign
    U+00D7) move up by 32. *)
Definition lower_char (c : ascii) : ascii :=
  let n := code c in
  if ((65 <=? n) && (n <=? 90))%N then ascii_of_N (n + 32)
  else if ((192 <=? n) && (n <=? 222) && negb (n =? 215))%N
       then ascii_of_N (n + 32)
  else c.

(** [s.lower()] *)
Fixpoint lower (s : string) : string :=
  match s with
  | EmptyString => EmptyString
  | String c s' => String (lower_char c) (lower s')
  end.

(** [c.isspace()] for a code point below 256. *)
Definition isspace (c : ascii) : bool :=
  let n := code c in
  (((9 <=? n) && (n <=? 13)) || ((28 <=? n) && (n <=? 32))
   || (n =? 133) || (n =? 160))%N.

Fixpoint lstrip (s : string) : string :=
  match s with
  | EmptyString => EmptyString
  | String c s' => if isspace c then lstrip s' else s
  end.

Fixpoint rstrip (s : string) : string :=
  match s with
  | EmptyString => EmptyString
  | String c s' =>
      match rstrip s' with
      | EmptyString => if isspace c then EmptyString else String c EmptyString
      | r => String c r
      end
  end.

(** [s.strip()] *)
Definition strip (s : string) : string := rstrip (lstrip s).

(** [s.split(sep)[0]] for a one-character separator. *)
Fixpoint split_head (sep : ascii) (s : string) : string :=
  match s with
  | EmptyString => EmptyString
  | String c s' =>
      if Ascii.eqb c sep then EmptyString else String c (split_head sep s')
  end.

(** [s.encode()]: UTF-8, one byte below U+0080 and two bytes from there
    to U+00FF. *)
Definition byte_of_N (n : N) : byte := byte_of_ascii (ascii_of_N n).

Definition encode_char (c : ascii) : list byte :=
  let n := code c in
  if (n <? 128)%N then [byte_of_N n]
  else [byte_of_N (N.lor 192 (N.shiftr n 6)); byte_of_N (N.lor 128 (N.land n 63))].

Fixpoint encode (s : string) : list byte :=
  match s with
  | EmptyString => []
  | String c s' => encode_char c ++ encode s'
  end.

(** The truth value of a string in a condition: [if email:] *)
Definition truthy (s : string) : bool :=
  match s with EmptyString => false | _ => true end.

End Py.

Export Py(exn(..), result(..)).

(* ===================================================================== *)
(** * Streamlit widgets that check their arguments *)
(* ===================================================================== *)

Module St.

(** [st.progress(value)] with a float: the value must lie between 0.0 and
    1.0, and a [StreamlitAPIException] is raised when it does not. A
    value within rounding distance of an end is not told apart from the
    end, as for every amount of this model. *)
Definition progress (value : Q) : result unit :=
  if Qle_bool 0 value && Qle_bool value 1 then Ok () else Raise StreamlitAPIException.

(** The largest integer that a number input takes, [2^53 - 1]. *)
Definition max_int : Q := inject_Z (2 ^ 53 - 1).

(** A number that is an [int] in Python is a whole number; a number that
    is not whole is a [float]. *)
Definition whole (x : Q) : bool := (Qden (Qred x) =? 1)%positive.

(** [st.number_input(label, value=value, min_value=min_value, step=100)]
    with an int [min_value] and [step], as far as it checks its
    arguments: the value must be an int as well, not below [min_value]
    and not above [max_int]; a [StreamlitAPIException] is raised when it
    is not. The number the user leaves in the input is not given here: it
    is an argument of the handler that reads it. *)
Definition number_input (value min_value : Q) : result unit :=
  if whole value && Qle_bool min_value value && Qle_bool value max_int
  then Ok () else Raise StreamlitAPIException.

End St.

(* ===================================================================== *)
(** * [hashlib.sha256]: SHA-256 of FIPS 180-4 on 32-bit words *)
(* ===================================================================== *)

Module SHA256.
Local Open Scope Z_scope.

Definition mask32 : Z := 0xffffffff.
Definition w32 (x : Z) : Z := Z.land x mask32.
Definition add32 (x y : Z) : Z := w32 (x + y).
Definition not32 (x : Z) : Z := Z.lxor x mask32.
Definition rotr (n x : Z) : Z :=
  Z.lor (Z.shiftr x n) (w32 (Z.shiftl x (32 - n))).
Definition shr (n x : Z) : Z := Z.shiftr x n.

Definition Ch (x y z : Z) : Z := Z.lxor (Z.land x y) (Z.land (not32 x) z).
Definition Maj (x y z : Z) : Z :=
  Z.lxor (Z.lxor (Z.land x y) (Z.land x z)) (Z.land y z).
Definition Sigma0 (x : Z) : Z := Z.lxor (Z.lxor (rotr 2 x) (rotr 13 x)) (rotr 22 x).
Definition Sigma1 (x : Z) : Z := Z.lxor (Z.lxor (rotr 6 x) (rotr 11 x)) (rotr 25 x).
Definition sigma0 (x : Z) : Z := Z.lxor (Z.lxor (rotr 7 x) (rotr 18 x)) (shr 3 x).
Definition sigma1 (x : Z) : Z := Z.lxor (Z.lxor (rotr 17 x) (rotr 19 x)) (shr 10 x).

(** The first 64 primes, by trial division. *)
Definition is_prime (n : Z) : bool :=
  forallb (λ d, negb (n mod d =? 0)) (seqZ 2 (n - 2)).

Definition primes : list Z := Eval vm_compute in List.filter is_prime (seqZ 2 310).

(** The integer cube root of a number below 2^108, bit by bit. *)
Definition icbrt (n : Z) : Z :=
  fold_left (λ x b, let y := Z.lor x (Z.shiftl 1 b) in if y * y * y <=? n then y else x)
            (reverse (seqZ 0 36)) 0.

(** The round constants: the first 32 bits of the fractional parts of the
    cube roots of the first 64 primes. *)
Definition K : list Z :=
  Eval vm_compute in (λ p, w32 (icbrt (Z.shiftl p 96))) <$> primes.

Record state : Type := State
  { ha : Z; hb : Z; hc : Z; hd : Z; he : Z; hf : Z; hg : Z; hh : Z }.

(** The initial hash value: the first 32 bits of the fractional parts of
    the square roots of the first 8 primes. *)
Definition H0 : state :=
  Eval vm_compute in
    match (λ p, w32 (Z.sqrt (Z.shiftl p 64))) <$> take 8 primes with
    | [a; b; c; d; e; f; g; h] => State a b c d e f g h
    | _ => State 0 0 0 0 0 0 0 0
    end.

(** One round on the working variables with constant [k] and schedule
    word [w]. *)
Definition round (s : state) (k w : Z) : state :=
  let t1 := add32 (add32 (add32 (add32 (hh s) (Sigma1 (he s)))
                                (Ch (he s) (hf s) (hg s))) k) w in
  let t2 := add32 (Sigma0 (ha s)) (Maj (ha s) (hb s) (hc s)) in
  State (add32 t1 t2) (ha s) (hb s) (hc s) (add32 (hd s) t1) (he s) (hf s) (hg s).

(** The schedule is kept as a window of the sixteen words W[t..t+15];
    the next word is W[t+16]. *)
Definition next_word (win : list Z) : Z :=
  add32 (add32 (add32 (sigma1 (nth 14 win 0)) (nth 9 win 0))
               (sigma0 (nth 1 win 0))) (nth 0 win 0).

Fixpoint rounds (ks : list Z) (win : list Z) (s : state) : state :=
  match ks with
  | [] => s
  | k :: ks' =>
      rounds ks' (tl win ++ [next_word win]) (round s k (nth 0 win 0))
  end.

Definition compress (h : state) (block : list Z) : state :=
  let s := rounds K block h in
  State (add32 (ha h) (ha s)) (add32 (hb h) (hb s)) (add32 (hc h) (hc s))
        (add32 (hd h) (hd s)) (add32 (he h) (he s)) (add32 (hf h) (hf s))
        (add32 (hg h) (hg s)) (add32 (hh h) (hh s)).

Definition octet (b : byte) : Z := Z.of_N (Byte.to_N b).

(** The message with the 1 bit, the zero fill and the 64-bit length. *)
Definition pad (msg : list byte) : list Z :=
  let len := Z.of_nat (length msg) in
  let zeros := Z.to_nat ((55 - len) mod 64) in
  let bits := 8 * len in
  (octet <$> msg) ++ [0x80] ++ repeat 0 zeros
    ++ ((fun i => Z.land (Z.shiftr bits (8 * i)) 0xff) <$> [7; 6; 5; 4; 3; 2; 1; 0]).

(** Big-endian words of a byte sequence whose length is a multiple of 4. *)
Fixpoint words (bs : list Z) : list Z :=
  match bs with
  | b0 :: b1 :: b2 :: b3 :: rest =>
      Z.lor (Z.lor (Z.lor (Z.shiftl b0 24) (Z.shiftl b1 16)) (Z.shiftl b2 8)) b3
        :: words rest
  | _ => []
  end.

(** The blocks are consumed sixteen words at a time; [n] bounds the
    number of blocks. *)
Fixpoint blocks (n : nat) (ws : list Z) (h : state) : state :=
  match n, ws with
  | S n', _ :: _ => blocks n' (drop 16 ws) (compress h (take 16 ws))
  | _, _ => h
  end.

Definition digest (msg : list byte) : list Z :=
  let ws := words (pad msg) in
  let h := blocks (length ws) ws H0 in
  [ha h; hb h; hc h; hd h; he h; hf h; hg h; hh h].

Definition hex_digit (n : Z) : ascii :=
  if n <? 10 then ascii_of_N (Z.to_N (48 + n)) else ascii_of_N (Z.to_N (87 + n)).

(** Eight lowercase hexadecimal digits of a 32-bit word. *)
Definition hex_word (w : Z) : list ascii :=
  (fun i => hex_digit (Z.land (Z.shiftr w (4 * i)) 0xf)) <$> [7; 6; 5; 4; 3; 2; 1; 0].

(** [hashlib.sha256(msg).hexdigest()] *)
Definition hexdigest (msg : list byte) : string :=
  string_of_list_ascii (mjoin (hex_word <$> digest msg)).

End SHA256.

(* ===================================================================== *)
(** * User key *)
(* ===================================================================== *)

(** [hash_email(email)]: [hashlib.sha256(email.encode()).hexdigest()] *)
Definition hash_email (email : string) : string :=
  SHA256.hexdigest (Py.encode email).

(* ===================================================================== *)
(** * Calendar dates and the forms a [date] cell takes *)
(* ===================================================================== *)

Module Dates.
Local Open Scope Z_scope.

Record Date : Type := mkDate { year : Z; month : Z; day : Z }.

(** A cell of a [date] column holds one of four Python values. The time
    of day of [datetime] and [Timestamp] plays no part in the program
    and is left out; a string cell holds the ISO form of its date, as
    [save_user_data] writes it. *)
Inductive DateCell : Type :=
| IsoStr (d : Date)        (* 'YYYY-MM-DD', as read back from MongoDB  *)
| PyDate (d : Date)        (* datetime.date, as st.date_input returns  *)
| PyDatetime (d : Date)    (* datetime.datetime                        *)
| Timestamp (d : Date).    (* pd.Timestamp, as pd.to_datetime returns  *)

Definition date_of (c : DateCell) : Date :=
  match c with IsoStr d | PyDate d | PyDatetime d | Timestamp d => d end.

(** [pd.to_datetime] on one cell. *)
Definition to_datetime (c : DateCell) : DateCell := Timestamp (date_of c).

(** The conversion of [save_user_data]: [isinstance] is tried against
    [datetime] first (which [pd.Timestamp] derives from), then
    [pd.Timestamp], then [date]; a string is left as it is. *)
Definition to_iso_cell (c : DateCell) : DateCell :=
  match c with
  | PyDatetime d | Timestamp d => IsoStr d      (* strftime('%Y-%m-%d') *)
  | PyDate d => IsoStr d                        (* isoformat()          *)
  | IsoStr d => IsoStr d
  end.

(** Days since 1970-01-01 in the proleptic Gregorian calendar. *)
Definition days_from_civil (d : Date) : Z :=
  let y := if month d <=? 2 then year d - 1 else year d in
  let era := y / 400 in
  let yoe := y - era * 400 in
  let mp := if month d <=? 2 then month d + 9 else month d - 3 in
  let doy := (153 * mp + 2) / 5 + day d - 1 in
  let doe := yoe * 365 + yoe / 4 - yoe / 100 + doy in
  era * 146097 + doe - 719468.

(** [Series.dt.day_name()] on one cell. *)
Definition day_name (d : Date) : string :=
  match (days_from_civil d + 3) mod 7 with
  | 0 => "Monday" | 1 => "Tuesday" | 2 => "Wednesday" | 3 => "Thursday"
  | 4 => "Friday" | 5 => "Saturday" | _ => "Sunday"
  end%string.

Definition digit (n : Z) : ascii := ascii_of_N (Z.to_N (48 + n mod 10)).

(** [strftime('%Y-%m-%d')] for the years 0 to 9999. *)
Definition strftime_ymd (d : Date) : string :=
  string_of_list_ascii
    [ digit (year d / 1000); digit (year d / 100); digit (year d / 10); digit (year d);
      "-"%char; digit (month d / 10); digit (month d);
      "-"%char; digit (day d / 10); digit (day d) ].

End Dates.
Export Dates.

(* ===================================================================== *)
(** * The pandas operations the program uses *)
(* ===================================================================== *)

Module Pd.

(** A frame is the sequence of its rows, each with its index label. *)
Definition DataFrame (R : Type) : Type := list (nat * R).

Section Frames.
Context {R : Type}.

Definition labels (df : DataFrame R) : list nat := df.*1.
Definition rows (df : DataFrame R) : list R := df.*2.

(** The labels 0, 1, ..., n-1 of a [RangeIndex]. *)
Definition range_index (rs : list R) : DataFrame R :=
  zip (seq 0 (length rs)) rs.

(** [pd.DataFrame(records)] *)
Definition of_records (rs : list R) : DataFrame R := range_index rs.

(** [pd.DataFrame(columns=[...])] *)
Definition no_rows : DataFrame R := [].

(** [df.empty] *)
Definition empty (df : DataFrame R) : bool :=
  match df with [] => true | _ => false end.

(** [df.to_dict('records')] *)
Definition to_dict_records (df : DataFrame R) : list R := rows df.

(** [pd.concat([df1, df2], ignore_index=True)] *)
Definition concat_ignore_index (df1 df2 : DataFrame R) : DataFrame R :=
  range_index (rows df1 ++ rows df2).

(** [df.drop(label, inplace=True)]: every row with the label goes; a
    label that is not in the index is a [KeyError]. *)
Definition drop (label : nat) (df : DataFrame R) : result (DataFrame R) :=
  if bool_decide (label ∈ labels df)
  then Ok (filter (λ lr, lr.1 ≠ label) df)
  else Raise (KeyError label).

(** [df.reset_index(drop=True, inplace=True)] *)
Definition reset_index (df : DataFrame R) : DataFrame R :=
  range_index (rows df).

(** [df.tail(n)] *)
Definition tail (n : nat) (df : DataFrame R) : DataFrame R :=
  List.skipn (length df - n) df.

(** [df[col] = f(df[col])], the column given by a getter and a setter. *)
Definition assign (upd : R → R) (df : DataFrame R) : DataFrame R :=
  prod_map id upd <$> df.

(** The frame has a [RangeIndex]. *)
Definition range_indexed (df : DataFrame R) : Prop :=
  labels df = seq 0 (length df).

(** The row at a position. *)
Definition iloc (df : DataFrame R) (i : nat) : option R := rows df !! i.

End Frames.

(** [Series.sum()]: the values are added from the left, starting at 0. *)
Definition sum (xs : list Q) : Q := fold_left Qplus xs 0%Q.

(** The keys of a [groupby]: each key once, in ascending order. *)
Fixpoint insert_key (k : string) (ks : list string) : list string :=
  match ks with
  | [] => [k]
  | k' :: ks' =>
      match String.compare k k' with
      | Lt => k :: ks
      | Eq => ks
      | Gt => k' :: insert_key k ks'
      end
  end.

Definition group_keys (ks : list string) : list string :=
  foldr insert_key [] ks.

(** [df.groupby(key)[val].sum()]: one entry per key, in ascending key
    order, with the sum of the group's values in row order. *)
Definition groupby_sum {R : Type} (key : R → string) (val : R → Q)
    (rs : list R) : list (string * Q) :=
  (λ k, (k, sum (val <$> filter (λ r, key r = k) rs))) <$> group_keys (key <$> rs).

(** [Series.idxmax()] and [Series.max()]: the first entry that attains
    the maximum. *)
Fixpoint argmax (best : string * Q) (s : list (string * Q)) : string * Q :=
  match s with
  | [] => best
  | kv :: s' => argmax (if Qlt_le_dec best.2 kv.2 then kv else best) s'
  end.

Definition idxmax (s : list (string * Q)) : option string :=
  match s with [] => None | kv :: s' => Some (argmax kv s').1 end.

Definition max (s : list (string * Q)) : option Q :=
  match s with [] => None | kv :: s' => Some (argmax kv s').2 end.

End Pd.

(** [d.get(k, default)] on a dict kept in insertion order. *)
Fixpoint dict_get {V : Type} (k : string) (default : V) (d : list (string * V)) : V :=
  match d with
  | [] => default
  | (k', v) :: d' => if decide (k' = k) then v else dict_get k default d'
  end.

(* ===================================================================== *)
(** * Records of the data model *)
(* ===================================================================== *)

(** A row of the expenses frame: the columns date, category, amount and
    description. *)
Record Expense : Type := mkExpense
  { exp_date : DateCell; exp_category : string; exp_amount : Q;
    exp_description : string }.

(** A row of the income frame: the columns date, source, amount and
    frequency. *)
Record Income : Type := mkIncome
  { inc_date : DateCell; inc_source : string; inc_amount : Q;
    inc_frequency : string }.

(** What [get_monthly_data] and [save_user_data] ask of a row: the columns
    ['date'] and ['amount']. *)
Class Transaction (R : Type) : Type :=
  { date : R → DateCell;
    amount : R → Q;
    (** [row['date'] = d], the other columns as they are *)
    with_date : DateCell → R → R;
    date_with_date : ∀ d r, date (with_date d r) = d;
    amount_with_date : ∀ d r, amount (with_date d r) = amount r }.

#[global] Instance Expense_Transaction : Transaction Expense :=
  {| date := exp_date; amount := exp_amount;
     with_date := λ d e, mkExpense d (exp_category e) (exp_amount e) (exp_description e);
     date_with_date := λ _ _, eq_refl;
     amount_with_date := λ _ _, eq_refl |}.

#[global] Instance Income_Transaction : Transaction Income :=
  {| date := inc_date; amount := inc_amount;
     with_date := λ d i, mkIncome d (inc_source i) (inc_amount i) (inc_frequency i);
     date_with_date := λ _ _, eq_refl;
     amount_with_date := λ _ _, eq_refl |}.

Record Goal : Type := mkGoal
  { goal_name : string; goal_target : Q; goal_current : Q; goal_deadline : string }.

(** The values of the profile dict: strings, or [None] for the email of a
    session without one. *)
Inductive value : Type := VNone | VStr (s : string).

Abbreviation Profile := (gmap string value).

(** The budget dict, in insertion order. *)
Abbreviation Budget := (list (string * Q)).

(** The document of one user in the [users] collection. A key that
    [load_user_data] reads with [get] and a default may be missing. *)
Record Document : Type := mkDocument
  { doc_user_id : string;
    doc_email : option string;
    doc_expenses : option (list Expense);
    doc_income : option (list Income);
    doc_budget : option Budget;
    doc_savings_goals : option (list Goal);
    doc_user_profile : option Profile;
    doc_last_updated : option Date }.

(** The handle [init_mongodb] returns. *)
Inductive Db : Type := MongoDatabase.

(** [st.session_state]. [user_email] is created by [authenticate_user]
    before anything reads it, so its [None] is Python's [None]; for the
    other entries [None] is a missing key. *)
Record SessionState : Type := mkSession
  { mongodb_available : option bool;
    db_connection : option Db;
    user_email : option string;
    user_id : option string;
    data_loaded : bool;
    expenses : option (Pd.DataFrame Expense);
    income : option (Pd.DataFrame Income);
    budget : option Budget;
    savings_goals : option (list Goal);
    user_profile : option Profile }.

Definition fresh_session : SessionState :=
  mkSession None None None None false None None None None None.

Definition set_mongodb_available (b : bool) (s : SessionState) : SessionState :=
  mkSession (Some b) (db_connection s) (user_email s) (user_id s) (data_loaded s)
    (expenses s) (income s) (budget s) (savings_goals s) (user_profile s).
Definition set_db_connection (d : Db) (s : SessionState) : SessionState :=
  mkSession (mongodb_available s) (Some d) (user_email s) (user_id s) (data_loaded s)
    (expenses s) (income s) (budget s) (savings_goals s) (user_profile s).
Definition set_user_email (e : option string) (s : SessionState) : SessionState :=
  mkSession (mongodb_available s) (db_connection s) e (user_id s) (data_loaded s)
    (expenses s) (income s) (budget s) (savings_goals s) (user_profile s).
Definition set_user_id (u : option string) (s : SessionState) : SessionState :=
  mkSession (mongodb_available s) (db_connection s) (user_email s) u (data_loaded s)
    (expenses s) (income s) (budget s) (savings_goals s) (user_profile s).
Definition set_data_loaded (s : SessionState) : SessionState :=
  mkSession (mongodb_available s) (db_connection s) (user_email s) (user_id s) true
    (expenses s) (income s) (budget s) (savings_goals s) (user_profile s).
Definition set_expenses (df : Pd.DataFrame Expense) (s : SessionState) : SessionState :=
  mkSession (mongodb_available s) (db_connection s) (user_email s) (user_id s) (data_loaded s)
    (Some df) (income s) (budget s) (savings_goals s) (user_profile s).
Definition set_income (df : Pd.DataFrame Income) (s : SessionState) : SessionState :=
  mkSession (mongodb_available s) (db_connection s) (user_email s) (user_id s) (data_loaded s)
    (expenses s) (Some df) (budget s) (savings_goals s) (user_profile s).
Definition set_budget (b : Budget) (s : SessionState) : SessionState :=
  mkSession (mongodb_available s) (db_connection s) (user_email s) (user_id s) (data_loaded s)
    (expenses s) (income s) (Some b) (savings_goals s) (user_profile s).
Definition set_savings_goals (g : list Goal) (s : SessionState) : SessionState :=
  mkSession (mongodb_available s) (db_connection s) (user_email s) (user_id s) (data_loaded s)
    (expenses s) (income s) (budget s) (Some g) (user_profile s).
Definition set_user_profile (p : Profile) (s : SessionState) : SessionState :=
  mkSession (mongodb_available s) (db_connection s) (user_email s) (user_id s) (data_loaded s)
    (expenses s) (income s) (budget s) (savings_goals s) (Some p).

(** The session state together with the [users] collection of the
    database server. *)
Record World : Type := mkWorld
  { session : SessionState; users : gmap string Document }.

(* ===================================================================== *)
(** * Computations: state, and exceptions that leave the state as it is *)
(* ===================================================================== *)

Definition M (A : Type) : Type := World → result A * World.

#[global] Instance M_ret : MRet M := λ A a w, (Ok a, w).
#[global] Instance M_bind : MBind M := λ A B f m w,
  match m w with
  | (Ok a, w') => f a w'
  | (Raise e, w') => (Raise e, w')
  end.

Definition raise {A : Type} (e : exn) : M A := λ w, (Raise e, w).

(** [try: body except Exception: handler] *)
Definition try_except {A : Type} (body : M A) (handler : exn → M A) : M A :=
  λ w, match body w with
       | (Ok a, w') => (Ok a, w')
       | (Raise e, w') => handler e w'
       end.

Definition lift {A : Type} (r : result A) : M A := λ w, (r, w).

(** Reads and writes of [st.session_state]. *)
Definition gets {A : Type} (proj : SessionState → A) : M A :=
  λ w, (Ok (proj (session w)), w).

Definition modify (f : SessionState → SessionState) : M unit :=
  λ w, (Ok (), mkWorld (f (session w)) (users w)).

(** [st.session_state.name]: an [AttributeError] when the key is missing. *)
Definition attr {A : Type} (name : string) (proj : SessionState → option A) : M A :=
  o ← gets proj;
  match o with Some a => mret a | None => raise (AttributeError name) end.

(** [st.session_state.get('mongodb_available', False)] *)
Definition get_mongodb_available : M bool :=
  gets (λ s, default false (mongodb_available s)).

(** [name in st.session_state] *)
Definition has_key {A : Type} (proj : SessionState → option A) : M bool :=
  gets (λ s, bool_decide (is_Some (proj s))).

(** The two calls on [db.users]. Whether the server fails the call is
    decided by the environment: [fault]. *)
Definition find_one (fault : bool) (uid : string) : M (option Document) :=
  λ w, if fault then (Raise PyMongoError, w) else (Ok (users w !! uid), w).

Definition replace_one_upsert (fault : bool) (uid : string) (doc : Document) : M unit :=
  λ w, if fault then (Raise PyMongoError, w)
       else (Ok (), mkWorld (session w) (<[uid := doc]> (users w))).

(* ===================================================================== *)
(** * [config.py] *)
(* ===================================================================== *)

Module Config.

(** Modelled from the spec: [config.DEFAULT_BUDGET] is not part of the
    sources at hand. The specification gives the default budget as "8
    fixed categories with preset allocations" and has a new user seeded
    "with the same defaults" as a stored document that lacks the field;
    those are the eight entries [load_user_data] writes out. *)
Definition DEFAULT_BUDGET : Budget :=
  [ ("Food", 5000); ("Transportation", 3000); ("Entertainment", 2000);
    ("Shopping", 4000); ("Utilities", 2500); ("Medical", 1500);
    ("Education", 2000); ("Miscellaneous", 1000) ]%Q.

(** Modelled from the spec: [config.DEFAULT_SAVINGS_GOALS] is not part
    of the sources at hand. The specification gives "two seeded
    entries", the same as for a stored document that lacks the field. *)
Definition DEFAULT_SAVINGS_GOALS : list Goal :=
  [ mkGoal "Emergency Fund" 50000 15000 "2024-12-31";
    mkGoal "Vacation" 25000 8000 "2024-08-15" ]%Q.

End Config.

(* ===================================================================== *)
(** * [connect.py] *)
(* ===================================================================== *)

(** The currency sign U+20B9 of the default profile, as its UTF-8 bytes. *)
Definition rupee : string :=
  String (ascii_of_N 226) (String (ascii_of_N 130) (String (ascii_of_N 185) "")).

(** [init_mongodb()]: [reachable] tells whether [MongoClient] and the ping
    succeed. *)
Definition init_mongodb (reachable : bool) : M (option Db) :=
  if reachable then
    modify (set_mongodb_available true);;
    mret (Some MongoDatabase)
  else
    modify (set_mongodb_available false);;
    mret None.

(** What the user does in the sidebar during one run of the script. The
    Login button exists while nobody is logged in, the Logout button while
    somebody is. *)
Inductive SidebarEvent : Type :=
| Idle
| Login (typed : string)
| Logout.

(** Logout keeps the two keys [user_email] and [user_id], both [None], and
    deletes every other key. *)
Definition logged_out : SessionState := fresh_session.

(** [authenticate_user()]. [st.rerun()] ends the run of the script; the
    run that it ends renders no page, which is the result [false]. *)
Definition authenticate_user (ev : SidebarEvent) : M bool :=
  current ← gets user_email;
  match current with
  | None =>
      match ev with
      | Login email =>
          if Py.truthy email then
            modify (set_user_email (Some (Py.strip (Py.lower email))));;
            e ← attr "user_email" user_email;
            modify (set_user_id (Some (hash_email e)));;
            mret false
          else mret false
      | _ => mret false
      end
  | Some _ =>
      match ev with
      | Logout => modify (λ _, logged_out);; mret false
      | _ => mret true
      end
  end.

(** The profile dict that [initialize_new_user] and the default of
    [load_user_data] build. *)
Definition profile_dict (name : string) (email : option string) (today : Date) : Profile :=
  <["name" := VStr name]>
  (<["email" := from_option VStr VNone email]>
  (<["member_since" := VStr (strftime_ymd today)]>
  (<["currency" := VStr rupee]>
  (<["language" := VStr "English"]> ∅)))).

(** [initialize_new_user()]; [now] is the reading of [datetime.now()]. *)
Definition initialize_new_user (now : Date) : M unit :=
  modify (set_expenses Pd.no_rows);;
  modify (set_income Pd.no_rows);;
  modify (set_budget Config.DEFAULT_BUDGET);;
  modify (set_savings_goals Config.DEFAULT_SAVINGS_GOALS);;
  email ← gets user_email;
  let name :=
    match email with
    | Some e => if Py.truthy e then Py.split_head "@" e else "User"
    | None => "User"
    end in
  modify (set_user_profile (profile_dict name email now)).

(** [load_user_data(db, user_id)] *)
Definition load_user_data (fault : bool) (now : Date) (db : option Db) (uid : string)
    : M unit :=
  try_except
    (available ← get_mongodb_available;
     if bool_decide (is_Some db) && available then
       user_data ← find_one fault uid;
       match user_data with
       | Some doc =>
           let expenses_data := default [] (doc_expenses doc) in
           modify (set_expenses
                     (match expenses_data with
                      | [] => Pd.no_rows
                      | _ => Pd.of_records expenses_data
                      end));;
           let income_data := default [] (doc_income doc) in
           modify (set_income
                     (match income_data with
                      | [] => Pd.no_rows
                      | _ => Pd.of_records income_data
                      end));;
           modify (set_budget (default
             [ ("Food", 5000); ("Transportation", 3000); ("Entertainment", 2000);
               ("Shopping", 4000); ("Utilities", 2500); ("Medical", 1500);
               ("Education", 2000); ("Miscellaneous", 1000) ]%Q
             (doc_budget doc)));;
           modify (set_savings_goals (default
             [ mkGoal "Emergency Fund" 50000 15000 "2024-12-31";
               mkGoal "Vacation" 25000 8000 "2024-08-15" ]%Q
             (doc_savings_goals doc)));;
           (* the default of the profile is built before [get] looks at
              the document: [None.split] is an AttributeError *)
           email ← gets user_email;
           e ← match email with
               | Some e => mret e
               | None => raise (AttributeError "split")
               end;
           modify (set_user_profile (default
             (profile_dict (Py.split_head "@" e) email now)
             (doc_user_profile doc)))
       | None => initialize_new_user now
       end
     else
       present ← has_key expenses;
       if negb present then initialize_new_user now else mret ())
    (λ _,
       present ← has_key expenses;
       if negb present then initialize_new_user now else mret ()).

(** The date cells of the records become ISO strings. *)
Definition iso_dates {R : Type} `{Transaction R} (records : list R) : list R :=
  (λ r, with_date (to_iso_cell (date r)) r) <$> records.

(** [save_user_data(db, user_id)] *)
Definition save_user_data (fault : bool) (now : Date) (db : option Db) (uid : string)
    : M bool :=
  try_except
    (exp ← attr "expenses" expenses;
     let expenses_data := if negb (Pd.empty exp) then Pd.to_dict_records exp else [] in
     inc ← attr "income" income;
     let income_data := if negb (Pd.empty inc) then Pd.to_dict_records inc else [] in
     let expenses_data := iso_dates expenses_data in
     let income_data := iso_dates income_data in
     available ← get_mongodb_available;
     if bool_decide (is_Some db) && available then
       email ← gets user_email;
       b ← attr "budget" budget;
       goals ← attr "savings_goals" savings_goals;
       profile ← attr "user_profile" user_profile;
       let user_data :=
         mkDocument uid email (Some expenses_data) (Some income_data)
                    (Some b) (Some goals) (Some profile) (Some now) in
       replace_one_upsert fault uid user_data;;
       (* print("user_id for saving:", st.session_state.user_id) *)
       _ ← attr "user_id" user_id;
       mret true
     else
       mret true)
    (λ _, mret true).

(** The tail of every mutating handler:
    [if st.session_state.get('mongodb_available', False) and
        'db_connection' in st.session_state: save_user_data(...)] *)
Definition save_if_connected (fault : bool) (now : Date) : M unit :=
  available ← get_mongodb_available;
  connected ← has_key db_connection;
  if available && connected then
    uid ← attr "user_id" user_id;
    conn ← gets db_connection;
    _ ← save_user_data fault now conn uid;
    mret ()
  else mret ().

(** [add_expense(date, category, amount, description)] *)
Definition add_expense (fault : bool) (now : Date)
    (d : DateCell) (category : string) (amt : Q) (description : string) : M unit :=
  let new_expense := Pd.of_records [mkExpense d category amt description] in
  exp ← attr "expenses" expenses;
  modify (set_expenses (Pd.concat_ignore_index exp new_expense));;
  save_if_connected fault now.

(** [add_income(date, source, amount, frequency)] *)
Definition add_income (fault : bool) (now : Date)
    (d : DateCell) (source : string) (amt : Q) (frequency : string) : M unit :=
  let new_income := Pd.of_records [mkIncome d source amt frequency] in
  inc ← attr "income" income;
  modify (set_income (Pd.concat_ignore_index inc new_income));;
  save_if_connected fault now.

(** [get_monthly_data(df)]. The assignment [df['date'] = pd.to_datetime(...)]
    changes the frame the caller passed, so the frame is returned next to
    the result. *)
Definition get_monthly_data {R : Type} `{Transaction R} (df : Pd.DataFrame R)
    : Q * Pd.DataFrame R :=
  if Pd.empty df then (0%Q, df)
  else
    let df := Pd.assign (λ r, with_date (to_datetime (date r)) r) df in
    (* Show all data, no date filtering *)
    (Pd.sum (amount <$> Pd.rows df), df).

(** A call [f(st.session_state.expenses)]: the argument is the frame the
    session state holds, and what [f] does to it is done to that frame. *)
Definition on_expenses {A : Type}
    (f : Pd.DataFrame Expense → A * Pd.DataFrame Expense) : M A :=
  df ← attr "expenses" expenses;
  modify (set_expenses (f df).2);;
  mret (f df).1.

Definition on_income {A : Type}
    (f : Pd.DataFrame Income → A * Pd.DataFrame Income) : M A :=
  df ← attr "income" income;
  modify (set_income (f df).2);;
  mret (f df).1.

(** One observation of [generate_ai_insights]; each constructor is one of
    the four message templates and carries the values the template
    interpolates. *)
Inductive Insight : Type :=
| HighestCategory (top_category : string) (top_amount : Q)
| BusiestDay (busiest_day : string)
| IncreaseSavings
| GreatJob (savings_rate : Q).

(** [idxmax()] of an empty series is a [ValueError]; [max()] of an empty
    series is NaN, which the model has no value for and reports the same
    way. Neither is met: the two are called on the groups of a frame that
    has rows. *)
Definition series_idxmax (s : list (string * Q)) : M string :=
  match Pd.idxmax s with Some k => mret k | None => raise ValueError end.

Definition series_max (s : list (string * Q)) : M Q :=
  match Pd.max s with Some v => mret v | None => raise ValueError end.

(** [generate_ai_insights()] *)
Definition generate_ai_insights : M (list Insight) :=
  exp ← attr "expenses" expenses;
  if negb (Pd.empty exp) then
    (* expenses_df = st.session_state.expenses.copy() *)
    let expenses_df := Pd.assign (λ r, with_date (to_datetime (date r)) r) exp in
    let by_category := Pd.groupby_sum exp_category exp_amount (Pd.rows expenses_df) in
    top_category ← series_idxmax by_category;
    top_amount ← series_max by_category;
    let insights := [HighestCategory top_category top_amount] in
    let day_of_week := λ r : Expense, day_name (date_of (exp_date r)) in
    busiest_day ← series_idxmax (Pd.groupby_sum day_of_week exp_amount (Pd.rows expenses_df));
    let insights := (insights ++ [BusiestDay busiest_day])%list in
    monthly_expenses ← on_expenses get_monthly_data;
    monthly_income ← on_income get_monthly_data;
    if Qlt_le_dec 0 monthly_income then
      ratio ← lift (Py.truediv (monthly_income - monthly_expenses) monthly_income);
      let savings_rate := (ratio * 100)%Q in
      if Qlt_le_dec savings_rate 20
      then mret (insights ++ [IncreaseSavings])%list
      else mret (insights ++ [GreatJob savings_rate])%list
    else mret insights
  else mret [].

(** The savings rate of [dashboard_page]:
    [(monthly_savings / monthly_income * 100) if monthly_income > 0 else 0] *)
Definition dashboard_savings_rate (monthly_income monthly_expenses : Q) : result Q :=
  let monthly_savings := (monthly_income - monthly_expenses)%Q in
  if Qlt_le_dec 0 monthly_income
  then ratio ← Py.truediv monthly_savings monthly_income; mret (ratio * 100)%Q
  else mret 0%Q.

(** The savings rate of [analytics_page]:
    [((monthly_income - monthly_expenses) / monthly_income * 100)
     if monthly_income > 0 else 0] *)
Definition analytics_savings_rate (monthly_income monthly_expenses : Q) : result Q :=
  if Qlt_le_dec 0 monthly_income
  then ratio ← Py.truediv (monthly_income - monthly_expenses) monthly_income;
       mret (ratio * 100)%Q
  else mret 0%Q.

(** The progress of a savings goal on the dashboard:
    [min(goal['current'] / goal['target'], 1.0)] *)
Definition goal_progress (goal : Goal) : result Q :=
  ratio ← Py.truediv (goal_current goal) (goal_target goal);
  mret (Qmin ratio 1).

(** One turn of the loop over [st.session_state.savings_goals]: the
    progress is computed and handed to [st.progress] before the next goal
    is looked at. *)
Definition show_goal (goal : Goal) : result Q :=
  progress ← goal_progress goal;
  St.progress progress;;
  mret progress.

(** [Series.max()] of a column of numbers; the program calls it on frames
    that have rows. *)
Definition column_max (xs : list Q) : option Q :=
  match xs with
  | [] => None
  | x :: xs' => Some (fold_left (λ m y, if Qlt_le_dec m y then y else m) xs' x)
  end.

(** [Series.mode().iloc[0]] of a column of strings: the most frequent
    value, the least one in string order when several are. *)
Definition mode_first (ks : list string) : option string :=
  Pd.idxmax ((λ k, (k, inject_Z (Z.of_nat (length (filter (λ x, x = k) ks)))))
               <$> Pd.group_keys ks).

(** The "Quick Stats" of the dashboard. *)
Record QuickStats : Type := mkQuickStats
  { largest_expense : option Q; most_frequent : option string }.

(** What [dashboard_page] computes, in the order of the page: the four key
    metrics (income, expenses, savings and savings rate), the progress of
    every savings goal as its progress bar is drawn, the insights, and
    the quick stats when there are expenses. The days until the next
    salary, which depend on the clock alone, are left out. *)
Definition dashboard_page
    : M (Q * Q * Q * Q * list Q * list Insight * option QuickStats) :=
  monthly_income ← on_income get_monthly_data;
  monthly_expenses ← on_expenses get_monthly_data;
  savings_rate ← lift (dashboard_savings_rate monthly_income monthly_expenses);
  _ ← attr "expenses" expenses;
  goals ← attr "savings_goals" savings_goals;
  progress ← lift (mapM show_goal goals);
  insights ← generate_ai_insights;
  exp ← attr "expenses" expenses;
  let stats :=
    if negb (Pd.empty exp)
    then Some (mkQuickStats (column_max (exp_amount <$> Pd.rows exp))
                            (mode_first (exp_category <$> Pd.rows exp)))
    else None in
  mret (monthly_income, monthly_expenses, (monthly_income - monthly_expenses)%Q,
        savings_rate, progress, insights, stats).

(** [day_order] of [analytics_page]. *)
Definition day_order : list string :=
  ["Monday"; "Tuesday"; "Wednesday"; "Thursday"; "Friday"; "Saturday"; "Sunday"].

(** [Series.reindex(index, fill_value=fill)] *)
Definition reindex (index : list string) (fill : Q) (s : list (string * Q))
    : list (string * Q) :=
  (λ k, (k, dict_get k fill s)) <$> index.

(** [weekly_pattern] of [analytics_page]: the sums per day name, put in
    the order of the week with 0 for a day without expenses. *)
Definition weekly_pattern (expenses_df : Pd.DataFrame Expense) : list (string * Q) :=
  reindex day_order 0%Q
    (Pd.groupby_sum (λ r : Expense, day_name (date_of (exp_date r))) exp_amount
                    (Pd.rows expenses_df)).

#[global] Instance Date_eq_dec : EqDecision Date.
Proof. solve_decision. Defined.

(** [len(expenses_df['date'].unique())]; the dates of the rows are
    calendar dates, as the date input gives them. *)
Definition nunique_dates (expenses_df : Pd.DataFrame Expense) : nat :=
  length (remove_dups ((λ r : Expense, date_of (exp_date r)) <$> Pd.rows expenses_df)).

(** How a run of [analytics_page] ends. The local variable [expenses_df]
    is bound only when there are expenses; the health metrics read it
    without that test, and the read of the unbound variable (an
    [UnboundLocalError]) ends the page. *)
Inductive AnalyticsOutcome : Type :=
| NoData
| UnboundLocalError (name : string)
| HealthMetrics (weekly : list (string * Q)) (avg_daily_spend savings_rate : Q)
                (largest_single_expense : option Q).

(** [analytics_page()]: the weekly pattern and the three health metrics.
    The time period chosen in the select box is not used by the page. *)
Definition analytics_page : M AnalyticsOutcome :=
  exp ← attr "expenses" expenses;
  nothing ← (if Pd.empty exp
             then inc ← attr "income" income; mret (Pd.empty inc)
             else mret false);
  if nothing : bool then mret NoData
  else
    exp ← attr "expenses" expenses;
    let expenses_df :=
      if negb (Pd.empty exp)
      then Some (Pd.assign (λ r, with_date (to_datetime (date r)) r) exp)
      else None in
    _ ← attr "income" income;
    match expenses_df with
    | None => mret (UnboundLocalError "expenses_df")
    | Some expenses_df =>
        avg_daily_spend ←
          (if negb (Pd.empty expenses_df)
           then lift (Py.truediv (Pd.sum (exp_amount <$> Pd.rows expenses_df))
                                 (inject_Z (Z.of_nat (Nat.max (nunique_dates expenses_df) 1))))
           else mret 0%Q);
        monthly_income ← on_income get_monthly_data;
        monthly_expenses ← on_expenses get_monthly_data;
        savings_rate ← lift (analytics_savings_rate monthly_income monthly_expenses);
        let largest_expense :=
          if negb (Pd.empty expenses_df)
          then column_max (exp_amount <$> Pd.rows expenses_df)
          else None in
        mret (HealthMetrics (weekly_pattern expenses_df) avg_daily_spend savings_rate
                            largest_expense)
    end.

(** The "Account Statistics" of [profile_page]: the number of
    transactions, the total expenses, the total income and the net
    position. *)
Definition profile_page : M (nat * Q * Q * Q) :=
  exp ← attr "expenses" expenses;
  inc ← attr "income" income;
  let total_transactions := (length exp + length inc)%nat in
  let total_expenses :=
    if negb (Pd.empty exp) then Pd.sum (exp_amount <$> Pd.rows exp) else 0%Q in
  let total_income :=
    if negb (Pd.empty inc) then Pd.sum (inc_amount <$> Pd.rows inc) else 0%Q in
  let net_worth := (total_income - total_expenses)%Q in
  mret (total_transactions, total_expenses, total_income, net_worth).

(** The Delete button of the row with label [idx] under "Recent
    Expenses". *)
Definition delete_expense (fault : bool) (now : Date) (idx : nat) : M unit :=
  exp ← attr "expenses" expenses;
  dropped ← lift (Pd.drop idx exp);
  modify (set_expenses dropped);;
  exp ← attr "expenses" expenses;
  modify (set_expenses (Pd.reset_index exp));;
  save_if_connected fault now.

(** The Delete button of the row with label [idx] under "Recent Income". *)
Definition delete_income (fault : bool) (now : Date) (idx : nat) : M unit :=
  inc ← attr "income" income;
  dropped ← lift (Pd.drop idx inc);
  modify (set_income dropped);;
  inc ← attr "income" income;
  modify (set_income (Pd.reset_index inc));;
  save_if_connected fault now.

(** The labels the Delete buttons are drawn for: those of [df.tail(5)]. *)
Definition delete_buttons {R : Type} (df : Pd.DataFrame R) : list nat :=
  Pd.labels (Pd.tail 5 df).

(** A row of [budget_data] in [budget_page]. *)
Record BudgetRow : Type := mkBudgetRow
  { Category : string; Budgeted : Q; Spent : Q; Remaining : Q; Usage : Q }.

(** [expenses_by_category] of [budget_page]: the dict of the sums per
    category, empty for a frame without rows. *)
Definition expenses_by_category (exp : Pd.DataFrame Expense) : list (string * Q) :=
  if negb (Pd.empty exp)
  then Pd.groupby_sum exp_category exp_amount (Pd.rows exp)
  else [].

(** The body of the loop over [st.session_state.budget.items()]. *)
Definition budget_row (by_category : list (string * Q)) (item : string * Q)
    : result BudgetRow :=
  let category := item.1 in
  let budget_amount := item.2 in
  let spent := dict_get category 0%Q by_category in
  let remaining := (budget_amount - spent)%Q in
  usage ← (if Qlt_le_dec 0 budget_amount
           then ratio ← Py.truediv spent budget_amount; mret (ratio * 100)%Q
           else mret 0%Q);
  mret (mkBudgetRow category budget_amount spent remaining usage).

(** [budget_data]: one row per item of the budget dict, in its order. *)
Definition budget_data (b : Budget) (exp : Pd.DataFrame Expense) : result (list BudgetRow) :=
  mapM (budget_row (expenses_by_category exp)) b.

(** The colour coding of a row: [st.error], [st.warning] or [st.success]. *)
Inductive Banner : Type := OverBudget | Warning | OnTrack.

Definition usage_banner (row : BudgetRow) : Banner :=
  if Qlt_le_dec 100 (Usage row) then OverBudget
  else if Qlt_le_dec 80 (Usage row) then Warning
  else OnTrack.

(** The builtin [sum] of Python on numbers: from 0, left to right. *)
Definition builtin_sum (xs : list Q) : Q := fold_left Qplus xs 0%Q.

(** The value given to the progress bar of a row:
    [min(row['Usage %'] / 100, 1.0)] *)
Definition usage_pct (row : BudgetRow) : Q := Qmin (Usage row / 100) 1.

(** One turn of the loop over the rows of the budget table: the progress
    bar of the row is drawn, then its banner. *)
Definition show_budget_row (row : BudgetRow) : result (BudgetRow * Q * Banner) :=
  St.progress (usage_pct row);;
  mret (row, usage_pct row, usage_banner row).

(** One number input of the edit form:
    [st.number_input(category, value=st.session_state.budget[category],
    min_value=0, step=100, key=...)]; the category is a key of the
    budget. *)
Definition budget_input (b : list (string * Q)) (category : string) : result unit :=
  St.number_input (dict_get category 0%Q b) 0.

(** What [budget_page] computes, in the order of the page: the total
    budget, the total spent and the remaining budget of the overview; the
    budget table, and for each of its rows the progress bar and the
    banner; then the number inputs of the edit form, those of the first
    half of the categories in the left column and the others in the right
    one. What the "Update Budget" button does is [update_budget] below. *)
Definition budget_page : M (Q * Q * Q * list (BudgetRow * Q * Banner)) :=
  b ← attr "budget" budget;
  let total_budget := builtin_sum b.*2 in
  monthly_expenses ← on_expenses get_monthly_data;
  let remaining_budget := (total_budget - monthly_expenses)%Q in
  exp ← attr "expenses" expenses;
  b ← attr "budget" budget;
  table ← lift (budget_data b exp);
  shown ← lift (mapM show_budget_row table);
  b ← attr "budget" budget;
  let categories := b.*1 in
  let mid_point := (length categories / 2)%nat in
  lift (mapM (budget_input b) (take mid_point categories));;
  lift (mapM (budget_input b) (drop mid_point categories));;
  mret (total_budget, monthly_expenses, remaining_budget, shown).

(** [d[k] = v] on a dict kept in insertion order. *)
Fixpoint dict_set {V : Type} (k : string) (v : V) (d : list (string * V))
    : list (string * V) :=
  match d with
  | [] => [(k, v)]
  | (k', v') :: d' =>
      if decide (k' = k) then (k, v) :: d' else (k', v') :: dict_set k v d'
  end.

(** The "Update Budget" button. The form shows one number input per
    category of the budget, the first half of the categories in the left
    column and the rest in the right one; [typed] is the number in the
    input of a category. *)
Definition update_budget (fault : bool) (now : Date) (typed : string → Q) : M unit :=
  b ← attr "budget" budget;
  let categories := b.*1 in
  let mid_point := (length categories / 2)%nat in
  let new_budget := foldl (λ d c, dict_set c (typed c) d) [] (take mid_point categories) in
  let new_budget :=
    foldl (λ d c, dict_set c (typed c) d) new_budget (drop mid_point categories) in
  modify (set_budget new_budget);;
  save_if_connected fault now.

(** The "Update Profile" button of [profile_page]; the email and
    member-since inputs are disabled and are not read. *)
Definition update_profile (fault : bool) (now : Date) (name : string) : M unit :=
  profile ← attr "user_profile" user_profile;
  modify (set_user_profile (<["name" := VStr name]> profile));;
  save_if_connected fault now.

(** [main()] up to the choice of the page: the result tells whether a
    page is rendered in this run. *)
Definition main (reachable fault : bool) (now : Date) (ev : SidebarEvent) : M bool :=
  db ← init_mongodb reachable;
  match db with Some d => modify (set_db_connection d) | None => mret () end;;
  authenticated ← authenticate_user ev;
  if negb authenticated then mret false
  else
    loaded ← gets data_loaded;
    (if negb loaded then
       uid ← attr "user_id" user_id;
       load_user_data fault now db uid;;
       modify set_data_loaded
     else mret ());;
    mret true.

(** Running a computation. *)
Definition run {A : Type} (m : M A) (w : World) : result A * World := m w.

(** Handlers run one after the other, each from the state the one before
    left, whatever it returned. *)
Fixpoint run_all {A : Type} (ms : list (M A)) (w : World) : World :=
  match ms with
  | [] => w
  | m :: ms' => run_all ms' (run m w).2
  end.

(** What a user can make the program do, one script run or one handler at
    a time. *)
Inductive Action : Type :=
| Rerun (reachable fault : bool) (now : Date) (ev : SidebarEvent)
| AddExpense (fault : bool) (now : Date) (d : DateCell) (category : string)
             (amt : Q) (description : string)
| AddIncome (fault : bool) (now : Date) (d : DateCell) (source : string)
            (amt : Q) (frequency : string)
| DeleteExpense (fault : bool) (now : Date) (idx : nat)
| DeleteIncome (fault : bool) (now : Date) (idx : nat)
| ShowDashboard
| ShowAnalytics
| ShowBudget
| ShowProfile
| UpdateBudget (fault : bool) (now : Date) (typed : string → Q)
| UpdateProfile (fault : bool) (now : Date) (name : string).

Definition perform (a : Action) : M unit :=
  match a with
  | Rerun reachable fault now ev => main reachable fault now ev;; mret ()
  | AddExpense fault now d category amt description =>
      add_expense fault now d category amt description
  | AddIncome fault now d source amt frequency =>
      add_income fault now d source amt frequency
  | DeleteExpense fault now idx => delete_expense fault now idx
  | DeleteIncome fault now idx => delete_income fault now idx
  | ShowDashboard => dashboard_page;; mret ()
  | ShowAnalytics => analytics_page;; mret ()
  | ShowBudget => budget_page;; mret ()
  | ShowProfile => profile_page;; mret ()
  | UpdateBudget fault now typed => update_budget fault now typed
  | UpdateProfile fault now name => update_profile fault now name
  end.

(** Both frames of the session state, when present, have a [RangeIndex]. *)
Definition frames_range_indexed (s : SessionState) : Prop :=
  (∀ df, expenses s = Some df → Pd.range_indexed df)
  ∧ (∀ df, income s = Some df → Pd.range_indexed df).

(** A computation that keeps the frames of the session state range-indexed,
    whether it returns or raises. *)
Definition keeps_index {A : Type} (m : M A) : Prop :=
  ∀ w, frames_range_indexed (session w) → frames_range_indexed (session (run m w).2).

(** A computation that keeps a property of the world, whether it returns
    or raises. *)
Definition preserves {A : Type} (I : World → Prop) (m : M A) : Prop :=
  ∀ w, I w → I (run m w).2.

(** The test before every save of a handler:
    [st.session_state.get('mongodb_available', False) and
     'db_connection' in st.session_state] *)
Definition connected (s : SessionState) : bool :=
  default false (mongodb_available s) && bool_decide (is_Some (db_connection s)).

(** Script runs and page views, as opposed to the handlers that change
    the data of the user. *)
Definition read_only (a : Action) : bool :=
  match a with
  | Rerun _ _ _ _ | ShowDashboard | ShowAnalytics | ShowBudget | ShowProfile => true
  | _ => false
  end.

(** Whether the write of a handler is made to fail. *)
Definition write_fails (a : Action) : bool :=
  match a with
  | AddExpense fault _ _ _ _ _ | AddIncome fault _ _ _ _ _
  | DeleteExpense fault _ _ | DeleteIncome fault _ _
  | UpdateBudget fault _ _ | UpdateProfile fault _ _ => fault
  | _ => false
  end.

(** The user id of the session is the hash of its email, and the email is
    in normal form. *)
Definition key_consistent (s : SessionState) : Prop :=
  ∀ e, user_email s = Some e →
       user_id s = Some (hash_email e) ∧ Py.strip (Py.lower e) = e.

(** The document [save_user_data] builds from a session state that has
    the five entries of the user. *)
Definition document_of (now : Date) (uid : string) (s : SessionState) : option Document :=
  exp ← expenses s;
  inc ← income s;
  b ← budget s;
  goals ← savings_goals s;
  profile ← user_profile s;
  Some (mkDocument uid (user_email s)
          (Some (iso_dates (Pd.rows exp))) (Some (iso_dates (Pd.rows inc)))
          (Some b) (Some goals) (Some profile) (Some now)).

(** The four pages of the navigation menu that only show data; the
    "Add Transaction" page and the forms are the handlers above. *)
Definition page_view (a : Action) : bool :=
  match a with
  | ShowDashboard | ShowAnalytics | ShowBudget | ShowProfile => true
  | _ => false
  end.

(** Two session states hold the same data of the user: the same records
    up to the form of their date cells, the same budget, goals, profile
    and email. *)
Definition same_data (s s' : SessionState) : Prop :=
  (iso_dates ∘ Pd.rows) <$> expenses s' = (iso_dates ∘ Pd.rows) <$> expenses s
  ∧ (iso_dates ∘ Pd.rows) <$> income s' = (iso_dates ∘ Pd.rows) <$> income s
  ∧ budget s' = budget s
  ∧ savings_goals s' = savings_goals s
  ∧ user_profile s' = user_profile s
  ∧ user_email s' = user_email s.

(** The sum of a list of amounts, from the right. *)
Definition sumQ (xs : list Q) : Q := foldr Qplus 0%Q xs.

(** * A sample state *)

Definition jan5 : Date := mkDate 2024 1 5.

Definition sample_expenses : Pd.DataFrame Expense :=
  Pd.of_records
    [ mkExpense (PyDate jan5) "Food" 250 "";
      mkExpense (IsoStr (mkDate 2024 1 6)) "Shopping" 1200 "shoes";
      mkExpense (PyDate (mkDate 2024 1 7)) "Food" 80 "lunch" ].

Definition sample_income : Pd.DataFrame Income :=
  Pd.of_records
    [ mkIncome (IsoStr (mkDate 2024 1 1)) "Salary" 50000 "Monthly";
      mkIncome (PyDate (mkDate 2024 1 3)) "Freelance" 7000 "One-time" ].

(** A user logged in as a@b.com, the store not reachable. *)
Definition sample_session : SessionState :=
  mkSession (Some false) None (Some "a@b.com") (Some (hash_email "a@b.com")) true
    (Some sample_expenses) (Some sample_income)
    (Some Config.DEFAULT_BUDGET) (Some Config.DEFAULT_SAVINGS_GOALS)
    (Some (profile_dict "a" (Some "a@b.com") (mkDate 2024 1 1))).

Definition sample_world : World := mkWorld sample_session ∅.

(** The same user with the store reachable. *)
Definition sample_online : World :=
  mkWorld (set_db_connection MongoDatabase (set_mongodb_available true sample_session)) ∅.

(** * Definitions that follow the words of the specification *)

(** "normalized (lower-cased, trimmed) email" *)
Definition normalize (email : string) : string := Py.strip (Py.lower email).

(** The UserKey of an email: the [user_id] the session holds after the
    login with that email, if the login takes place. *)
Definition UserKey (email : string) : option string :=
  user_id (session (run (authenticate_user (Login email)) (mkWorld fresh_session ∅)).2).

(** "removes exactly one element and shifts all subsequent indices down by
    one; sequence length decreases by exactly 1": the frame [after] is the
    frame [before] without the row at position [idx]. *)
Definition deleted_at {R : Type} (idx : nat) (before after : Pd.DataFrame R) : Prop :=
  Pd.rows after = delete idx (Pd.rows before)
  ∧ (length after + 1 = length before)%nat
  ∧ Pd.range_indexed after
  ∧ (∀ i : nat, (i < idx)%nat → Pd.iloc after i = Pd.iloc before i)
  ∧ (∀ i : nat, (idx ≤ i)%nat → Pd.iloc after i = Pd.iloc before (S i)).

(** "total of amount across a sequence; 0 for an empty sequence" *)
Fixpoint total {R : Type} `{Transaction R} (rs : list R) : Q :=
  match rs with
  | [] => 0%Q
  | r :: rs' => (amount r + total rs')%Q
  end.

(** * The digest as a finite value

    [hexdigest] renders eight words of 32 bits as 64 hexadecimal digits;
    a digit shows four bits. The definitions below name that finite
    value, so that the keys can be counted. *)

(** The four bits of a hexadecimal digit, the highest first. *)
Abbreviation Nibble := (bool * bool * bool * bool)%type.

Definition nibble_of (n : Z) : Nibble :=
  (Z.testbit n 3, Z.testbit n 2, Z.testbit n 1, Z.testbit n 0).

Definition nibble_value (b : Nibble) : Z :=
  (8 * Z.b2z b.1.1.1 + 4 * Z.b2z b.1.1.2 + 2 * Z.b2z b.1.2 + Z.b2z b.2)%Z.

(** The eight digits of a word, as [SHA256.hex_word] takes them. *)
Definition word_nibbles (w : Z) : vec Nibble 8 :=
  vmap (λ i, nibble_of (Z.land (Z.shiftr w (4 * i)) 0xf)) [# 7; 6; 5; 4; 3; 2; 1; 0]%Z.

(** The state [SHA256.digest] ends in. *)
Definition final_state (msg : list byte) : SHA256.state :=
  let ws := SHA256.words (SHA256.pad msg) in
  SHA256.blocks (length ws) ws SHA256.H0.

Definition digest_nibbles (msg : list byte) : vec (vec Nibble 8) 8 :=
  let h := final_state msg in
  vmap word_nibbles
    [# SHA256.ha h; SHA256.hb h; SHA256.hc h; SHA256.hd h;
       SHA256.he h; SHA256.hf h; SHA256.hg h; SHA256.hh h].

(** The 64 digits of a digest given by its bits. *)
Definition render_nibbles (d : vec (vec Nibble 8) 8) : string :=
  string_of_list_ascii
    (mjoin ((λ v : vec Nibble 8, (SHA256.hex_digit ∘ nibble_value) <$> vec_to_list v)
              <$> vec_to_list d)).

(** An email of the letters a and b, one letter for each bit. *)
Definition letters {n : nat} (v : vec bool n) : string :=
  string_of_list_ascii ((λ b : bool, if b then "a" else "b")%char <$> vec_to_list v).

(* ===================================================================== *)
(** * Checks of the model against known values *)
(* ===================================================================== *)

Example sha256_constants :
  length SHA256.K = 64%nat
  ∧ SHA256.K !! 0%nat = Some 0x428a2f98%Z ∧ SHA256.K !! 63%nat = Some 0xc67178f2%Z
  ∧ SHA256.ha SHA256.H0 = 0x6a09e667%Z ∧ SHA256.hh SHA256.H0 = 0x5be0cd19%Z.
Proof. vm_compute. auto. Qed.

Example sha256_abc :
  SHA256.hexdigest (Py.encode "abc")
  = "ba7816bf8f01cfea414140de5dae2223b00361a396177a9cb410ff61f20015ad".
Proof. vm_compute. reflexivity. Qed.

Example sha256_empty :
  SHA256.hexdigest []
  = "e3b0c44298fc1c149afbf4c8996fb92427ae41e4649b934ca495991b7852b855".
Proof. vm_compute. reflexivity. Qed.

Example hash_email_lower :
  hash_email "a@b.com"
  = "fb98d44ad7501a959f3f4f4a3f004fe2d9e581ea6207e218c4b02c08a4d75adf".
Proof. vm_compute. reflexivity. Qed.

Example hash_email_upper :
  hash_email "A@b.com"
  = "160a28a721241802d21388c9259e61fce252c0c05a66f4e6a92a0edd5a852d81".
Proof. vm_compute. reflexivity. Qed.

Example normalize_trims_and_lowers : normalize "  A@B.Com " = "a@b.com".
Proof. vm_compute. reflexivity. Qed.

Example day_name_known :
  day_name (mkDate 1970 1 1) = "Thursday"
  ∧ day_name (mkDate 2000 2 29) = "Tuesday"
  ∧ day_name (mkDate 2024 1 5) = "Friday".
Proof. vm_compute. auto. Qed.

Example group_keys_sorted :
  Pd.group_keys ["Food"; "Apple"; "Zed"; "Food"; "Bar"] = ["Apple"; "Bar"; "Food"; "Zed"].
Proof. vm_compute. reflexivity. Qed.

(* ===================================================================== *)
(** * Persistence: [save_user_data] *)
(* ===================================================================== *)

Section Save.
Variables (fault : bool) (now : Date) (db : option Db) (uid : string).

Lemma save_user_data_result (w : World) :
  (run (save_user_data fault now db uid) w).1 = Ok true.
Proof.
  destruct w as [[av dbc em ui dl [ex|] [inc|] [b|] [g|] [p|]] us];
    destruct db, fault, av as [[]|], ui; reflexivity.
Qed.

Lemma save_user_data_session (w : World) :
  session (run (save_user_data fault now db uid) w).2 = session w.
Proof.
  destruct w as [[av dbc em ui dl [ex|] [inc|] [b|] [g|] [p|]] us];
    destruct db, fault, av as [[]|], ui; reflexivity.
Qed.

Lemma save_user_data_unavailable (w : World) :
  db = None ∨ default false (mongodb_available (session w)) = false →
  (run (save_user_data fault now db uid) w).2 = w.
Proof.
  destruct w as [[av dbc em ui dl [ex|] [inc|] [b|] [g|] [p|]] us];
    destruct db, fault, av as [[]|], ui; cbn; intros [?|?];
    try discriminate; reflexivity.
Qed.

Lemma save_user_data_write_fails (w : World) :
  fault = true → (run (save_user_data fault now db uid) w).2 = w.
Proof.
  intros ->.
  destruct w as [[av dbc em ui dl [ex|] [inc|] [b|] [g|] [p|]] us];
    destruct db, av as [[]|], ui; reflexivity.
Qed.

End Save.

(** C1. [save_user_data] returns [True] from every state, for every handle
    and whether or not the write fails: no exception reaches the caller.
    It never changes the session state. Without a handle, or with the
    store flagged unavailable, it changes nothing at all; so does a call
    whose write fails. *)
Theorem save_user_data_always_reports_success
    (fault : bool) (now : Date) (db : option Db) (uid : string) (w : World) :
  let out := run (save_user_data fault now db uid) w in
  out.1 = Ok true
  ∧ session out.2 = session w
  ∧ (db = None ∨ default false (mongodb_available (session w)) = false → out.2 = w)
  ∧ (fault = true → out.2 = w).
Proof.
  cbv zeta. split; [apply save_user_data_result|].
  split; [apply save_user_data_session|].
  split; [apply save_user_data_unavailable | apply save_user_data_write_fails].
Qed.

(* ===================================================================== *)
(** * The user key *)
(* ===================================================================== *)

(** The key a login stores: the hash of the normalised email, and no key
    for the empty input, which does not log in. *)
Lemma UserKey_unfold (email : string) :
  UserKey email
  = if Py.truthy email then Some (hash_email (normalize email)) else None.
Proof. destruct email; reflexivity. Qed.

Lemma truthy_nonempty (s : string) : s ≠ "" → Py.truthy s = true.
Proof. destruct s; [congruence | reflexivity]. Qed.

(** ** Counting the keys *)

Lemma nibble_round_trip (y : Z) :
  nibble_value (nibble_of (Z.land y 0xf)) = Z.land y 0xf.
Proof.
  assert (Hrange : (0 ≤ Z.land y 0xf < 16)%Z).
  { change 0xf%Z with (Z.ones 4). rewrite Z.land_ones by lia.
    apply Z.mod_pos_bound. reflexivity. }
  set (z := Z.land y 0xf) in *.
  assert (Hz : (z = 0 ∨ z = 1 ∨ z = 2 ∨ z = 3 ∨ z = 4 ∨ z = 5 ∨ z = 6 ∨ z = 7
                ∨ z = 8 ∨ z = 9 ∨ z = 10 ∨ z = 11 ∨ z = 12 ∨ z = 13 ∨ z = 14
                ∨ z = 15)%Z) by lia.
  clear Hrange. clearbody z.
  repeat (destruct Hz as [->|Hz]; [reflexivity|]). subst z. reflexivity.
Qed.

Lemma hex_word_nibbles (w : Z) :
  SHA256.hex_word w
  = (SHA256.hex_digit ∘ nibble_value) <$> vec_to_list (word_nibbles w).
Proof.
  unfold SHA256.hex_word, word_nibbles.
  cbn [vmap vec_to_list fmap list_fmap compose].
  rewrite !nibble_round_trip. reflexivity.
Qed.

(** The key is a function of the 256 bits of the digest. *)
Lemma hexdigest_render (msg : list byte) :
  SHA256.hexdigest msg = render_nibbles (digest_nibbles msg).
Proof.
  unfold SHA256.hexdigest, render_nibbles, digest_nibbles, SHA256.digest.
  fold (final_state msg). cbv zeta.
  cbn [vmap vec_to_list fmap list_fmap]. rewrite !hex_word_nibbles. reflexivity.
Qed.

Lemma letters_inj {n : nat} (v1 v2 : vec bool n) : letters v1 = letters v2 → v1 = v2.
Proof.
  unfold letters. intros Heq. apply vec_to_list_inj2.
  apply (f_equal list_ascii_of_string) in Heq.
  rewrite !list_ascii_of_string_of_list_ascii in Heq.
  revert Heq. generalize (vec_to_list v1) (vec_to_list v2). clear.
  induction l as [|b l IH]; intros [|b' l']; cbn; intros Heq;
    try discriminate; [reflexivity|].
  injection Heq as Hb Hl. f_equal; [|apply IH, Hl].
  destruct b, b'; try reflexivity; discriminate.
Qed.

Lemma letters_nonempty {n : nat} (v : vec bool (S n)) : letters v ≠ "".
Proof. inv_vec v. intros b v. unfold letters. destruct b; discriminate. Qed.

(** An email of the letters a and b is in normal form. *)
Lemma normalize_letters {n : nat} (v : vec bool n) : normalize (letters v) = letters v.
Proof.
  unfold normalize, letters. generalize (vec_to_list v). clear. intros l.
  assert (Hlower : Py.lower (string_of_list_ascii
                     ((λ b : bool, if b then "a" else "b")%char <$> l))
                   = string_of_list_ascii ((λ b : bool, if b then "a" else "b")%char <$> l)).
  { induction l as [|b l IH]; [reflexivity|].
    cbn [fmap list_fmap string_of_list_ascii Py.lower]. rewrite IH.
    destruct b; reflexivity. }
  rewrite Hlower. unfold Py.strip.
  assert (Hl : Py.lstrip (string_of_list_ascii
                 ((λ b : bool, if b then "a" else "b")%char <$> l))
               = string_of_list_ascii ((λ b : bool, if b then "a" else "b")%char <$> l)).
  { destruct l as [|[] l]; reflexivity. }
  rewrite Hl. clear Hlower Hl. induction l as [|b l IH]; [reflexivity|].
  cbn [fmap list_fmap string_of_list_ascii Py.rstrip]. rewrite IH.
  destruct b; destruct (string_of_list_ascii _); reflexivity.
Qed.

(** SHA-256 has 2^256 digests, and there are 2^257 emails of 257 letters a
    and b: two of them have the same key. *)
Lemma two_emails_with_one_key :
  ∃ e1 e2 : string,
    e1 ≠ "" ∧ e2 ≠ "" ∧ normalize e1 ≠ normalize e2 ∧ UserKey e1 = UserKey e2.
Proof.
  destruct (finite_pigeonhole
              (λ v : vec bool 257, digest_nibbles (Py.encode (letters v))))
    as (v1 & v2 & Hne & Heq).
  { rewrite !vec_card, !prod_card, bool_card.
    rewrite <- (Nat.pow_mul_r _ 8 8).
    change (2 * 2 * 2 * 2)%nat with (2 ^ 4)%nat.
    rewrite <- (Nat.pow_mul_r 2 4 (8 * 8)).
    apply Nat.pow_lt_mono_r; [lia|]. cbv. lia. }
  exists (letters v1), (letters v2). split_and!.
  - apply letters_nonempty.
  - apply letters_nonempty.
  - rewrite !normalize_letters. intros Hsame. apply Hne, letters_inj, Hsame.
  - rewrite !UserKey_unfold, !truthy_nonempty by apply letters_nonempty.
    rewrite !normalize_letters. unfold hash_email.
    rewrite !hexdigest_render, Heq. reflexivity.
Qed.

(** C2, as stated, fails on the code in each of its parts. The empty
    input and a blank input have the same normal form, but the login is
    refused for the first, which gets no key, and made for the second,
    whose key is the hash of the empty string. Two emails that are not
    empty and have different normal forms share a key. And [hash_email]
    itself does not normalise: it gives two emails that differ only in
    the case of one letter different values. *)
Lemma UserKey_not_iff_normalize :
  (normalize "" = normalize " " ∧ UserKey "" = None
   ∧ UserKey " " = Some (hash_email "") ∧ UserKey "" ≠ UserKey " ")
  ∧ (∃ e1 e2 : string,
       e1 ≠ "" ∧ e2 ≠ "" ∧ normalize e1 ≠ normalize e2 ∧ UserKey e1 = UserKey e2)
  ∧ (normalize "A@b.com" = normalize "a@b.com"
     ∧ hash_email "A@b.com" ≠ hash_email "a@b.com").
Proof.
  split_and!.
  - reflexivity.
  - reflexivity.
  - reflexivity.
  - discriminate.
  - exact two_emails_with_one_key.
  - reflexivity.
  - vm_compute. discriminate.
Qed.

(** C2, amended. The key of a typed email that is not empty is the one
    [authenticate_user] stores: [hash_email] of the lower-cased and
    trimmed email, the normalisation being applied by [authenticate_user]
    before it calls [hash_email]. Two such emails with the same normal
    form have the same key. *)
Theorem UserKey_of_normalized_email (e1 e2 : string) :
  e1 ≠ "" → e2 ≠ "" →
  UserKey e1 = Some (hash_email (normalize e1))
  ∧ UserKey e2 = Some (hash_email (normalize e2))
  ∧ (normalize e1 = normalize e2 → UserKey e1 = UserKey e2).
Proof.
  intros H1 H2. rewrite !UserKey_unfold, !truthy_nonempty by assumption.
  split_and!; [reflexivity | reflexivity |].
  intros ->. reflexivity.
Qed.

Lemma UserKey_of_normalized_email_witness :
  UserKey "A@b.com" = UserKey " a@B.com ".
Proof.
  destruct (UserKey_of_normalized_email "A@b.com" " a@B.com ") as (_ & _ & Hsame);
    [discriminate | discriminate |].
  apply Hsame. reflexivity.
Defined.

(* ===================================================================== *)
(** * Totals: [get_monthly_data] *)
(* ===================================================================== *)

Lemma fold_left_Qplus (xs : list Q) (a : Q) :
  (fold_left Qplus xs a == a + foldr Qplus 0 xs)%Q.
Proof.
  revert a. induction xs as [|x xs IH]; intros a; simpl.
  - ring.
  - rewrite IH. ring.
Qed.

Section Totals.
Context {R : Type} `{Transaction R}.

Lemma sum_amounts_total (rs : list R) : (Pd.sum (amount <$> rs) == total rs)%Q.
Proof.
  unfold Pd.sum. rewrite fold_left_Qplus, Qplus_0_l.
  induction rs as [|r rs IH]; [reflexivity|].
  cbn [fmap list_fmap foldr total]. rewrite <- IH. reflexivity.
Qed.

Lemma rows_assign (upd : R → R) (df : Pd.DataFrame R) :
  Pd.rows (Pd.assign upd df) = upd <$> Pd.rows df.
Proof.
  unfold Pd.rows, Pd.assign. rewrite <- !list_fmap_compose.
  apply list_fmap_ext. intros _ [l r] _. reflexivity.
Qed.

Lemma labels_assign (upd : R → R) (df : Pd.DataFrame R) :
  Pd.labels (Pd.assign upd df) = Pd.labels df.
Proof.
  unfold Pd.labels, Pd.assign. rewrite <- !list_fmap_compose.
  apply list_fmap_ext. intros _ [l r] _. reflexivity.
Qed.

Lemma empty_assign (upd : R → R) (df : Pd.DataFrame R) :
  Pd.empty (Pd.assign upd df) = Pd.empty df.
Proof. destruct df; reflexivity. Qed.

Lemma amounts_redated (f : R → DateCell) (rs : list R) :
  amount <$> ((λ r, with_date (f r) r) <$> rs) = amount <$> rs.
Proof.
  rewrite <- list_fmap_compose. apply list_fmap_ext.
  intros _ r _. apply amount_with_date.
Qed.

(** The value [get_monthly_data] returns. *)
Lemma get_monthly_data_value (df : Pd.DataFrame R) :
  (get_monthly_data df).1 = Pd.sum (amount <$> Pd.rows df).
Proof.
  unfold get_monthly_data. destruct df as [|lr df]; [reflexivity|].
  cbn [Pd.empty fst]. rewrite rows_assign, amounts_redated. reflexivity.
Qed.

(** The frame [get_monthly_data] leaves behind. *)
Lemma get_monthly_data_frame (df : Pd.DataFrame R) :
  (get_monthly_data df).2 = Pd.assign (λ r, with_date (to_datetime (date r)) r) df.
Proof. destruct df; reflexivity. Qed.

End Totals.

(** C3. [get_monthly_data] returns the total of the [amount] column over
    all rows of the frame it is given; whatever the dates of the rows are
    changed to, the result is the same (no row is filtered by date); and
    for the frame without rows the result is 0. *)
Theorem get_monthly_data_is_total {R : Type} `{Transaction R} (df : Pd.DataFrame R) :
  ((get_monthly_data df).1 == total (Pd.rows df))%Q
  ∧ (∀ redate : R → DateCell,
       (get_monthly_data (Pd.assign (λ r, with_date (redate r) r) df)).1
       = (get_monthly_data df).1)
  ∧ (get_monthly_data (@Pd.no_rows R)).1 = 0%Q.
Proof.
  split; [|split].
  - rewrite get_monthly_data_value. apply sum_amounts_total.
  - intros redate. rewrite !get_monthly_data_value, rows_assign, amounts_redated.
    reflexivity.
  - reflexivity.
Qed.

(* ===================================================================== *)
(** * Grouping by category and the budget table *)
(* ===================================================================== *)

Lemma elem_of_insert_key (k k' : string) (ks : list string) :
  k ∈ Pd.insert_key k' ks ↔ k = k' ∨ k ∈ ks.
Proof.
  induction ks as [|a ks IH]; simpl.
  - rewrite elem_of_cons. tauto.
  - destruct (String.compare k' a) eqn:E.
    + apply String.compare_eq_iff in E. subst a.
      rewrite elem_of_cons. tauto.
    + rewrite elem_of_cons. tauto.
    + rewrite !elem_of_cons, IH. tauto.
Qed.

Lemma elem_of_group_keys (k : string) (ks : list string) :
  k ∈ Pd.group_keys ks ↔ k ∈ ks.
Proof.
  induction ks as [|a ks IH]; simpl; [reflexivity|].
  rewrite elem_of_insert_key, IH, elem_of_cons. tauto.
Qed.

Lemma group_keys_nonempty (k : string) (ks : list string) :
  Pd.group_keys (k :: ks) ≠ [].
Proof.
  intros E. assert (Hk : k ∈ Pd.group_keys (k :: ks))
    by (apply elem_of_group_keys; left).
  rewrite E in Hk. inversion Hk.
Qed.

Lemma dict_get_fmap {V : Type} (k : string) (d : V) (f : string → V) (keys : list string) :
  dict_get k d ((λ k, (k, f k)) <$> keys) = if bool_decide (k ∈ keys) then f k else d.
Proof.
  induction keys as [|a keys IH]; [reflexivity|].
  cbn [fmap list_fmap dict_get]. destruct (decide (a = k)) as [->|Hne].
  - rewrite bool_decide_eq_true_2 by left. reflexivity.
  - rewrite IH, (bool_decide_ext (k ∈ keys) (k ∈ a :: keys)); [reflexivity|].
    rewrite elem_of_cons. split; [tauto | intros [E|Hin]; [congruence | exact Hin]].
Qed.

Lemma filter_category_absent (c : string) (rs : list Expense) :
  c ∉ exp_category <$> rs → filter (λ e, exp_category e = c) rs = [].
Proof.
  induction rs as [|r rs IH]; [reflexivity|].
  cbn [fmap list_fmap]. intros Hc. rewrite filter_cons.
  destruct (decide (exp_category r = c)) as [E|_].
  - exfalso. apply Hc. rewrite E. left.
  - apply IH. intros Hin. apply Hc. right. exact Hin.
Qed.

(** What the dict of [budget_page] gives for a category: the total of the
    expenses of that category, which is 0 when there is none. *)
Lemma expenses_by_category_get (c : string) (exp : Pd.DataFrame Expense) :
  (dict_get c 0 (expenses_by_category exp)
   == total (filter (λ e, exp_category e = c) (Pd.rows exp)))%Q.
Proof.
  unfold expenses_by_category. destruct (Pd.empty exp) eqn:Hempty.
  - destruct exp; [reflexivity | discriminate].
  - cbn [negb]. unfold Pd.groupby_sum. rewrite dict_get_fmap.
    case_bool_decide as Hin.
    + exact (sum_amounts_total (filter (λ e, exp_category e = c) (Pd.rows exp))).
    + rewrite elem_of_group_keys in Hin.
      rewrite filter_category_absent by exact Hin. reflexivity.
Qed.

Lemma Qeq_bool_positive (q : Q) : (0 < q)%Q → Qeq_bool q 0 = false.
Proof.
  intros Hpos. destruct (Qeq_bool q 0) eqn:E; [|reflexivity].
  apply Qeq_bool_iff in E. rewrite E in Hpos. inversion Hpos.
Qed.

Lemma truediv_positive (x y : Q) : (0 < y)%Q → Py.truediv x y = Ok (x / y)%Q.
Proof. intros Hpos. unfold Py.truediv. rewrite Qeq_bool_positive by exact Hpos. reflexivity. Qed.

(** One turn of the loop over the budget. *)
Lemma budget_row_value (by_category : list (string * Q)) (item : string * Q) :
  ∃ row, budget_row by_category item = Ok row
    ∧ Category row = item.1
    ∧ Budgeted row = item.2
    ∧ Spent row = dict_get item.1 0%Q by_category
    ∧ Remaining row = (item.2 - dict_get item.1 0 by_category)%Q
    ∧ ((0 < item.2)%Q → Usage row = (dict_get item.1 0 by_category / item.2 * 100)%Q)
    ∧ ((item.2 <= 0)%Q → Usage row = 0%Q).
Proof.
  unfold budget_row. destruct (Qlt_le_dec 0 item.2) as [Hpos|Hle].
  - rewrite truediv_positive by exact Hpos. eexists. split; [reflexivity|].
    cbn. repeat split; try reflexivity.
    intros Hle. exfalso. exact (Qlt_not_le _ _ Hpos Hle).
  - eexists. split; [reflexivity|]. cbn. repeat split; try reflexivity.
    intros Hpos. exfalso. exact (Qlt_not_le _ _ Hpos Hle).
Qed.

(** The banner of a row follows the two thresholds. *)
Lemma usage_banner_tiers (row : BudgetRow) :
  (usage_banner row = OverBudget ↔ (100 < Usage row)%Q)
  ∧ (usage_banner row = Warning ↔ (80 < Usage row)%Q ∧ (Usage row <= 100)%Q)
  ∧ (usage_banner row = OnTrack ↔ (Usage row <= 80)%Q).
Proof.
  unfold usage_banner.
  destruct (Qlt_le_dec 100 (Usage row)) as [H100|H100];
    [|destruct (Qlt_le_dec 80 (Usage row)) as [H80|H80]];
    repeat split; intros; try discriminate; try reflexivity; try assumption; lra.
Qed.

(** C4. [budget_data] succeeds and has one row per item of the budget
    dict, in the order of the dict and whatever the categories of the
    expenses are. In the row of a category, the spent amount is what the
    dict of sums per category holds for it, 0 when it holds nothing, and
    equals the total of the expenses of that category; the remaining
    amount is budgeted minus spent; the usage is spent / budgeted * 100
    for a positive budget and 0 otherwise; the banner is over-budget
    above 100, warning above 80 and on-track otherwise. *)
Theorem budget_data_one_row_per_budget_category
    (b : Budget) (exp : Pd.DataFrame Expense) :
  ∃ table, budget_data b exp = Ok table
    ∧ Category <$> table = b.*1
    ∧ Forall2 (λ (item : string * Q) (row : BudgetRow),
        Category row = item.1
        ∧ Budgeted row = item.2
        ∧ Spent row = dict_get item.1 0%Q (expenses_by_category exp)
        ∧ (Spent row == total (filter (λ e, exp_category e = item.1) (Pd.rows exp)))%Q
        ∧ Remaining row = (Budgeted row - Spent row)%Q
        ∧ ((0 < Budgeted row)%Q → Usage row = (Spent row / Budgeted row * 100)%Q)
        ∧ ((Budgeted row <= 0)%Q → Usage row = 0%Q)
        ∧ (usage_banner row = OverBudget ↔ (100 < Usage row)%Q)
        ∧ (usage_banner row = Warning ↔ (80 < Usage row)%Q ∧ (Usage row <= 100)%Q)
        ∧ (usage_banner row = OnTrack ↔ (Usage row <= 80)%Q)) b table.
Proof.
  unfold budget_data. induction b as [|item b (table & Htable & Hcats & Hrows)].
  - exists []. repeat split. constructor.
  - destruct (budget_row_value (expenses_by_category exp) item)
      as (row & Hrow & Hc & Hb & Hs & Hr & Hpos & Hzero).
    exists (row :: table). cbn [mapM]. rewrite Hrow, Htable.
    split; [reflexivity|]. split.
    + cbn [fmap list_fmap]. rewrite Hc, Hcats. reflexivity.
    + constructor; [|exact Hrows].
      destruct (usage_banner_tiers row) as (Hover & Hwarn & Htrack).
      rewrite Hb, Hs. split_and!; try assumption; try reflexivity.
      apply expenses_by_category_get.
Qed.

(* ===================================================================== *)
(** * Frames and their index *)
(* ===================================================================== *)

Section FrameFacts.
Context {R : Type}.
Implicit Types (rs : list R) (df : Pd.DataFrame R).

Lemma rows_range_index rs : Pd.rows (Pd.range_index rs) = rs.
Proof. apply snd_zip. rewrite length_seq. reflexivity. Qed.

Lemma labels_range_index rs : Pd.labels (Pd.range_index rs) = seq 0 (length rs).
Proof. apply fst_zip. rewrite length_seq. reflexivity. Qed.

Lemma length_rows df : length (Pd.rows df) = length df.
Proof. apply length_fmap. Qed.

Lemma length_range_index rs : length (Pd.range_index rs) = length rs.
Proof. rewrite <- length_rows, rows_range_index. reflexivity. Qed.

(** Every frame the program builds has a [RangeIndex]: the three
    constructors end in [range_index]. *)
Lemma range_indexed_range_index rs : Pd.range_indexed (Pd.range_index rs).
Proof.
  unfold Pd.range_indexed. rewrite labels_range_index, length_range_index.
  reflexivity.
Qed.

Lemma range_indexed_of_records rs : Pd.range_indexed (Pd.of_records rs).
Proof. apply range_indexed_range_index. Qed.

Lemma range_indexed_concat df1 df2 : Pd.range_indexed (Pd.concat_ignore_index df1 df2).
Proof. apply range_indexed_range_index. Qed.

Lemma range_indexed_reset_index df : Pd.range_indexed (Pd.reset_index df).
Proof. apply range_indexed_range_index. Qed.

Lemma range_indexed_unfold df :
  Pd.range_indexed df → df = Pd.range_index (Pd.rows df).
Proof.
  intros Hri. rewrite <- (zip_fst_snd df) at 1.
  unfold Pd.range_index. rewrite length_rows.
  unfold Pd.range_indexed, Pd.labels in Hri. rewrite Hri. reflexivity.
Qed.

(** Rows whose labels all lie above [k] pass the filter of [drop k]. *)
Lemma filter_label_below (k j : nat) rs :
  (k < j)%nat →
  filter (λ lr : nat * R, lr.1 ≠ k) (zip (seq j (length rs)) rs) = zip (seq j (length rs)) rs.
Proof.
  revert j. induction rs as [|r rs IH]; intros j Hlt; [reflexivity|].
  cbn [length seq zip zip_with]. rewrite filter_cons_True by (cbn; lia).
  rewrite IH by lia. reflexivity.
Qed.

(** Dropping the label [k + idx] from rows labelled [k, k+1, ...] leaves
    the rows without the one at position [idx]. *)
Lemma rows_filter_label (k idx : nat) rs :
  (filter (λ lr : nat * R, lr.1 ≠ (k + idx)%nat) (zip (seq k (length rs)) rs)).*2
  = delete idx rs.
Proof.
  revert k idx. induction rs as [|r rs IH]; intros k idx; [reflexivity|].
  cbn [length seq zip zip_with]. destruct idx as [|idx].
  - rewrite filter_cons_False by (cbn; lia).
    rewrite Nat.add_0_r, filter_label_below by lia.
    cbn [delete list_delete]. apply snd_zip. rewrite length_seq. reflexivity.
  - rewrite filter_cons_True by (cbn; lia).
    cbn [fmap list_fmap snd delete list_delete]. f_equal.
    replace (k + S idx)%nat with (S k + idx)%nat by lia. apply IH.
Qed.

(** [drop] followed by [reset_index] on a frame with a [RangeIndex]. *)
Lemma drop_reset_index (idx : nat) df :
  Pd.range_indexed df → (idx < length df)%nat →
  ∃ dropped, Pd.drop idx df = Ok dropped
    ∧ deleted_at idx df (Pd.reset_index dropped).
Proof.
  intros Hri Hlt. unfold Pd.drop.
  rewrite bool_decide_eq_true_2
    by (rewrite Hri; apply elem_of_seq; lia).
  eexists. split; [reflexivity|].
  assert (Hrows : Pd.rows (Pd.reset_index (filter (λ lr : nat * R, lr.1 ≠ idx) df))
                  = delete idx (Pd.rows df)).
  { unfold Pd.reset_index. rewrite rows_range_index.
    rewrite (range_indexed_unfold df Hri) at 1.
    apply (rows_filter_label 0 idx). }
  assert (Hsome : is_Some (Pd.rows df !! idx))
    by (apply lookup_lt_is_Some; rewrite length_rows; exact Hlt).
  unfold deleted_at. split_and!.
  - exact Hrows.
  - rewrite <- !length_rows, Hrows, length_delete by exact Hsome.
    rewrite length_rows. lia.
  - apply range_indexed_reset_index.
  - intros i Hi. unfold Pd.iloc. rewrite Hrows.
    apply list_lookup_delete_lt. exact Hi.
  - intros i Hi. unfold Pd.iloc. rewrite Hrows.
    apply list_lookup_delete_ge. exact Hi.
Qed.

End FrameFacts.

(* ===================================================================== *)
(** * Deleting a transaction *)
(* ===================================================================== *)

Section Handlers.
Variables (fault : bool) (now : Date).

(** The tail of a handler leaves the session state as it is. *)
Lemma save_if_connected_session (w : World) :
  session (run (save_if_connected fault now) w).2 = session w.
Proof.
  destruct w as [[av [dbc|] em [ui|] dl [ex|] [inc|] [b|] [g|] [p|]] us];
    destruct fault, av as [[]|]; reflexivity.
Qed.

(** With a user logged in the tail of a handler does not raise. *)
Lemma save_if_connected_ok (w : World) :
  is_Some (user_id (session w)) → (run (save_if_connected fault now) w).1 = Ok ().
Proof.
  intros [u Hu].
  destruct w as [[av [dbc|] em ui dl [ex|] [inc|] [b|] [g|] [p|]] us];
    cbn in Hu; subst ui; destruct fault, av as [[]|]; reflexivity.
Qed.

Lemma delete_expense_run (idx : nat) (w : World) (df dropped : Pd.DataFrame Expense) :
  expenses (session w) = Some df → Pd.drop idx df = Ok dropped →
  run (delete_expense fault now idx) w
  = run (save_if_connected fault now)
        (mkWorld (set_expenses (Pd.reset_index dropped) (session w)) (users w)).
Proof.
  intros Hexp Hdrop. destruct w as [s us]. cbn in Hexp.
  unfold delete_expense, run, attr, gets, lift, modify, mbind, M_bind, mret, M_ret.
  cbn [session users]. rewrite Hexp, Hdrop. destruct s; reflexivity.
Qed.

Lemma delete_income_run (idx : nat) (w : World) (df dropped : Pd.DataFrame Income) :
  income (session w) = Some df → Pd.drop idx df = Ok dropped →
  run (delete_income fault now idx) w
  = run (save_if_connected fault now)
        (mkWorld (set_income (Pd.reset_index dropped) (session w)) (users w)).
Proof.
  intros Hinc Hdrop. destruct w as [s us]. cbn in Hinc.
  unfold delete_income, run, attr, gets, lift, modify, mbind, M_bind, mret, M_ret.
  cbn [session users]. rewrite Hinc, Hdrop. destruct s; reflexivity.
Qed.

End Handlers.

(** C5. For a frame of the session state and a position [idx] below its
    length, the Delete button leaves in the session state the frame
    without the row at [idx]: one row fewer, the rows before [idx] where
    they were, every later row one position down, in the same order, and
    the index again 0, 1, 2, ...; the other frame is not touched, and with
    a user logged in the handler does not raise. This holds for the
    expenses and for the income. The frames are taken with the
    [RangeIndex] that every frame the program builds has (shown for all
    reachable states at the end of the file), so that the label on a
    Delete button is the position of its row. *)
Theorem delete_removes_the_row_at_index
    (fault : bool) (now : Date) (idx : nat) (w : World)
    (edf : Pd.DataFrame Expense) (idf : Pd.DataFrame Income) :
  expenses (session w) = Some edf → Pd.range_indexed edf →
  income (session w) = Some idf → Pd.range_indexed idf →
  ((idx < length edf)%nat →
   let out := run (delete_expense fault now idx) w in
   (∃ edf', expenses (session out.2) = Some edf' ∧ deleted_at idx edf edf')
   ∧ income (session out.2) = Some idf
   ∧ (is_Some (user_id (session w)) → out.1 = Ok ()))
  ∧ ((idx < length idf)%nat →
     let out := run (delete_income fault now idx) w in
     (∃ idf', income (session out.2) = Some idf' ∧ deleted_at idx idf idf')
     ∧ expenses (session out.2) = Some edf
     ∧ (is_Some (user_id (session w)) → out.1 = Ok ())).
Proof.
  intros Hexp Hri_e Hinc Hri_i. split; intros Hlt; cbv zeta.
  - destruct (drop_reset_index idx edf Hri_e Hlt) as (dropped & Hdrop & Hdel).
    rewrite (delete_expense_run fault now idx w edf dropped Hexp Hdrop).
    rewrite save_if_connected_session. split_and!.
    + exists (Pd.reset_index dropped). split; [reflexivity | exact Hdel].
    + exact Hinc.
    + intros Huser. apply save_if_connected_ok. exact Huser.
  - destruct (drop_reset_index idx idf Hri_i Hlt) as (dropped & Hdrop & Hdel).
    rewrite (delete_income_run fault now idx w idf dropped Hinc Hdrop).
    rewrite save_if_connected_session. split_and!.
    + exists (Pd.reset_index dropped). split; [reflexivity | exact Hdel].
    + exact Hexp.
    + intros Huser. apply save_if_connected_ok. exact Huser.
Qed.

Lemma delete_removes_the_row_at_index_witness :
  (∃ edf', expenses (session (run (delete_expense false jan5 1) sample_world).2) = Some edf'
           ∧ deleted_at 1 sample_expenses edf')
  ∧ (∃ idf', income (session (run (delete_income false jan5 1) sample_world).2) = Some idf'
             ∧ deleted_at 1 sample_income idf').
Proof.
  destruct (delete_removes_the_row_at_index false jan5 1 sample_world
              sample_expenses sample_income) as [Hexp Hinc];
    [reflexivity | reflexivity | reflexivity | reflexivity |].
  split.
  - apply Hexp. cbn. lia.
  - apply Hinc. cbn. lia.
Defined.

(* ===================================================================== *)
(** * What [get_monthly_data] does to its argument *)
(* ===================================================================== *)

(** A call of [get_monthly_data] on the expenses of the session state
    leaves there the frame with every date cell turned into a Timestamp. *)
Lemma on_expenses_get_monthly_data (w : World) (df : Pd.DataFrame Expense) :
  expenses (session w) = Some df →
  run (on_expenses get_monthly_data) w
  = (Ok (Pd.sum (exp_amount <$> Pd.rows df)),
     mkWorld (set_expenses (Pd.assign (λ r, with_date (to_datetime (date r)) r) df)
                           (session w)) (users w)).
Proof.
  intros Hexp. destruct w as [s us]. cbn in Hexp.
  unfold on_expenses, run, attr, gets, modify, mbind, M_bind, mret, M_ret.
  cbn [session users]. rewrite Hexp.
  rewrite get_monthly_data_frame, (get_monthly_data_value (R := Expense)).
  reflexivity.
Qed.

Lemma on_income_get_monthly_data (w : World) (df : Pd.DataFrame Income) :
  income (session w) = Some df →
  run (on_income get_monthly_data) w
  = (Ok (Pd.sum (inc_amount <$> Pd.rows df)),
     mkWorld (set_income (Pd.assign (λ r, with_date (to_datetime (date r)) r) df)
                         (session w)) (users w)).
Proof.
  intros Hinc. destruct w as [s us]. cbn in Hinc.
  unfold on_income, run, attr, gets, modify, mbind, M_bind, mret, M_ret.
  cbn [session users]. rewrite Hinc.
  rewrite get_monthly_data_frame, (get_monthly_data_value (R := Income)).
  reflexivity.
Qed.

(** C7, on the code. [get_monthly_data] is not pure: called on a frame
    whose one row has its date as a string (as loaded from the store), it
    returns the total 250 and leaves the caller's frame with the date
    replaced by a Timestamp; and [generate_ai_insights], which calls it on
    the frames of the session state, leaves the session state with other
    expenses and income frames than it found. *)
Theorem get_monthly_data_changes_its_argument :
  let df := Pd.of_records [mkExpense (IsoStr jan5) "Food" 250 ""] in
  (get_monthly_data df).1 = 250%Q
  ∧ (get_monthly_data df).2 = Pd.of_records [mkExpense (Timestamp jan5) "Food" 250 ""]
  ∧ (get_monthly_data df).2 ≠ df
  ∧ expenses (session (run generate_ai_insights sample_world).2)
    ≠ expenses (session sample_world)
  ∧ income (session (run generate_ai_insights sample_world).2)
    ≠ income (session sample_world).
Proof.
  cbv zeta. split_and!.
  - reflexivity.
  - reflexivity.
  - vm_compute. discriminate.
  - vm_compute. discriminate.
  - vm_compute. discriminate.
Qed.

(* ===================================================================== *)
(** * The profile *)
(* ===================================================================== *)

(** One press of "Update Profile": the dict gets the typed name under
    ['name'], and nothing else of the session state changes. *)
Lemma update_profile_session (fault : bool) (now : Date) (name : string)
    (w : World) (p : Profile) :
  user_profile (session w) = Some p →
  session (run (update_profile fault now name) w).2
  = set_user_profile (<["name" := VStr name]> p) (session w).
Proof.
  intros Hp.
  assert (Hrun : run (update_profile fault now name) w
                 = run (save_if_connected fault now)
                       (mkWorld (set_user_profile (<["name" := VStr name]> p) (session w))
                                (users w))).
  { destruct w as [s us]. cbn in Hp.
    unfold update_profile, run, attr, gets, modify, mbind, M_bind, mret, M_ret.
    cbn [session users]. rewrite Hp. reflexivity. }
  rewrite Hrun. apply save_if_connected_session.
Qed.

(** C8. After any sequence of presses of "Update Profile", each with its
    own typed name, clock reading and outcome of the write, the profile
    has every key other than ['name'] as it was at the start: the email
    and member_since entries in particular. (Of the three fields the
    specification calls mutable, the form writes ['name'] only.) *)
Theorem update_profile_keeps_email_and_member_since
    (presses : list (bool * Date * string)) (w : World) (p : Profile) :
  user_profile (session w) = Some p →
  ∃ p',
    user_profile
      (session (run_all ((λ x, update_profile x.1.1 x.1.2 x.2) <$> presses) w))
    = Some p'
    ∧ p' !! "email" = p !! "email"
    ∧ p' !! "member_since" = p !! "member_since"
    ∧ (∀ k : string, k ≠ "name" → p' !! k = p !! k).
Proof.
  revert w p. induction presses as [|[[fault now] name] presses IH]; intros w p Hp.
  - exists p. split_and!; [exact Hp | reflexivity | reflexivity | reflexivity].
  - cbn [fmap list_fmap run_all fst snd].
    destruct (IH (run (update_profile fault now name) w).2
                 (<["name" := VStr name]> p)) as (p' & Hp' & _ & _ & Hother).
    { rewrite (update_profile_session fault now name w p Hp). reflexivity. }
    assert (Hkeep : ∀ k : string, k ≠ "name" → p' !! k = p !! k).
    { intros k Hk. rewrite (Hother k Hk). apply lookup_insert_ne. congruence. }
    exists p'. split_and!.
    + exact Hp'.
    + apply Hkeep. discriminate.
    + apply Hkeep. discriminate.
    + exact Hkeep.
Qed.

Lemma update_profile_keeps_email_and_member_since_witness :
  ∃ p',
    user_profile
      (session (run_all [update_profile false jan5 "Asha"; update_profile true jan5 "B"]
                        sample_world))
    = Some p'
    ∧ p' !! "email" = Some (VStr "a@b.com")
    ∧ p' !! "member_since" = Some (VStr "2024-01-01").
Proof.
  destruct (update_profile_keeps_email_and_member_since
              [(false, jan5, "Asha"); (true, jan5, "B")] sample_world
              (profile_dict "a" (Some "a@b.com") (mkDate 2024 1 1)) eq_refl)
    as (p' & Hp' & Hemail & Hsince & _).
  exists p'. split_and!; [exact Hp' | exact Hemail | exact Hsince].
Defined.

(* ===================================================================== *)
(** * A new user while the store cannot be reached *)
(* ===================================================================== *)

(** C9. A login with a non-empty email while MongoDB cannot be reached,
    from a session that holds nothing: the run after the login renders a
    page and leaves in the session state an expenses and an income frame
    without rows, the default budget with its 8 distinct categories, the 2
    seeded savings goals and a profile whose name is the part of the
    normalised email before the first [@] (and ["User"] when the
    normalised email is empty); nothing is written to the store. Adding
    the expense of 250 for "Food" on 2024-01-05 then gives the expenses
    frame whose sums per category are exactly [{"Food": 250}]. *)
Theorem new_user_with_store_unreachable
    (email description : string) (now : Date) (fault : bool)
    (store : gmap string Document) :
  email ≠ "" →
  let w1 := (run (main false fault now (Login email)) (mkWorld fresh_session store)).2 in
  let loaded := run (main false fault now Idle) w1 in
  let s := session loaded.2 in
  loaded.1 = Ok true
  ∧ expenses s = Some [] ∧ income s = Some []
  ∧ budget s = Some Config.DEFAULT_BUDGET
  ∧ length Config.DEFAULT_BUDGET = 8%nat
  ∧ NoDup (Config.DEFAULT_BUDGET.*1)
  ∧ savings_goals s = Some Config.DEFAULT_SAVINGS_GOALS
  ∧ length Config.DEFAULT_SAVINGS_GOALS = 2%nat
  ∧ (∃ p, user_profile s = Some p
       ∧ p !! "name" = Some (VStr (if Py.truthy (normalize email)
                                   then Py.split_head "@" (normalize email)
                                   else "User"))
       ∧ p !! "email" = Some (VStr (normalize email)))
  ∧ users loaded.2 = store
  ∧ (let added := run (add_expense fault now (PyDate jan5) "Food" 250 description)
                      loaded.2 in
     added.1 = Ok ()
     ∧ ∃ df, expenses (session added.2) = Some df
         ∧ Pd.rows df = [mkExpense (PyDate jan5) "Food" 250 description]
         ∧ expenses_by_category df = [("Food", 250%Q)]).
Proof.
  intros Hne. destruct email as [|c email]; [congruence|].
  cbv zeta. split_and!; try reflexivity.
  - apply NoDup_ListNoDup. repeat constructor; cbn; intuition discriminate.
  - eexists. split; [reflexivity|]. split; reflexivity.
  - eexists. split; [reflexivity|]. split; reflexivity.
Qed.

Lemma new_user_with_store_unreachable_witness :
  let loaded := run (main false false jan5 Idle)
                    (run (main false false jan5 (Login "a@b.com"))
                         (mkWorld fresh_session ∅)).2 in
  budget (session loaded.2) = Some Config.DEFAULT_BUDGET
  ∧ savings_goals (session loaded.2) = Some Config.DEFAULT_SAVINGS_GOALS
  ∧ ∃ df, expenses (session (run (add_expense false jan5 (PyDate jan5) "Food" 250 "")
                                 loaded.2).2) = Some df
      ∧ expenses_by_category df = [("Food", 250%Q)].
Proof.
  destruct (new_user_with_store_unreachable "a@b.com" "" jan5 false ∅)
    as (_ & _ & _ & Hb & _ & _ & Hg & _ & _ & _ & _ & df & Hdf & _ & Hby);
    [discriminate|].
  cbv zeta. split; [exact Hb|]. split; [exact Hg|].
  exists df. split; [exact Hdf | exact Hby].
Defined.

(* ===================================================================== *)
(** * Insights *)
(* ===================================================================== *)

(** The groups of a sequence with at least one row have a first maximum. *)
Lemma groupby_sum_has_max {R : Type} (key : R → string) (val : R → Q) (rs : list R) :
  rs ≠ [] →
  ∃ k v, Pd.idxmax (Pd.groupby_sum key val rs) = Some k
       ∧ Pd.max (Pd.groupby_sum key val rs) = Some v.
Proof.
  intros Hrs. destruct rs as [|r rs]; [congruence|].
  unfold Pd.groupby_sum. cbn [fmap list_fmap].
  pose proof (group_keys_nonempty (key r) (key <$> rs)) as Hkeys.
  destruct (Pd.group_keys (key r :: (key <$> rs))) as [|k ks]; [congruence|].
  cbn [fmap list_fmap Pd.idxmax Pd.max]. eauto.
Qed.

(** C10. With an expenses frame without rows, [generate_ai_insights]
    returns the empty list and changes nothing, whatever the income entry
    is. With an expenses frame that has rows it returns the observation on
    the top category and the one on the busiest day, followed by exactly
    one observation on the savings rate when the total of the income is
    above 0, and by nothing otherwise. *)
Theorem generate_ai_insights_count (w : World) (exp : Pd.DataFrame Expense) :
  expenses (session w) = Some exp →
  (exp = [] → run generate_ai_insights w = (Ok [], w))
  ∧ (exp ≠ [] → ∀ inc : Pd.DataFrame Income, income (session w) = Some inc →
     ∃ top_category top_amount busiest_day,
       let two := [HighestCategory top_category top_amount; BusiestDay busiest_day] in
       ((0 < total (Pd.rows inc))%Q →
        ∃ third, (run generate_ai_insights w).1 = Ok (two ++ [third])%list
          ∧ (third = IncreaseSavings ∨ ∃ rate, third = GreatJob rate ∧ (20 <= rate)%Q))
       ∧ (¬ (0 < total (Pd.rows inc))%Q → (run generate_ai_insights w).1 = Ok two)).
Proof.
  intros Hexp. split.
  - intros ->. destruct w as [s us]. cbn in Hexp.
    unfold generate_ai_insights, run, attr, gets, mbind, M_bind, mret, M_ret.
    cbn [session users]. rewrite Hexp. reflexivity.
  - intros Hne inc Hinc.
    set (edf := Pd.assign (λ r : Expense, with_date (to_datetime (date r)) r) exp).
    assert (Hrows : Pd.rows edf ≠ []).
    { unfold edf. rewrite rows_assign. destruct exp; [congruence | discriminate]. }
    destruct (groupby_sum_has_max exp_category exp_amount (Pd.rows edf) Hrows)
      as (c & a & Hc & Ha).
    destruct (groupby_sum_has_max (λ r : Expense, day_name (date_of (exp_date r)))
                exp_amount (Pd.rows edf) Hrows) as (d & _ & Hd & _).
    exists c, a, d. cbv zeta.
    pose proof (on_expenses_get_monthly_data w exp Hexp) as Hme.
    pose proof (on_income_get_monthly_data
                  (mkWorld (set_expenses edf (session w)) (users w)) inc Hinc) as Hmi.
    pose proof (sum_amounts_total (R := Income) (Pd.rows inc)) as Hsum.
    cbn [amount Income_Transaction] in Hsum.
    unfold run in Hme, Hmi.
    assert (Hrun : run generate_ai_insights w
      = let monthly_expenses := Pd.sum (exp_amount <$> Pd.rows exp) in
        let monthly_income := Pd.sum (inc_amount <$> Pd.rows inc) in
        let w' := mkWorld (set_income
                    (Pd.assign (λ r : Income, with_date (to_datetime (date r)) r) inc)
                    (set_expenses edf (session w))) (users w) in
        if Qlt_le_dec 0 monthly_income then
          match Py.truediv (monthly_income - monthly_expenses) monthly_income with
          | Ok ratio =>
              if Qlt_le_dec (ratio * 100) 20
              then (Ok [HighestCategory c a; BusiestDay d; IncreaseSavings], w')
              else (Ok [HighestCategory c a; BusiestDay d; GreatJob (ratio * 100)], w')
          | Raise e => (Raise e, w')
          end
        else (Ok [HighestCategory c a; BusiestDay d], w')).
    { destruct w as [s us]. cbn in Hexp, Hinc.
      unfold generate_ai_insights, run, attr, gets, mbind, M_bind, mret, M_ret.
      cbn [session users]. rewrite Hexp.
      destruct exp as [|lr exp']; [congruence|]. cbn [Pd.empty negb].
      unfold series_idxmax, series_max. fold edf. rewrite Hc, Ha, Hd.
      unfold mret, M_ret. rewrite Hme. cbn [session users] in Hmi |- *.
      fold edf. rewrite Hmi.
      cbv zeta. destruct (Qlt_le_dec 0 (Pd.sum (inc_amount <$> Pd.rows inc))); [|reflexivity].
      unfold lift.
      destruct (Py.truediv _ _); [|reflexivity].
      destruct (Qlt_le_dec _ 20); reflexivity. }
    rewrite Hrun. cbv zeta. split.
    + intros Hpos. rewrite <- Hsum in Hpos.
      destruct (Qlt_le_dec 0 (Pd.sum (inc_amount <$> Pd.rows inc))) as [_|Hle];
        [|exfalso; exact (Qlt_not_le _ _ Hpos Hle)].
      rewrite truediv_positive by exact Hpos.
      destruct (Qlt_le_dec _ 20) as [Hlow|Hhigh]; eexists; (split; [reflexivity|]).
      * left. reflexivity.
      * right. eexists. split; [reflexivity | exact Hhigh].
    + intros Hnpos. rewrite <- Hsum in Hnpos.
      destruct (Qlt_le_dec 0 (Pd.sum (inc_amount <$> Pd.rows inc))) as [Hpos|_];
        [contradiction | reflexivity].
Qed.

Lemma generate_ai_insights_count_witness :
  ∃ l, (run generate_ai_insights sample_world).1 = Ok l ∧ length l = 3%nat.
Proof.
  destruct (generate_ai_insights_count sample_world sample_expenses eq_refl)
    as [_ Hrows].
  destruct (Hrows ltac:(discriminate) sample_income eq_refl)
    as (c & a & d & Hpos & _).
  destruct Hpos as (third & Hrun & _); [vm_compute; reflexivity|].
  eexists. split; [exact Hrun | reflexivity].
Defined.

(* ===================================================================== *)
(** * The savings rate *)
(* ===================================================================== *)

(** C6. The savings rate of the dashboard and the one of the analytics
    page are the same function; it never raises (no division by zero is
    met); for an income above 0 it is (income - expenses) / income * 100,
    and for an income of 0 or below it is 0. For an income of 0 it is 0
    whatever the expenses, and for an income of 100 and expenses of 80 it
    is 20. *)
Theorem savings_rate_is_defined (monthly_income monthly_expenses : Q) :
  dashboard_savings_rate monthly_income monthly_expenses
  = analytics_savings_rate monthly_income monthly_expenses
  ∧ (∃ rate, analytics_savings_rate monthly_income monthly_expenses = Ok rate)
  ∧ ((0 < monthly_income)%Q →
     analytics_savings_rate monthly_income monthly_expenses
     = Ok ((monthly_income - monthly_expenses) / monthly_income * 100)%Q)
  ∧ ((monthly_income <= 0)%Q →
     analytics_savings_rate monthly_income monthly_expenses = Ok 0%Q)
  ∧ analytics_savings_rate 0 monthly_expenses = Ok 0%Q
  ∧ (∃ rate, analytics_savings_rate 100 80 = Ok rate ∧ (rate == 20)%Q).
Proof.
  assert (Hpos : (0 < monthly_income)%Q →
     analytics_savings_rate monthly_income monthly_expenses
     = Ok ((monthly_income - monthly_expenses) / monthly_income * 100)%Q).
  { intros Hpos. unfold analytics_savings_rate.
    destruct (Qlt_le_dec 0 monthly_income) as [_|Hle];
      [|exfalso; exact (Qlt_not_le _ _ Hpos Hle)].
    rewrite truediv_positive by exact Hpos. reflexivity. }
  assert (Hzero : ∀ income, (income <= 0)%Q →
     analytics_savings_rate income monthly_expenses = Ok 0%Q).
  { intros income Hle. unfold analytics_savings_rate.
    destruct (Qlt_le_dec 0 income) as [Hlt|_];
      [exfalso; exact (Qlt_not_le _ _ Hlt Hle) | reflexivity]. }
  split_and!.
  - reflexivity.
  - destruct (Qlt_le_dec 0 monthly_income) as [Hlt|Hle]; eauto.
  - exact Hpos.
  - apply Hzero.
  - apply Hzero. apply Qle_refl.
  - eexists. split; [vm_compute; reflexivity | vm_compute; reflexivity].
Qed.

(* ===================================================================== *)
(** * Further checks on concrete states *)
(* ===================================================================== *)

(** A budget of 1000 for "Food" and 1200 spent on it: usage 120, over
    budget, -200 remaining. *)
Example budget_over_by_200 :
  ∃ row, budget_data [("Food", 1000%Q)]
           (Pd.of_records [mkExpense (PyDate jan5) "Food" 700 "";
                           mkExpense (PyDate jan5) "Food" 500 ""])
         = Ok [row]
    ∧ (Usage row == 120)%Q ∧ (Remaining row == -200)%Q
    ∧ usage_banner row = OverBudget.
Proof. eexists. split; [vm_compute; reflexivity|]. vm_compute. auto. Qed.

(** With the store reachable and the write going through, [save_user_data]
    puts the document of the user in the collection, the dates as ISO
    strings. *)
Example save_user_data_writes :
  let s := mkSession (Some true) (Some MongoDatabase) (Some "a@b.com") (Some "k") true
             (Some sample_expenses) (Some sample_income)
             (Some Config.DEFAULT_BUDGET) (Some Config.DEFAULT_SAVINGS_GOALS)
             (Some (profile_dict "a" (Some "a@b.com") jan5)) in
  users (run (save_user_data false jan5 (Some MongoDatabase) "k") (mkWorld s ∅)).2 !! "k"
  = Some (mkDocument "k" (Some "a@b.com")
            (Some [ mkExpense (IsoStr jan5) "Food" 250 "";
                    mkExpense (IsoStr (mkDate 2024 1 6)) "Shopping" 1200 "shoes";
                    mkExpense (IsoStr (mkDate 2024 1 7)) "Food" 80 "lunch" ])
            (Some [ mkIncome (IsoStr (mkDate 2024 1 1)) "Salary" 50000 "Monthly";
                    mkIncome (IsoStr (mkDate 2024 1 3)) "Freelance" 7000 "One-time" ])
            (Some Config.DEFAULT_BUDGET) (Some Config.DEFAULT_SAVINGS_GOALS)
            (Some (profile_dict "a" (Some "a@b.com") jan5)) (Some jan5)).
Proof. cbv zeta. apply lookup_insert_eq. Qed.

(** A label that is not in the index makes the Delete handler raise and
    leaves the frame as it was. *)
Example delete_expense_unknown_label :
  run (delete_expense false jan5 7) sample_world = (Raise (KeyError 7), sample_world).
Proof. reflexivity. Qed.

(* ===================================================================== *)
(** * The index of the frames in every reachable state *)
(* ===================================================================== *)

Lemma range_indexed_assign {R : Type} (upd : R → R) (df : Pd.DataFrame R) :
  Pd.range_indexed df → Pd.range_indexed (Pd.assign upd df).
Proof.
  unfold Pd.range_indexed. intros Hri.
  assert (Hlabels : Pd.labels (Pd.assign upd df) = Pd.labels df).
  { unfold Pd.labels, Pd.assign. rewrite <- list_fmap_compose.
    apply list_fmap_ext. intros _ [l r] _. reflexivity. }
  rewrite Hlabels, Hri. unfold Pd.assign. rewrite length_fmap. reflexivity.
Qed.

Lemma range_indexed_get_monthly_data {R : Type} `{Transaction R} (df : Pd.DataFrame R) :
  Pd.range_indexed df → Pd.range_indexed (get_monthly_data df).2.
Proof. rewrite get_monthly_data_frame. apply range_indexed_assign. Qed.

(** The Delete buttons are drawn for positions of the frame. *)
Lemma delete_buttons_valid {R : Type} (df : Pd.DataFrame R) (idx : nat) :
  Pd.range_indexed df → idx ∈ delete_buttons df → (idx < length df)%nat.
Proof.
  intros Hri Hin. unfold delete_buttons, Pd.tail, Pd.labels in Hin.
  apply list_elem_of_fmap in Hin as ([l r] & -> & Hin).
  apply (list_elem_of_fmap_2 fst) in Hin. cbn [fst] in *.
  change (l ∈ (List.skipn (length df - 5) df).*1) in Hin.
  assert (Hsub : l ∈ Pd.labels df).
  { apply list_elem_of_fmap in Hin as (lr & -> & Hin). apply list_elem_of_fmap_2.
    apply list_elem_of_In. apply list_elem_of_In in Hin.
    rewrite <- (firstn_skipn (length df - 5) df). apply in_or_app. right. exact Hin. }
  rewrite Hri in Hsub. apply elem_of_seq in Hsub. lia.
Qed.

Section KeepsIndex.
Context {A B : Type}.

Lemma keeps_ret (a : A) : keeps_index (mret a).
Proof. intros w Hw. exact Hw. Qed.

Lemma keeps_raise (e : exn) : keeps_index (raise (A := A) e).
Proof. intros w Hw. exact Hw. Qed.

Lemma keeps_lift (r : result A) : keeps_index (lift r).
Proof. intros w Hw. exact Hw. Qed.

Lemma keeps_gets (proj : SessionState → A) : keeps_index (gets proj).
Proof. intros w Hw. exact Hw. Qed.

Lemma keeps_attr (name : string) (proj : SessionState → option A) :
  keeps_index (attr name proj).
Proof.
  intros w Hw. unfold run, attr, gets, mbind, M_bind.
  destruct (proj (session w)); exact Hw.
Qed.

Lemma keeps_bind (m : M A) (f : A → M B) :
  keeps_index m → (∀ a, keeps_index (f a)) → keeps_index (m ≫= f).
Proof.
  intros Hm Hf w Hw. specialize (Hm w Hw). unfold run, mbind, M_bind in *.
  destruct (m w) as [[a|e] w']; [apply (Hf a w' Hm) | exact Hm].
Qed.

Lemma keeps_try_except (m : M A) (h : exn → M A) :
  keeps_index m → (∀ e, keeps_index (h e)) → keeps_index (try_except m h).
Proof.
  intros Hm Hh w Hw. specialize (Hm w Hw). unfold run, try_except in *.
  destruct (m w) as [[a|e] w']; [exact Hm | apply (Hh e w' Hm)].
Qed.

End KeepsIndex.

Lemma keeps_modify (f : SessionState → SessionState) :
  (∀ s, frames_range_indexed s → frames_range_indexed (f s)) → keeps_index (modify f).
Proof. intros Hf w Hw. apply Hf, Hw. Qed.

(** A write to an entry other than the two frames. *)
Lemma keeps_modify_other (f : SessionState → SessionState) :
  (∀ s, expenses (f s) = expenses s) → (∀ s, income (f s) = income s) →
  keeps_index (modify f).
Proof.
  intros He Hi. apply keeps_modify. intros s [Hse Hsi].
  split; intros df; [rewrite He; apply Hse | rewrite Hi; apply Hsi].
Qed.

Lemma keeps_set_expenses (df : Pd.DataFrame Expense) :
  Pd.range_indexed df → keeps_index (modify (set_expenses df)).
Proof.
  intros Hri. apply keeps_modify. intros [] [_ Hsi]. split; [|exact Hsi].
  intros ? [= <-]. exact Hri.
Qed.

Lemma keeps_set_income (df : Pd.DataFrame Income) :
  Pd.range_indexed df → keeps_index (modify (set_income df)).
Proof.
  intros Hri. apply keeps_modify. intros [] [Hse _]. split; [exact Hse|].
  intros ? [= <-]. exact Hri.
Qed.

Lemma keeps_logout : keeps_index (modify (λ _, logged_out)).
Proof. apply keeps_modify. intros _ _. split; intros df; discriminate. Qed.

Lemma range_indexed_loaded {R : Type} (records : list R) :
  Pd.range_indexed (match records with
                    | [] => Pd.no_rows
                    | _ :: _ => Pd.of_records records
                    end).
Proof. destruct records; [reflexivity | apply range_indexed_range_index]. Qed.

Lemma keeps_find_one (fault : bool) (uid : string) : keeps_index (find_one fault uid).
Proof. intros w Hw. unfold run, find_one. destruct fault; exact Hw. Qed.

Lemma keeps_replace_one (fault : bool) (uid : string) (doc : Document) :
  keeps_index (replace_one_upsert fault uid doc).
Proof. intros w Hw. unfold run, replace_one_upsert. destruct fault; exact Hw. Qed.

(** One step through the structure of a computation. *)
Ltac keeps_step :=
  lazymatch goal with
  | |- keeps_index (mret _) => apply keeps_ret
  | |- keeps_index (raise _) => apply keeps_raise
  | |- keeps_index (lift _) => apply keeps_lift
  | |- keeps_index (gets _) => apply keeps_gets
  | |- keeps_index (attr _ _) => apply keeps_attr
  | |- keeps_index (find_one _ _) => apply keeps_find_one
  | |- keeps_index (replace_one_upsert _ _ _) => apply keeps_replace_one
  | |- keeps_index (modify (set_expenses _)) =>
      apply keeps_set_expenses;
      first [ reflexivity | apply range_indexed_range_index | apply range_indexed_loaded ]
  | |- keeps_index (modify (set_income _)) =>
      apply keeps_set_income;
      first [ reflexivity | apply range_indexed_range_index | apply range_indexed_loaded ]
  | |- keeps_index (modify (λ _, logged_out)) => apply keeps_logout
  | |- keeps_index (modify _) => apply keeps_modify_other; intros []; reflexivity
  | |- keeps_index (_ ≫= _) => apply keeps_bind; [|intros ?]
  | |- keeps_index (try_except _ _) => apply keeps_try_except; [|intros ?]
  | |- keeps_index (if ?b then _ else _) => destruct b
  | |- keeps_index (match ?x with _ => _ end) => destruct x
  end.

Lemma keeps_init_mongodb (reachable : bool) : keeps_index (init_mongodb reachable).
Proof. unfold init_mongodb. repeat keeps_step. Qed.

Lemma keeps_authenticate_user (ev : SidebarEvent) : keeps_index (authenticate_user ev).
Proof.
  unfold authenticate_user. repeat keeps_step.
Qed.

Lemma keeps_initialize_new_user (now : Date) : keeps_index (initialize_new_user now).
Proof. unfold initialize_new_user. repeat keeps_step. Qed.

Lemma keeps_load_user_data (fault : bool) (now : Date) (db : option Db) (uid : string) :
  keeps_index (load_user_data fault now db uid).
Proof.
  unfold load_user_data, get_mongodb_available, has_key.
  repeat lazymatch goal with
         | |- keeps_index (initialize_new_user _) => apply keeps_initialize_new_user
         | _ => keeps_step
         end.
Qed.

Lemma keeps_save_if_connected (fault : bool) (now : Date) :
  keeps_index (save_if_connected fault now).
Proof. intros w Hw. rewrite save_if_connected_session. exact Hw. Qed.

Lemma keeps_on_expenses_get_monthly_data : keeps_index (on_expenses get_monthly_data).
Proof.
  intros w [He Hi]. destruct (expenses (session w)) as [df|] eqn:Hdf.
  - rewrite (on_expenses_get_monthly_data w df Hdf). cbn [snd session]. split.
    + destruct (session w). cbn. intros ? [= <-].
      apply range_indexed_assign, He. reflexivity.
    + destruct (session w). exact Hi.
  - assert (Hrun : run (on_expenses get_monthly_data) w
                   = (Raise (AttributeError "expenses"), w)).
    { destruct w as [s us]. cbn in Hdf.
      unfold run, on_expenses, attr, gets, mbind, M_bind. cbn [session].
      rewrite Hdf. reflexivity. }
    rewrite Hrun. cbn [snd]. split; [rewrite Hdf; exact He | exact Hi].
Qed.

Lemma keeps_on_income_get_monthly_data : keeps_index (on_income get_monthly_data).
Proof.
  intros w [He Hi]. destruct (income (session w)) as [df|] eqn:Hdf.
  - rewrite (on_income_get_monthly_data w df Hdf). cbn [snd session]. split.
    + destruct (session w). exact He.
    + destruct (session w). cbn. intros ? [= <-].
      apply range_indexed_assign, Hi. reflexivity.
  - assert (Hrun : run (on_income get_monthly_data) w
                   = (Raise (AttributeError "income"), w)).
    { destruct w as [s us]. cbn in Hdf.
      unfold run, on_income, attr, gets, mbind, M_bind. cbn [session].
      rewrite Hdf. reflexivity. }
    rewrite Hrun. cbn [snd]. split; [exact He | rewrite Hdf; exact Hi].
Qed.

(** A step that uses what is known of the functions called. *)
Ltac keeps_call :=
  lazymatch goal with
  | |- keeps_index (on_expenses get_monthly_data) => apply keeps_on_expenses_get_monthly_data
  | |- keeps_index (on_income get_monthly_data) => apply keeps_on_income_get_monthly_data
  | |- keeps_index (save_if_connected _ _) => apply keeps_save_if_connected
  | |- keeps_index (init_mongodb _) => apply keeps_init_mongodb
  | |- keeps_index (authenticate_user _) => apply keeps_authenticate_user
  | |- keeps_index (load_user_data _ _ _ _) => apply keeps_load_user_data
  | _ => keeps_step
  end.

Lemma keeps_generate_ai_insights : keeps_index generate_ai_insights.
Proof. unfold generate_ai_insights, series_idxmax, series_max. repeat keeps_call. Qed.

Lemma delete_expense_raises (fault : bool) (now : Date) (idx : nat) (w : World) :
  (∀ df dropped, expenses (session w) = Some df → Pd.drop idx df ≠ Ok dropped) →
  (run (delete_expense fault now idx) w).2 = w.
Proof.
  intros Hfail. destruct w as [s us]. cbn [session] in Hfail.
  unfold run, delete_expense, attr, gets, lift, mbind, M_bind, mret, M_ret.
  cbn [session]. destruct (expenses s) as [df|]; [|reflexivity].
  specialize (Hfail df). destruct (Pd.drop idx df) as [dropped|e]; [|reflexivity].
  exfalso. exact (Hfail dropped eq_refl eq_refl).
Qed.

Lemma delete_income_raises (fault : bool) (now : Date) (idx : nat) (w : World) :
  (∀ df dropped, income (session w) = Some df → Pd.drop idx df ≠ Ok dropped) →
  (run (delete_income fault now idx) w).2 = w.
Proof.
  intros Hfail. destruct w as [s us]. cbn [session] in Hfail.
  unfold run, delete_income, attr, gets, lift, mbind, M_bind, mret, M_ret.
  cbn [session]. destruct (income s) as [df|]; [|reflexivity].
  specialize (Hfail df). destruct (Pd.drop idx df) as [dropped|e]; [|reflexivity].
  exfalso. exact (Hfail dropped eq_refl eq_refl).
Qed.

Lemma keeps_delete_expense (fault : bool) (now : Date) (idx : nat) :
  keeps_index (delete_expense fault now idx).
Proof.
  intros w Hw.
  destruct (expenses (session w)) as [df|] eqn:Hdf;
    [destruct (Pd.drop idx df) as [dropped|e] eqn:Hdrop|].
  - rewrite (delete_expense_run fault now idx w df dropped Hdf Hdrop).
    apply keeps_save_if_connected. destruct Hw as [_ Hi].
    destruct (session w). split; cbn in *; [|exact Hi].
    intros ? [= <-]. apply range_indexed_reset_index.
  - rewrite delete_expense_raises; [exact Hw|]. congruence.
  - rewrite delete_expense_raises; [exact Hw|]. congruence.
Qed.

Lemma keeps_delete_income (fault : bool) (now : Date) (idx : nat) :
  keeps_index (delete_income fault now idx).
Proof.
  intros w Hw.
  destruct (income (session w)) as [df|] eqn:Hdf;
    [destruct (Pd.drop idx df) as [dropped|e] eqn:Hdrop|].
  - rewrite (delete_income_run fault now idx w df dropped Hdf Hdrop).
    apply keeps_save_if_connected. destruct Hw as [He _].
    destruct (session w). split; cbn in *; [exact He|].
    intros ? [= <-]. apply range_indexed_reset_index.
  - rewrite delete_income_raises; [exact Hw|]. congruence.
  - rewrite delete_income_raises; [exact Hw|]. congruence.
Qed.

Lemma keeps_perform (a : Action) : keeps_index (perform a).
Proof.
  destruct a; cbn [perform].
  - unfold main. repeat keeps_call.
  - unfold add_expense. repeat keeps_call.
  - unfold add_income. repeat keeps_call.
  - apply keeps_delete_expense.
  - apply keeps_delete_income.
  - unfold dashboard_page.
    repeat lazymatch goal with
           | |- keeps_index generate_ai_insights => apply keeps_generate_ai_insights
           | _ => keeps_call
           end.
  - unfold analytics_page. repeat keeps_call.
  - unfold budget_page. repeat keeps_call.
  - unfold profile_page. repeat keeps_call.
  - unfold update_budget. repeat keeps_call.
  - unfold update_profile. repeat keeps_call.
Qed.

(** X1. Whatever the user does from a session that holds nothing, the frames
    of the session state have a [RangeIndex]: labels and positions agree,
    which is what the Delete handlers rely on. *)
Theorem frames_always_range_indexed (actions : list Action) (store : gmap string Document) :
  frames_range_indexed
    (session (run_all (perform <$> actions) (mkWorld fresh_session store))).
Proof.
  assert (Hall : ∀ w, frames_range_indexed (session w) →
                      frames_range_indexed (session (run_all (perform <$> actions) w))).
  { induction actions as [|a actions IH]; intros w Hw; [exact Hw|].
    cbn [fmap list_fmap run_all]. apply IH, keeps_perform, Hw. }
  apply Hall. split; intros df; discriminate.
Qed.

(* ===================================================================== *)
(** * Normal form of an email *)
(* ===================================================================== *)

Lemma isspace_lower_char (c : ascii) : Py.isspace (Py.lower_char c) = Py.isspace c.
Proof. destruct c as [[] [] [] [] [] [] [] []]; reflexivity. Qed.

Lemma lower_char_idem (c : ascii) : Py.lower_char (Py.lower_char c) = Py.lower_char c.
Proof. destruct c as [[] [] [] [] [] [] [] []]; reflexivity. Qed.

Lemma lower_idem (s : string) : Py.lower (Py.lower s) = Py.lower s.
Proof. induction s as [|c s IH]; [reflexivity|]. cbn. rewrite lower_char_idem, IH. reflexivity. Qed.

Lemma lower_lstrip (s : string) : Py.lower (Py.lstrip s) = Py.lstrip (Py.lower s).
Proof.
  induction s as [|c s IH]; [reflexivity|].
  cbn. rewrite isspace_lower_char. destruct (Py.isspace c); [exact IH | reflexivity].
Qed.

Lemma lower_rstrip (s : string) : Py.lower (Py.rstrip s) = Py.rstrip (Py.lower s).
Proof.
  induction s as [|c s IH]; [reflexivity|].
  cbn. rewrite <- IH, isspace_lower_char.
  destruct (Py.rstrip s) as [|a r]; [destruct (Py.isspace c)|]; reflexivity.
Qed.

Lemma lower_strip (s : string) : Py.lower (Py.strip s) = Py.strip (Py.lower s).
Proof. unfold Py.strip. rewrite lower_rstrip, lower_lstrip. reflexivity. Qed.

(** A string that is empty or starts with a character that is no space. *)
Lemma lstrip_fixed (s : string) :
  match s with EmptyString => True | String c _ => Py.isspace c = false end →
  Py.lstrip s = s.
Proof. destruct s as [|c s]; [reflexivity|]. cbn. intros ->. reflexivity. Qed.

Lemma lstrip_head (s : string) :
  match Py.lstrip s with EmptyString => True | String c _ => Py.isspace c = false end.
Proof.
  induction s as [|c s IH]; [exact I|].
  cbn. destruct (Py.isspace c) eqn:E; [exact IH | exact E].
Qed.

Lemma rstrip_head (s : string) :
  match s with EmptyString => True | String c _ => Py.isspace c = false end →
  match Py.rstrip s with EmptyString => True | String c _ => Py.isspace c = false end.
Proof.
  destruct s as [|c s]; [intros _; exact I|]. intros Hc. cbn.
  destruct (Py.rstrip s); [rewrite Hc|]; exact Hc.
Qed.

Lemma rstrip_cons (c : ascii) (s : string) :
  Py.rstrip (String c s)
  = match Py.rstrip s with
    | EmptyString => if Py.isspace c then EmptyString else String c EmptyString
    | String a r => String c (String a r)
    end.
Proof. reflexivity. Qed.

Lemma rstrip_idem (s : string) : Py.rstrip (Py.rstrip s) = Py.rstrip s.
Proof.
  induction s as [|c s IH]; [reflexivity|].
  rewrite rstrip_cons. destruct (Py.rstrip s) as [|a r].
  - destruct (Py.isspace c) eqn:Hc; [reflexivity|]. cbn. rewrite Hc. reflexivity.
  - rewrite rstrip_cons, IH. reflexivity.
Qed.

Lemma strip_idem (s : string) : Py.strip (Py.strip s) = Py.strip s.
Proof.
  unfold Py.strip.
  rewrite (lstrip_fixed (Py.rstrip (Py.lstrip s))) by apply rstrip_head, lstrip_head.
  apply rstrip_idem.
Qed.

Lemma normalize_idem (email : string) : normalize (normalize email) = normalize email.
Proof. unfold normalize. rewrite lower_strip, strip_idem, lower_idem. reflexivity. Qed.

(* ===================================================================== *)
(** * Login and logout *)
(* ===================================================================== *)

(** A login that takes place: nobody logged in, a non-empty input. *)
Lemma authenticate_login_run (typed : string) (w : World) :
  user_email (session w) = None → typed ≠ "" →
  run (authenticate_user (Login typed)) w
  = (Ok false,
     mkWorld (set_user_id (Some (hash_email (normalize typed)))
                (set_user_email (Some (normalize typed)) (session w)))
             (users w)).
Proof.
  intros Hnone Hne. destruct w as [s us]. cbn in Hnone.
  unfold authenticate_user, run, attr, gets, modify, mbind, M_bind, mret, M_ret.
  cbn [session users]. rewrite Hnone, (truthy_nonempty typed Hne).
  destruct s; reflexivity.
Qed.

(** The run of the script in which the login takes place, the store not
    reachable. *)
Lemma main_login_run (fault : bool) (now : Date) (typed : string) (w : World) :
  user_email (session w) = None → typed ≠ "" →
  run (main false fault now (Login typed)) w
  = (Ok false,
     mkWorld (set_user_id (Some (hash_email (normalize typed)))
                (set_user_email (Some (normalize typed))
                   (set_mongodb_available false (session w))))
             (users w)).
Proof.
  intros Hnone Hne. destruct typed as [|c t]; [congruence|].
  destruct w as [[av dbc em ui dl ex inc b g p] us]. cbn in Hnone. subst em.
  reflexivity.
Qed.

(** X2. Typing an email in its normal form (lower case, no surrounding
    white space) logs in exactly as typing any email that normalises to
    it: the normalisation is idempotent, so the address the sidebar shows
    leads back to the same user id. *)
Theorem login_with_normal_form (email : string) (w : World) :
  normalize email ≠ "" →
  normalize (normalize email) = normalize email
  ∧ run (authenticate_user (Login (normalize email))) w
    = run (authenticate_user (Login email)) w.
Proof.
  intros Hne. split; [apply normalize_idem|].
  assert (Hemail : email ≠ "") by (intros ->; apply Hne; reflexivity).
  destruct (user_email (session w)) as [e|] eqn:Hcur.
  - destruct w as [s us]. cbn in Hcur.
    unfold authenticate_user, run, gets, mbind, M_bind. cbn [session].
    rewrite Hcur. reflexivity.
  - rewrite !authenticate_login_run by assumption.
    rewrite normalize_idem. reflexivity.
Qed.

Lemma login_with_normal_form_witness :
  run (authenticate_user (Login (normalize " A@B.com "))) (mkWorld fresh_session ∅)
  = run (authenticate_user (Login " A@B.com ")) (mkWorld fresh_session ∅).
Proof.
  destruct (login_with_normal_form " A@B.com " (mkWorld fresh_session ∅)) as [_ Hrun];
    [vm_compute; discriminate | exact Hrun].
Defined.

(** X3. The Login button tests the input as typed, not its normal form.
    An empty input changes nothing. An input that is not empty but
    normalises to the empty string (white space only) logs in: the session
    email is the empty string, the user id is the hash of the empty
    string, the next run renders a page, and with the store unreachable
    the profile of this user gets the name ["User"]. *)
Theorem blank_email_logs_in (typed : string) (now : Date) (fault : bool)
    (store : gmap string Document) :
  typed ≠ "" → normalize typed = "" →
  run (authenticate_user (Login "")) (mkWorld fresh_session store)
  = (Ok false, mkWorld fresh_session store)
  ∧ (let w1 := (run (main false fault now (Login typed)) (mkWorld fresh_session store)).2 in
     let out := run (main false fault now Idle) w1 in
     user_email (session w1) = Some ""
     ∧ user_id (session w1) = Some (hash_email "")
     ∧ out.1 = Ok true
     ∧ ∃ p, user_profile (session out.2) = Some p
         ∧ p !! "name" = Some (VStr "User") ∧ p !! "email" = Some (VStr "")).
Proof.
  intros Hne Hblank. split; [reflexivity|]. cbv zeta.
  rewrite (main_login_run fault now typed (mkWorld fresh_session store) eq_refl Hne).
  rewrite Hblank. cbn [snd]. split_and!; try reflexivity.
  eexists. split; [reflexivity|]. split; reflexivity.
Qed.

Lemma blank_email_logs_in_witness :
  user_email (session (run (main false false jan5 (Login " ")) (mkWorld fresh_session ∅)).2)
  = Some "".
Proof.
  destruct (blank_email_logs_in " " jan5 false ∅) as (_ & Hemail & _);
    [discriminate | reflexivity | exact Hemail].
Defined.

(** A run in which the logged-in user presses Logout. *)
Lemma main_logout (reachable fault : bool) (now : Date) (w : World) :
  is_Some (user_email (session w)) →
  run (main reachable fault now Logout) w = (Ok false, mkWorld fresh_session (users w)).
Proof.
  intros [e He]. destruct w as [s us]. cbn in He.
  unfold main, run, init_mongodb, authenticate_user, gets, modify, mbind, M_bind, mret, M_ret.
  destruct reachable; cbn; rewrite He; reflexivity.
Qed.

(** X4. Logout forgets the session: after the run in which a logged-in
    user presses Logout, the session state holds nothing (the store is as
    it was), so whatever is done next happens as in a session that was
    never used. No frame, budget, goal or profile of the user who logged
    out is there for the next user. *)
Theorem logout_forgets_the_session
    (reachable fault : bool) (now : Date) (w : World) (rest : list Action) :
  is_Some (user_email (session w)) →
  (run (main reachable fault now Logout) w).2 = mkWorld fresh_session (users w)
  ∧ run_all (perform <$> Rerun reachable fault now Logout :: rest) w
    = run_all (perform <$> rest) (mkWorld fresh_session (users w)).
Proof.
  intros Hin. pose proof (main_logout reachable fault now w Hin) as Hrun.
  split; [rewrite Hrun; reflexivity|].
  cbn [fmap list_fmap run_all perform]. f_equal.
  unfold run, mbind, M_bind in *. rewrite Hrun. reflexivity.
Qed.

Lemma logout_forgets_the_session_witness :
  expenses (session (run_all (perform <$> [Rerun false false jan5 Logout;
                                           Rerun false false jan5 (Login "c@d.org");
                                           Rerun false false jan5 Idle])
                             sample_world))
  = Some [].
Proof.
  destruct (logout_forgets_the_session false false jan5 sample_world
              [Rerun false false jan5 (Login "c@d.org"); Rerun false false jan5 Idle])
    as [_ Hruns]; [eexists; reflexivity|].
  rewrite Hruns. reflexivity.
Defined.

(* ===================================================================== *)
(** * What is written to the store, and what is read back *)
(* ===================================================================== *)

Lemma to_iso_cell_spec (c : DateCell) : to_iso_cell c = IsoStr (date_of c).
Proof. destruct c; reflexivity. Qed.

Lemma iso_dates_dates {R : Type} `{Transaction R} (records : list R) :
  date <$> iso_dates records = (λ r, IsoStr (date_of (date r))) <$> records.
Proof.
  unfold iso_dates. rewrite <- list_fmap_compose. apply list_fmap_ext.
  intros _ r _. cbn. rewrite date_with_date. apply to_iso_cell_spec.
Qed.

Lemma iso_dates_amounts {R : Type} `{Transaction R} (records : list R) :
  amount <$> iso_dates records = amount <$> records.
Proof.
  unfold iso_dates. rewrite <- list_fmap_compose. apply list_fmap_ext.
  intros _ r _. apply amount_with_date.
Qed.

(** The store after [save_user_data], in every case. *)
Lemma save_user_data_store (fault : bool) (now : Date) (db : option Db) (uid : string)
    (w : World) :
  users (run (save_user_data fault now db uid) w).2
  = match (if bool_decide (is_Some db) && default false (mongodb_available (session w))
              && negb fault
           then document_of now uid (session w) else None) with
    | Some doc => <[uid := doc]> (users w)
    | None => users w
    end.
Proof.
  destruct w as [[av dbc em ui dl [ex|] [inc|] [b|] [g|] [p|]] us];
    destruct db, fault, av as [[]|], ui; try reflexivity;
    destruct ex, inc; reflexivity.
Qed.

(** X5. [save_user_data] writes exactly when it is given a handle, the
    store is flagged available, the session state has the expenses,
    income, budget, savings goals and profile, and the write does not
    fail; what it then writes is one document, under the given user id:
    the document of every other user is as it was. In the document every
    date of an expense or income record is an ISO string of the calendar
    date the record had, and the amounts are those of the records. In
    every other case the store is not changed. *)
Theorem save_user_data_writes_one_document
    (fault : bool) (now : Date) (db : option Db) (uid : string) (w : World) :
  let after := users (run (save_user_data fault now db uid) w).2 in
  (∀ other : string, other ≠ uid → after !! other = users w !! other)
  ∧ (after !! uid = users w !! uid
     ∨ ∃ exp inc b goals profile,
         db ≠ None ∧ mongodb_available (session w) = Some true ∧ fault = false
         ∧ expenses (session w) = Some exp ∧ income (session w) = Some inc
         ∧ after !! uid
           = Some (mkDocument uid (user_email (session w))
                     (Some (iso_dates (Pd.rows exp))) (Some (iso_dates (Pd.rows inc)))
                     (Some b) (Some goals) (Some profile) (Some now))
         ∧ budget (session w) = Some b ∧ savings_goals (session w) = Some goals
         ∧ user_profile (session w) = Some profile
         ∧ exp_date <$> iso_dates (Pd.rows exp)
           = (λ r, IsoStr (date_of (exp_date r))) <$> Pd.rows exp
         ∧ inc_date <$> iso_dates (Pd.rows inc)
           = (λ r, IsoStr (date_of (inc_date r))) <$> Pd.rows inc
         ∧ exp_amount <$> iso_dates (Pd.rows exp) = exp_amount <$> Pd.rows exp
         ∧ inc_amount <$> iso_dates (Pd.rows inc) = inc_amount <$> Pd.rows inc).
Proof.
  cbv zeta. rewrite save_user_data_store.
  destruct (bool_decide (is_Some db) && default false (mongodb_available (session w))
            && negb fault) eqn:Hcond.
  - destruct (document_of now uid (session w)) as [doc|] eqn:Hdoc.
    + split; [intros other Hne; apply lookup_insert_ne; congruence|].
      right. unfold document_of in Hdoc.
      destruct (expenses (session w)) as [exp|]; [|discriminate].
      destruct (income (session w)) as [inc|]; [|discriminate].
      destruct (budget (session w)) as [b|]; [|discriminate].
      destruct (savings_goals (session w)) as [goals|]; [|discriminate].
      destruct (user_profile (session w)) as [profile|]; [|discriminate].
      cbn in Hdoc. injection Hdoc as <-.
      apply andb_prop in Hcond as [Hcond Hfault].
      apply andb_prop in Hcond as [Hdb Hav].
      exists exp, inc, b, goals, profile. split_and!; try reflexivity.
      * apply bool_decide_eq_true in Hdb. destruct Hdb as [d ->]. discriminate.
      * destruct (mongodb_available (session w)) as [[]|]; [reflexivity | discriminate..].
      * destruct fault; [discriminate | reflexivity].
      * apply lookup_insert_eq.
      * exact (iso_dates_dates (Pd.rows exp)).
      * exact (iso_dates_dates (Pd.rows inc)).
      * exact (iso_dates_amounts (Pd.rows exp)).
      * exact (iso_dates_amounts (Pd.rows inc)).
    + split; [reflexivity | left; reflexivity].
  - split; [reflexivity | left; reflexivity].
Qed.

(** [load_user_data] in the three ways it can go. *)
Lemma load_user_data_found (now : Date) (db : Db) (uid e : string) (doc : Document)
    (w : World) :
  mongodb_available (session w) = Some true → user_email (session w) = Some e →
  users w !! uid = Some doc →
  run (load_user_data false now (Some db) uid) w
  = (Ok (),
     mkWorld
       (set_user_profile
          (default (profile_dict (Py.split_head "@" e) (Some e) now) (doc_user_profile doc))
          (set_savings_goals (default Config.DEFAULT_SAVINGS_GOALS (doc_savings_goals doc))
             (set_budget (default Config.DEFAULT_BUDGET (doc_budget doc))
                (set_income (Pd.of_records (default [] (doc_income doc)))
                   (set_expenses (Pd.of_records (default [] (doc_expenses doc)))
                      (session w))))))
       (users w)).
Proof.
  intros Hav He Hdoc. destruct w as [[av dbc em ui dl ex inc b g p] us].
  cbn in Hav, He, Hdoc. subst av em.
  unfold load_user_data, run, try_except, find_one, get_mongodb_available, gets,
    modify, mbind, M_bind, mret, M_ret.
  cbn [session users default mongodb_available bool_decide decide_rel andb].
  cbn. rewrite Hdoc. cbn.
  destruct (default [] (doc_expenses doc)), (default [] (doc_income doc)); reflexivity.
Qed.

Lemma iso_dates_fixed_expenses (records : list Expense) :
  Forall (λ r, ∃ d, exp_date r = IsoStr d) records → iso_dates records = records.
Proof.
  intros Hiso. unfold iso_dates.
  induction Hiso as [|[d c a t] records [d' Hd] _ IH]; [reflexivity|].
  cbn in Hd. subst d. cbn [fmap list_fmap]. rewrite IH. reflexivity.
Qed.

Lemma iso_dates_fixed_income (records : list Income) :
  Forall (λ r, ∃ d, inc_date r = IsoStr d) records → iso_dates records = records.
Proof.
  intros Hiso. unfold iso_dates.
  induction Hiso as [|[d c a t] records [d' Hd] _ IH]; [reflexivity|].
  cbn in Hd. subst d. cbn [fmap list_fmap]. rewrite IH. reflexivity.
Qed.

(** X6. What a successful save writes is what a later load reads back. A
    session state with all five entries of the user is saved with the
    store available; then a load for the same user id in any session that
    has the store available and an email (another browser, or the same
    one after a logout and login) gives the budget, the savings goals and
    the profile that were saved and frames with the saved records in
    their order, the dates as ISO strings. Frames whose dates already
    were ISO strings and whose index was a [RangeIndex] come back as they
    were. *)
Theorem save_then_load_gives_back_the_data
    (now now' : Date) (db db' : Db) (uid e' : string) (w : World) (s' : SessionState)
    (exp : Pd.DataFrame Expense) (inc : Pd.DataFrame Income)
    (b : Budget) (goals : list Goal) (profile : Profile) :
  expenses (session w) = Some exp → income (session w) = Some inc →
  budget (session w) = Some b → savings_goals (session w) = Some goals →
  user_profile (session w) = Some profile →
  mongodb_available (session w) = Some true →
  mongodb_available s' = Some true → user_email s' = Some e' →
  let stored := users (run (save_user_data false now (Some db) uid) w).2 in
  let out := run (load_user_data false now' (Some db') uid) (mkWorld s' stored) in
  out.1 = Ok ()
  ∧ expenses (session out.2) = Some (Pd.of_records (iso_dates (Pd.rows exp)))
  ∧ income (session out.2) = Some (Pd.of_records (iso_dates (Pd.rows inc)))
  ∧ budget (session out.2) = Some b
  ∧ savings_goals (session out.2) = Some goals
  ∧ user_profile (session out.2) = Some profile
  ∧ (Pd.range_indexed exp → Forall (λ r, ∃ d, exp_date r = IsoStr d) (Pd.rows exp) →
     expenses (session out.2) = Some exp)
  ∧ (Pd.range_indexed inc → Forall (λ r, ∃ d, inc_date r = IsoStr d) (Pd.rows inc) →
     income (session out.2) = Some inc).
Proof.
  intros Hexp Hinc Hb Hg Hp Hav Hav' He'. cbv zeta.
  rewrite save_user_data_store. unfold document_of.
  rewrite Hav, Hexp, Hinc, Hb, Hg, Hp. cbn [bool_decide decide_rel default andb negb mbind option_bind].
  rewrite bool_decide_eq_true_2 by (eexists; reflexivity). cbn [andb mbind option_bind].
  erewrite (load_user_data_found now' db' uid e' _ (mkWorld s' _) Hav' He');
    [|apply lookup_insert_eq].
  cbn [fst snd session default doc_expenses doc_income doc_budget doc_savings_goals
       doc_user_profile].
  destruct s'. cbn. split_and!; try reflexivity.
  - intros Hri Hiso. rewrite (iso_dates_fixed_expenses _ Hiso).
    f_equal. symmetry. exact (range_indexed_unfold exp Hri).
  - intros Hri Hiso. rewrite (iso_dates_fixed_income _ Hiso).
    f_equal. symmetry. exact (range_indexed_unfold inc Hri).
Qed.

Lemma save_then_load_gives_back_the_data_witness :
  let stored := users (run (save_user_data false jan5 (Some MongoDatabase) "k")
                           sample_online).2 in
  let out := run (load_user_data false jan5 (Some MongoDatabase) "k")
                 (mkWorld (set_user_email (Some "a@b.com")
                             (set_mongodb_available true fresh_session)) stored) in
  budget (session out.2) = Some Config.DEFAULT_BUDGET
  ∧ Pd.rows <$> expenses (session out.2) = Some (iso_dates (Pd.rows sample_expenses)).
Proof.
  destruct (save_then_load_gives_back_the_data jan5 jan5 MongoDatabase MongoDatabase
              "k" "a@b.com" sample_online
              (set_user_email (Some "a@b.com") (set_mongodb_available true fresh_session))
              sample_expenses sample_income Config.DEFAULT_BUDGET
              Config.DEFAULT_SAVINGS_GOALS
              (profile_dict "a" (Some "a@b.com") (mkDate 2024 1 1))
              eq_refl eq_refl eq_refl eq_refl eq_refl eq_refl eq_refl eq_refl)
    as (_ & Hexp & _ & Hb & _).
  cbv zeta. split; [exact Hb|]. rewrite Hexp. reflexivity.
Defined.

(** X7. [load_user_data] never raises and never writes to the store, with
    or without a handle, whether or not the lookup fails, and whatever
    the session state and the store hold. It leaves the email, the user
    id and the availability flag as they are, and an expenses frame in
    the session state. Called for a logged-in user in a session state
    without an expenses frame (the first load), it leaves all five
    entries of the user in the session state. *)
Theorem load_user_data_never_raises
    (fault : bool) (now : Date) (db : option Db) (uid : string) (w : World) :
  let out := run (load_user_data fault now db uid) w in
  out.1 = Ok ()
  ∧ users out.2 = users w
  ∧ user_email (session out.2) = user_email (session w)
  ∧ user_id (session out.2) = user_id (session w)
  ∧ mongodb_available (session out.2) = mongodb_available (session w)
  ∧ is_Some (expenses (session out.2))
  ∧ (expenses (session w) = None → is_Some (user_email (session w)) →
     is_Some (income (session out.2)) ∧ is_Some (budget (session out.2))
     ∧ is_Some (savings_goals (session out.2)) ∧ is_Some (user_profile (session out.2))).
Proof.
  cbv zeta. destruct w as [[av dbc em ui dl ex inc b g p] us].
  unfold load_user_data, run, try_except, find_one, get_mongodb_available, has_key, gets,
    modify, initialize_new_user, raise, mbind, M_bind, mret, M_ret.
  cbn [session users].
  destruct db as [d|], av as [[]|], fault; cbn;
    try destruct (us !! uid) as [doc|]; cbn;
    destruct em as [e|], ex as [ex|]; cbn;
    (split_and!; try reflexivity; try (eexists; reflexivity);
     try (intros; split_and!; eexists; reflexivity);
     try (intros ? [? ?]; discriminate); try (intros; discriminate)).
Qed.

(* ===================================================================== *)
(** * Properties kept by every step of a computation *)
(* ===================================================================== *)

Section Preserves.
Context (I : World → Prop) {A B : Type}.

Lemma preserves_ret (a : A) : preserves I (mret a).
Proof. intros w Hw. exact Hw. Qed.

Lemma preserves_raise (e : exn) : preserves I (raise (A := A) e).
Proof. intros w Hw. exact Hw. Qed.

Lemma preserves_lift (r : result A) : preserves I (lift r).
Proof. intros w Hw. exact Hw. Qed.

Lemma preserves_gets (proj : SessionState → A) : preserves I (gets proj).
Proof. intros w Hw. exact Hw. Qed.

Lemma preserves_attr (name : string) (proj : SessionState → option A) :
  preserves I (attr name proj).
Proof.
  intros w Hw. unfold run, attr, gets, mbind, M_bind.
  destruct (proj (session w)); exact Hw.
Qed.

Lemma preserves_bind (m : M A) (f : A → M B) :
  preserves I m → (∀ a, preserves I (f a)) → preserves I (m ≫= f).
Proof.
  intros Hm Hf w Hw. specialize (Hm w Hw). unfold run, mbind, M_bind in *.
  destruct (m w) as [[a|e] w']; [apply (Hf a w' Hm) | exact Hm].
Qed.

Lemma preserves_try_except (m : M A) (h : exn → M A) :
  preserves I m → (∀ e, preserves I (h e)) → preserves I (try_except m h).
Proof.
  intros Hm Hh w Hw. specialize (Hm w Hw). unfold run, try_except in *.
  destruct (m w) as [[a|e] w']; [exact Hm | apply (Hh e w' Hm)].
Qed.

End Preserves.

Lemma preserves_modify (I : World → Prop) (f : SessionState → SessionState) :
  (∀ w, I w → I (mkWorld (f (session w)) (users w))) → preserves I (modify f).
Proof. intros Hf w Hw. apply Hf, Hw. Qed.

Lemma preserves_find_one (I : World → Prop) (fault : bool) (uid : string) :
  preserves I (find_one fault uid).
Proof. intros w Hw. unfold run, find_one. destruct fault; exact Hw. Qed.

(** One step through a computation; [call] settles the calls that are not
    taken apart. A write to the session state must keep the property as
    it stands. *)
Ltac preserves_step call :=
  lazymatch goal with
  | |- preserves _ (mret _) => apply preserves_ret
  | |- preserves _ (raise _) => apply preserves_raise
  | |- preserves _ (lift _) => apply preserves_lift
  | |- preserves _ (gets _) => apply preserves_gets
  | |- preserves _ (attr _ _) => apply preserves_attr
  | |- preserves _ (find_one _ _) => apply preserves_find_one
  | |- preserves _ (save_if_connected _ _) => call
  | |- preserves _ (modify _) =>
      apply preserves_modify; let HI := fresh in intros ? HI; exact HI
  | |- preserves _ (_ ≫= _) => apply preserves_bind; [|intros ?]
  | |- preserves _ (try_except _ _) => apply preserves_try_except; [|intros ?]
  | |- preserves _ (if ?b then _ else _) => destruct b
  | |- preserves _ (match ?x with _ => _ end) => destruct x
  end.

Ltac unfold_pages :=
  unfold main, init_mongodb, authenticate_user, load_user_data, initialize_new_user,
    get_mongodb_available, has_key, dashboard_page, analytics_page, budget_page,
    profile_page, generate_ai_insights, series_idxmax, series_max, on_expenses,
    on_income, add_expense, add_income, delete_expense, delete_income, update_budget,
    update_profile.

(* ===================================================================== *)
(** * When the store is written *)
(* ===================================================================== *)

Lemma save_if_connected_offline (fault : bool) (now : Date) (w : World) :
  connected (session w) = false → run (save_if_connected fault now) w = (Ok (), w).
Proof.
  destruct w as [[av dbc em ui dl ex inc b g p] us]. unfold connected.
  destruct av as [[]|], dbc as [d|]; cbn; intros Hoff; try discriminate; reflexivity.
Qed.

Lemma save_if_connected_write_fails (now : Date) (w : World) :
  (run (save_if_connected true now) w).2 = w.
Proof.
  destruct w as [[av [dbc|] em [ui|] dl [ex|] [inc|] [b|] [g|] [p|]] us];
    destruct av as [[]|]; reflexivity.
Qed.

Lemma perform_read_only (us0 : gmap string Document) (a : Action) :
  read_only a = true → preserves (λ w, users w = us0) (perform a).
Proof.
  destruct a; try discriminate; intros _; cbn [perform]; unfold_pages;
    repeat preserves_step fail.
Qed.

Lemma perform_write_fails (us0 : gmap string Document) (a : Action) :
  write_fails a = true → preserves (λ w, users w = us0) (perform a).
Proof.
  destruct a; try discriminate; cbn [write_fails]; intros ->; cbn [perform];
    unfold_pages;
    repeat preserves_step
      ltac:(let H := fresh in
            intros ? H; rewrite save_if_connected_write_fails; exact H).
Qed.

Lemma perform_offline (us0 : gmap string Document) (a : Action) :
  read_only a = false →
  preserves (λ w, users w = us0 ∧ connected (session w) = false) (perform a).
Proof.
  destruct a; try discriminate; intros _; cbn [perform]; unfold_pages;
    repeat preserves_step
      ltac:(let H := fresh in
            intros ? H; rewrite save_if_connected_offline by apply H; exact H).
Qed.

(** X8. The store is written only by a handler that changes the data of
    the user, and only while the session is connected (the availability
    flag set and a handle kept) and the write does not fail. A run of the
    script (login, logout, the first load) and a view of a page never
    write; in a session that is not connected no handler writes; and a
    handler whose write fails leaves the store as it was. *)
Theorem store_is_written_only_when_connected (a : Action) (w : World) :
  read_only a = true ∨ write_fails a = true ∨ connected (session w) = false →
  users (run (perform a) w).2 = users w.
Proof.
  intros [Hread|[Hfail|Hoff]].
  - exact (perform_read_only (users w) a Hread w eq_refl).
  - exact (perform_write_fails (users w) a Hfail w eq_refl).
  - destruct (read_only a) eqn:Hread.
    + exact (perform_read_only (users w) a Hread w eq_refl).
    + exact (proj1 (perform_offline (users w) a Hread w (conj eq_refl Hoff))).
Qed.

Lemma store_is_written_only_when_connected_witness :
  users (run (perform (AddExpense false jan5 (PyDate jan5) "Food" 250 "")) sample_world).2
  = users sample_world.
Proof.
  apply (store_is_written_only_when_connected
           (AddExpense false jan5 (PyDate jan5) "Food" 250 "") sample_world).
  right. right. reflexivity.
Defined.

(* ===================================================================== *)
(** * The user id of the session *)
(* ===================================================================== *)

Lemma key_authenticate_user (ev : SidebarEvent) :
  preserves (λ w, key_consistent (session w)) (authenticate_user ev).
Proof.
  intros w Hw. destruct (user_email (session w)) as [e|] eqn:Hcur.
  - destruct w as [s us]. cbn [session] in *.
    unfold authenticate_user, run, gets, modify, mbind, M_bind, mret, M_ret.
    cbn [session]. rewrite Hcur. destruct ev; cbn; try exact Hw.
    intros e'. discriminate.
  - destruct ev as [|typed|].
    + destruct w as [s us]. cbn [session] in *.
      unfold authenticate_user, run, gets, mbind, M_bind, mret, M_ret.
      cbn [session]. rewrite Hcur. exact Hw.
    + destruct (decide (typed = "")) as [->|Hne].
      * destruct w as [s us]. cbn [session] in *.
        unfold authenticate_user, run, gets, mbind, M_bind, mret, M_ret.
        cbn [session]. rewrite Hcur. exact Hw.
      * rewrite (authenticate_login_run typed w Hcur Hne). cbn [snd session].
        destruct (session w). cbn. intros e [= <-].
        split; [reflexivity | apply normalize_idem].
    + destruct w as [s us]. cbn [session] in *.
      unfold authenticate_user, run, gets, mbind, M_bind, mret, M_ret.
      cbn [session]. rewrite Hcur. exact Hw.
Qed.

Lemma key_save_if_connected (fault : bool) (now : Date) :
  preserves (λ w, key_consistent (session w)) (save_if_connected fault now).
Proof. intros w Hw. cbn beta. rewrite save_if_connected_session. exact Hw. Qed.

Ltac key_step :=
  lazymatch goal with
  | |- preserves _ (authenticate_user _) => apply key_authenticate_user
  | _ => preserves_step ltac:(apply key_save_if_connected)
  end.

Lemma key_perform (a : Action) : preserves (λ w, key_consistent (session w)) (perform a).
Proof.
  destruct a; cbn [perform];
    unfold main, init_mongodb, load_user_data, initialize_new_user,
      get_mongodb_available, has_key, dashboard_page, analytics_page, budget_page,
      profile_page, generate_ai_insights, series_idxmax, series_max, on_expenses,
      on_income, add_expense, add_income, delete_expense, delete_income, update_budget,
      update_profile;
    repeat key_step.
Qed.

(** X9. In every state the program can reach from a session that holds
    nothing, the user id of the session is the SHA-256 key of the session
    email, and the session email is in normal form; no handler, page or
    load changes one without the other. *)
Theorem user_id_is_the_key_of_the_email
    (actions : list Action) (store : gmap string Document) :
  key_consistent (session (run_all (perform <$> actions) (mkWorld fresh_session store))).
Proof.
  assert (Hall : ∀ w, key_consistent (session w) →
                      key_consistent (session (run_all (perform <$> actions) w))).
  { induction actions as [|a actions IH]; intros w Hw; [exact Hw|].
    cbn [fmap list_fmap run_all]. apply IH. exact (key_perform a w Hw). }
  apply Hall. intros e. discriminate.
Qed.

(* ===================================================================== *)
(** * A handler and the store *)
(* ===================================================================== *)

Lemma save_if_connected_connected (now : Date) (uid : string) (w : World) :
  connected (session w) = true → user_id (session w) = Some uid →
  run (save_if_connected false now) w
  = (Ok (),
     mkWorld (session w)
       (match document_of now uid (session w) with
        | Some doc => <[uid := doc]> (users w)
        | None => users w
        end)).
Proof.
  destruct w as [[av dbc em ui dl [ex|] [inc|] [b|] [g|] [p|]] us]. unfold connected.
  all: destruct av as [[]|], dbc as [d|]; cbn; intros Hon Hid; try discriminate;
    subst ui; try reflexivity; destruct ex, inc; reflexivity.
Qed.

Section HandlerRuns.
Variables (fault : bool) (now : Date).

Lemma add_expense_run (d : DateCell) (category : string) (amt : Q) (description : string)
    (w : World) (df : Pd.DataFrame Expense) :
  expenses (session w) = Some df →
  run (add_expense fault now d category amt description) w
  = run (save_if_connected fault now)
        (mkWorld (set_expenses
                    (Pd.concat_ignore_index df
                       (Pd.of_records [mkExpense d category amt description]))
                    (session w)) (users w)).
Proof.
  intros Hexp. destruct w as [s us]. cbn in Hexp.
  unfold add_expense, run, attr, gets, modify, mbind, M_bind, mret, M_ret.
  cbn [session users]. rewrite Hexp. reflexivity.
Qed.

Lemma add_income_run (d : DateCell) (source : string) (amt : Q) (frequency : string)
    (w : World) (df : Pd.DataFrame Income) :
  income (session w) = Some df →
  run (add_income fault now d source amt frequency) w
  = run (save_if_connected fault now)
        (mkWorld (set_income
                    (Pd.concat_ignore_index df
                       (Pd.of_records [mkIncome d source amt frequency]))
                    (session w)) (users w)).
Proof.
  intros Hinc. destruct w as [s us]. cbn in Hinc.
  unfold add_income, run, attr, gets, modify, mbind, M_bind, mret, M_ret.
  cbn [session users]. rewrite Hinc. reflexivity.
Qed.

Lemma update_budget_run (typed : string → Q) (w : World) (b : Budget) :
  budget (session w) = Some b →
  run (update_budget fault now typed) w
  = run (save_if_connected fault now)
        (mkWorld (set_budget
                    (foldl (λ d c, dict_set c (typed c) d)
                       (foldl (λ d c, dict_set c (typed c) d) []
                          (take (length b.*1 / 2) b.*1))
                       (drop (length b.*1 / 2) b.*1))
                    (session w)) (users w)).
Proof.
  intros Hb. destruct w as [s us]. cbn in Hb.
  unfold update_budget, run, attr, gets, modify, mbind, M_bind, mret, M_ret.
  cbn [session users]. rewrite Hb. reflexivity.
Qed.

Lemma update_profile_run (name : string) (w : World) (p : Profile) :
  user_profile (session w) = Some p →
  run (update_profile fault now name) w
  = run (save_if_connected fault now)
        (mkWorld (set_user_profile (<["name" := VStr name]> p) (session w)) (users w)).
Proof.
  intros Hp. destruct w as [s us]. cbn in Hp.
  unfold update_profile, run, attr, gets, modify, mbind, M_bind, mret, M_ret.
  cbn [session users]. rewrite Hp. reflexivity.
Qed.

(** A handler that does not find its entry, or its row, raises and leaves
    everything as it was. *)
Lemma add_expense_absent (d : DateCell) (category : string) (amt : Q)
    (description : string) (w : World) :
  expenses (session w) = None →
  run (add_expense fault now d category amt description) w
  = (Raise (AttributeError "expenses"), w).
Proof.
  intros Hexp. destruct w as [s us]. cbn in Hexp.
  unfold add_expense, run, attr, gets, modify, mbind, M_bind, mret, M_ret.
  cbn [session users]. rewrite Hexp. reflexivity.
Qed.

Lemma add_income_absent (d : DateCell) (source : string) (amt : Q)
    (frequency : string) (w : World) :
  income (session w) = None →
  run (add_income fault now d source amt frequency) w
  = (Raise (AttributeError "income"), w).
Proof.
  intros Hinc. destruct w as [s us]. cbn in Hinc.
  unfold add_income, run, attr, gets, modify, mbind, M_bind, mret, M_ret.
  cbn [session users]. rewrite Hinc. reflexivity.
Qed.

Lemma update_budget_absent (typed : string → Q) (w : World) :
  budget (session w) = None →
  run (update_budget fault now typed) w = (Raise (AttributeError "budget"), w).
Proof.
  intros Hb. destruct w as [s us]. cbn in Hb.
  unfold update_budget, run, attr, gets, modify, mbind, M_bind, mret, M_ret.
  cbn [session users]. rewrite Hb. reflexivity.
Qed.

Lemma update_profile_absent (name : string) (w : World) :
  user_profile (session w) = None →
  run (update_profile fault now name) w = (Raise (AttributeError "user_profile"), w).
Proof.
  intros Hp. destruct w as [s us]. cbn in Hp.
  unfold update_profile, run, attr, gets, modify, mbind, M_bind, mret, M_ret.
  cbn [session users]. rewrite Hp. reflexivity.
Qed.

Lemma delete_expense_fails (idx : nat) (w : World) :
  (∀ df dropped, expenses (session w) = Some df → Pd.drop idx df ≠ Ok dropped) →
  ∃ e, run (delete_expense fault now idx) w = (Raise e, w)
       ∧ (is_Some (expenses (session w)) → e = KeyError idx).
Proof.
  intros Hfail. destruct w as [s us]. cbn [session] in *.
  unfold run, delete_expense, attr, gets, lift, mbind, M_bind, mret, M_ret.
  cbn [session]. destruct (expenses s) as [df|].
  - specialize (Hfail df). unfold Pd.drop in *.
    destruct (bool_decide (idx ∈ Pd.labels df)).
    + exfalso. exact (Hfail _ eq_refl eq_refl).
    + eexists. split; reflexivity.
  - eexists. split; [reflexivity|]. intros [? ?]. discriminate.
Qed.

Lemma delete_income_fails (idx : nat) (w : World) :
  (∀ df dropped, income (session w) = Some df → Pd.drop idx df ≠ Ok dropped) →
  ∃ e, run (delete_income fault now idx) w = (Raise e, w)
       ∧ (is_Some (income (session w)) → e = KeyError idx).
Proof.
  intros Hfail. destruct w as [s us]. cbn [session] in *.
  unfold run, delete_income, attr, gets, lift, mbind, M_bind, mret, M_ret.
  cbn [session]. destruct (income s) as [df|].
  - specialize (Hfail df). unfold Pd.drop in *.
    destruct (bool_decide (idx ∈ Pd.labels df)).
    + exfalso. exact (Hfail _ eq_refl eq_refl).
    + eexists. split; reflexivity.
  - eexists. split; [reflexivity|]. intros [? ?]. discriminate.
Qed.

End HandlerRuns.

(** X10. In a connected session with a user logged in, a handler that
    changes the data and returns has written the store: the document
    under the user id of the session is the one built from the session
    state as the handler left it (the frames with ISO dates, the budget,
    the goals, the profile), and no other document is touched. When the
    session state lacks one of the five entries the store is left as it
    was. *)
Theorem handler_leaves_store_in_step (a : Action) (w : World) (uid : string) :
  read_only a = false → write_fails a = false →
  connected (session w) = true → user_id (session w) = Some uid →
  (run (perform a) w).1 = Ok () →
  ∃ now,
    users (run (perform a) w).2
    = match document_of now uid (session (run (perform a) w).2) with
      | Some doc => <[uid := doc]> (users w)
      | None => users w
      end.
Proof.
  intros Hmut Hfault Hon Hid.
  assert (Hsave : ∀ now s', connected s' = true → user_id s' = Some uid →
            (run (save_if_connected false now) (mkWorld s' (users w))).1 = Ok () →
            ∃ now',
              users (run (save_if_connected false now) (mkWorld s' (users w))).2
              = match document_of now' uid
                        (session (run (save_if_connected false now)
                                      (mkWorld s' (users w))).2) with
                | Some doc => <[uid := doc]> (users w)
                | None => users w
                end).
  { intros now s' Hon' Hid' _. exists now.
    rewrite (save_if_connected_connected now uid (mkWorld s' (users w)) Hon' Hid').
    reflexivity. }
  destruct a; try discriminate; cbn [write_fails] in Hfault; subst fault; cbn [perform].
  - destruct (expenses (session w)) as [df|] eqn:Hdf.
    + rewrite (add_expense_run false now d category amt description w df Hdf).
      apply Hsave; destruct (session w); assumption.
    + rewrite add_expense_absent by exact Hdf. discriminate.
  - destruct (income (session w)) as [df|] eqn:Hdf.
    + rewrite (add_income_run false now d source amt frequency w df Hdf).
      apply Hsave; destruct (session w); assumption.
    + rewrite add_income_absent by exact Hdf. discriminate.
  - destruct (expenses (session w)) as [df|] eqn:Hdf;
      [destruct (Pd.drop idx df) as [dropped|e] eqn:Hdrop|].
    + rewrite (delete_expense_run false now idx w df dropped Hdf Hdrop).
      apply Hsave; destruct (session w); assumption.
    + destruct (delete_expense_fails false now idx w) as (e' & -> & _);
        [congruence | discriminate].
    + destruct (delete_expense_fails false now idx w) as (e' & -> & _);
        [congruence | discriminate].
  - destruct (income (session w)) as [df|] eqn:Hdf;
      [destruct (Pd.drop idx df) as [dropped|e] eqn:Hdrop|].
    + rewrite (delete_income_run false now idx w df dropped Hdf Hdrop).
      apply Hsave; destruct (session w); assumption.
    + destruct (delete_income_fails false now idx w) as (e' & -> & _);
        [congruence | discriminate].
    + destruct (delete_income_fails false now idx w) as (e' & -> & _);
        [congruence | discriminate].
  - destruct (budget (session w)) as [b|] eqn:Hb.
    + rewrite (update_budget_run false now typed w b Hb).
      apply Hsave; destruct (session w); assumption.
    + rewrite update_budget_absent by exact Hb. discriminate.
  - destruct (user_profile (session w)) as [p|] eqn:Hp.
    + rewrite (update_profile_run false now name w p Hp).
      apply Hsave; destruct (session w); assumption.
    + rewrite update_profile_absent by exact Hp. discriminate.
Qed.

Lemma handler_leaves_store_in_step_witness :
  ∃ doc,
    users (run (perform (AddExpense false jan5 (PyDate jan5) "Food" 40 "tea"))
               sample_online).2 !! hash_email "a@b.com" = Some doc
    ∧ doc_expenses doc
      = Some (iso_dates (Pd.rows sample_expenses
                         ++ [mkExpense (PyDate jan5) "Food" 40 "tea"])).
Proof.
  destruct (handler_leaves_store_in_step
              (AddExpense false jan5 (PyDate jan5) "Food" 40 "tea") sample_online
              (hash_email "a@b.com") eq_refl eq_refl eq_refl eq_refl eq_refl)
    as [now Hstore].
  rewrite Hstore. eexists. split; [apply lookup_insert_eq | reflexivity].
Defined.

(* ===================================================================== *)
(** * Adding and deleting transactions *)
(* ===================================================================== *)

(** X11. Adding a transaction appends it: the frame gets the new record as
    its last row, every row that was there stays at its position, the
    index is again 0, 1, 2, ..., and the other frame is not touched. With
    a user logged in the handler returns, also when the write to the
    store fails. This holds for expenses and for income. *)
Theorem add_appends_one_row
    (fault : bool) (now : Date) (d : DateCell) (label : string) (amt : Q) (note : string)
    (w : World) (edf : Pd.DataFrame Expense) (idf : Pd.DataFrame Income) :
  expenses (session w) = Some edf → income (session w) = Some idf →
  (let out := run (add_expense fault now d label amt note) w in
   (∃ edf', expenses (session out.2) = Some edf'
      ∧ Pd.rows edf' = (Pd.rows edf ++ [mkExpense d label amt note])%list
      ∧ Pd.range_indexed edf'
      ∧ (∀ i : nat, (i < length edf)%nat → Pd.iloc edf' i = Pd.iloc edf i)
      ∧ Pd.iloc edf' (length edf) = Some (mkExpense d label amt note))
   ∧ income (session out.2) = Some idf
   ∧ (is_Some (user_id (session w)) → out.1 = Ok ()))
  ∧ (let out := run (add_income fault now d label amt note) w in
     (∃ idf', income (session out.2) = Some idf'
        ∧ Pd.rows idf' = (Pd.rows idf ++ [mkIncome d label amt note])%list
        ∧ Pd.range_indexed idf'
        ∧ (∀ i : nat, (i < length idf)%nat → Pd.iloc idf' i = Pd.iloc idf i)
        ∧ Pd.iloc idf' (length idf) = Some (mkIncome d label amt note))
     ∧ expenses (session out.2) = Some edf
     ∧ (is_Some (user_id (session w)) → out.1 = Ok ())).
Proof.
  intros Hexp Hinc. cbv zeta. split.
  - rewrite (add_expense_run fault now d label amt note w edf Hexp).
    rewrite save_if_connected_session. split_and!.
    + eexists. split; [reflexivity|].
      assert (Hrows : Pd.rows (Pd.concat_ignore_index edf
                                 (Pd.of_records [mkExpense d label amt note]))
                      = (Pd.rows edf ++ [mkExpense d label amt note])%list).
      { unfold Pd.concat_ignore_index. rewrite rows_range_index. reflexivity. }
      split_and!.
      * exact Hrows.
      * apply range_indexed_concat.
      * intros i Hi. unfold Pd.iloc. rewrite Hrows.
        apply lookup_app_l. rewrite length_rows. exact Hi.
      * unfold Pd.iloc. rewrite Hrows, <- (length_rows edf).
        apply list_lookup_middle. reflexivity.
    + exact Hinc.
    + intros Huser. apply save_if_connected_ok. exact Huser.
  - rewrite (add_income_run fault now d label amt note w idf Hinc).
    rewrite save_if_connected_session. split_and!.
    + eexists. split; [reflexivity|].
      assert (Hrows : Pd.rows (Pd.concat_ignore_index idf
                                 (Pd.of_records [mkIncome d label amt note]))
                      = (Pd.rows idf ++ [mkIncome d label amt note])%list).
      { unfold Pd.concat_ignore_index. rewrite rows_range_index. reflexivity. }
      split_and!.
      * exact Hrows.
      * apply range_indexed_concat.
      * intros i Hi. unfold Pd.iloc. rewrite Hrows.
        apply lookup_app_l. rewrite length_rows. exact Hi.
      * unfold Pd.iloc. rewrite Hrows, <- (length_rows idf).
        apply list_lookup_middle. reflexivity.
    + exact Hexp.
    + intros Huser. apply save_if_connected_ok. exact Huser.
Qed.

Lemma add_appends_one_row_witness :
  ∃ edf', expenses (session (run (add_expense true jan5 (PyDate jan5) "Food" 40 "tea")
                                 sample_online).2) = Some edf'
    ∧ Pd.rows edf' = (Pd.rows sample_expenses ++ [mkExpense (PyDate jan5) "Food" 40 "tea"])%list.
Proof.
  destruct (add_appends_one_row true jan5 (PyDate jan5) "Food" 40 "tea" sample_online
              sample_expenses sample_income eq_refl eq_refl)
    as [((edf' & Hdf & Hrows & _) & _) _].
  exists edf'. split; [exact Hdf | exact Hrows].
Defined.

(** The labels of the last rows of a frame with a [RangeIndex]. *)
Lemma delete_buttons_range {R : Type} (df : Pd.DataFrame R) :
  Pd.range_indexed df →
  delete_buttons df = seq (length df - 5) (length df - (length df - 5)).
Proof.
  intros Hri. unfold delete_buttons, Pd.tail, Pd.labels.
  change (List.skipn (length df - 5) df) with (drop (length df - 5) df).
  rewrite fmap_drop. unfold Pd.range_indexed, Pd.labels in Hri. rewrite Hri.
  apply drop_seq.
Qed.

(** X12. The page draws a Delete button for the last five rows of a frame
    and for no other: on a frame with a [RangeIndex] the labels of the
    buttons are the positions from five before the end to the end, at
    most five of them, each a position of the frame. A transaction older
    than the last five cannot be deleted. *)
Theorem delete_buttons_are_the_last_five {R : Type} (df : Pd.DataFrame R) (idx : nat) :
  Pd.range_indexed df →
  (idx ∈ delete_buttons df ↔ (length df - 5 ≤ idx ∧ idx < length df)%nat)
  ∧ length (delete_buttons df) = Nat.min 5 (length df).
Proof.
  intros Hri. rewrite (delete_buttons_range df Hri). split.
  - rewrite elem_of_seq. lia.
  - rewrite length_seq. lia.
Qed.

Lemma delete_buttons_are_the_last_five_witness :
  delete_buttons sample_expenses = [0; 1; 2]%nat
  ∧ (1 ∈ delete_buttons sample_expenses ↔ (3 - 5 ≤ 1 ∧ 1 < 3)%nat).
Proof.
  split; [reflexivity|].
  exact (proj1 (delete_buttons_are_the_last_five sample_expenses 1 eq_refl)).
Defined.

(** X13. A Delete handler called with a label that is not in the index of
    its frame (on a frame with a [RangeIndex]: a position at or beyond
    its length) raises [KeyError] and changes nothing, neither in the
    session state nor in the store. *)
Theorem delete_unknown_label_changes_nothing
    (fault : bool) (now : Date) (idx : nat) (w : World)
    (edf : Pd.DataFrame Expense) (idf : Pd.DataFrame Income) :
  expenses (session w) = Some edf → income (session w) = Some idf →
  (idx ∉ Pd.labels edf → run (delete_expense fault now idx) w = (Raise (KeyError idx), w))
  ∧ (idx ∉ Pd.labels idf → run (delete_income fault now idx) w = (Raise (KeyError idx), w))
  ∧ (Pd.range_indexed edf → (length edf ≤ idx)%nat → idx ∉ Pd.labels edf)
  ∧ (Pd.range_indexed idf → (length idf ≤ idx)%nat → idx ∉ Pd.labels idf).
Proof.
  intros Hexp Hinc. split_and!.
  - intros Hout.
    destruct (delete_expense_fails fault now idx w) as (e & Hrun & He).
    { intros df dropped Hdf. rewrite Hexp in Hdf. injection Hdf as <-.
      unfold Pd.drop. rewrite bool_decide_eq_false_2 by exact Hout. discriminate. }
    rewrite Hrun, He by (rewrite Hexp; eexists; reflexivity). reflexivity.
  - intros Hout.
    destruct (delete_income_fails fault now idx w) as (e & Hrun & He).
    { intros df dropped Hdf. rewrite Hinc in Hdf. injection Hdf as <-.
      unfold Pd.drop. rewrite bool_decide_eq_false_2 by exact Hout. discriminate. }
    rewrite Hrun, He by (rewrite Hinc; eexists; reflexivity). reflexivity.
  - intros Hri Hle. rewrite Hri, elem_of_seq. lia.
  - intros Hri Hle. rewrite Hri, elem_of_seq. lia.
Qed.

Lemma delete_unknown_label_changes_nothing_witness :
  run (delete_expense false jan5 3) sample_world = (Raise (KeyError 3), sample_world).
Proof.
  destruct (delete_unknown_label_changes_nothing false jan5 3 sample_world
              sample_expenses sample_income eq_refl eq_refl)
    as (Hexp & _ & Hout & _).
  apply Hexp, Hout; [reflexivity | cbn; lia].
Defined.

(** X14. Adding an expense and then deleting the row the addition made
    (its Delete button carries the old length of the frame as label)
    brings the session state back to what it was before the addition. *)
Theorem add_then_delete_restores_the_session
    (fault fault' : bool) (now now' : Date) (d : DateCell) (category : string) (amt : Q)
    (description : string) (w : World) (df : Pd.DataFrame Expense) :
  expenses (session w) = Some df → Pd.range_indexed df →
  let added := (run (add_expense fault now d category amt description) w).2 in
  (∃ df', expenses (session added) = Some df' ∧ length df ∈ delete_buttons df')
  ∧ session (run (delete_expense fault' now' (length df)) added).2 = session w.
Proof.
  intros Hexp Hri. cbv zeta.
  set (df1 := Pd.concat_ignore_index df
                (Pd.of_records [mkExpense d category amt description])).
  assert (Hadded : session (run (add_expense fault now d category amt description) w).2
                   = set_expenses df1 (session w)).
  { rewrite (add_expense_run fault now d category amt description w df Hexp).
    apply save_if_connected_session. }
  assert (Hrows1 : Pd.rows df1 = (Pd.rows df ++ [mkExpense d category amt description])%list).
  { unfold df1, Pd.concat_ignore_index. rewrite rows_range_index. reflexivity. }
  assert (Hlen1 : length df1 = S (length df)).
  { rewrite <- (length_rows df1), Hrows1, length_app, length_rows. cbn. lia. }
  assert (Hri1 : Pd.range_indexed df1) by apply range_indexed_concat.
  split.
  - exists df1. rewrite Hadded. split; [destruct (session w); reflexivity|].
    apply (delete_buttons_are_the_last_five df1 (length df) Hri1). lia.
  - destruct (drop_reset_index (length df) df1 Hri1 ltac:(lia))
      as (dropped & Hdrop & Hrows & _ & Hri' & _).
    rewrite (delete_expense_run fault' now'
               (length df) _ df1 dropped
               ltac:(rewrite Hadded; destruct (session w); reflexivity) Hdrop).
    rewrite save_if_connected_session. cbn [session]. rewrite Hadded.
    assert (Hback : Pd.reset_index dropped = df).
    { rewrite (range_indexed_unfold _ Hri'), Hrows, Hrows1.
      rewrite <- (length_rows df), delete_middle, app_nil_r.
      symmetry. apply range_indexed_unfold. exact Hri. }
    rewrite Hback. destruct (session w). cbn in Hexp. subst. reflexivity.
Qed.

Lemma add_then_delete_restores_the_session_witness :
  session (run (delete_expense false jan5 3)
               (run (add_expense false jan5 (PyDate jan5) "Food" 40 "tea") sample_world).2).2
  = session sample_world.
Proof.
  destruct (add_then_delete_restores_the_session false false jan5 jan5 (PyDate jan5)
              "Food" 40 "tea" sample_world sample_expenses eq_refl eq_refl)
    as [_ Hback].
  exact Hback.
Defined.

(* ===================================================================== *)
(** * Sums over groups *)
(* ===================================================================== *)

Lemma sumQ_cons (x : Q) (xs : list Q) : sumQ (x :: xs) = (x + sumQ xs)%Q.
Proof. reflexivity. Qed.

Lemma builtin_sum_sumQ (xs : list Q) : (builtin_sum xs == sumQ xs)%Q.
Proof. unfold builtin_sum. rewrite fold_left_Qplus. apply Qplus_0_l. Qed.

Lemma sumQ_zero {X : Type} (xs : list X) : (sumQ ((λ _, 0%Q) <$> xs) == 0)%Q.
Proof.
  induction xs as [|x xs IH]; [reflexivity|].
  cbn [fmap list_fmap]. rewrite sumQ_cons, IH. ring.
Qed.

Lemma sumQ_ext {X : Type} (f g : X → Q) (xs : list X) :
  (∀ x, x ∈ xs → (f x == g x)%Q) → (sumQ (f <$> xs) == sumQ (g <$> xs))%Q.
Proof.
  induction xs as [|x xs IH]; intros Hfg; [reflexivity|].
  cbn [fmap list_fmap]. rewrite !sumQ_cons, IH, (Hfg x) by (intros; apply Hfg; now right) || left.
  reflexivity.
Qed.

Lemma sumQ_minus {X : Type} (f g : X → Q) (xs : list X) :
  (sumQ ((λ x, f x - g x) <$> xs) == sumQ (f <$> xs) - sumQ (g <$> xs))%Q.
Proof.
  induction xs as [|x xs IH]; [reflexivity|].
  cbn [fmap list_fmap]. rewrite !sumQ_cons, IH. ring.
Qed.

(** Adding [a] to the entry of one key of a list of distinct keys adds [a]
    to the sum. *)
Lemma sumQ_add_at (x : string) (a : Q) (f : string → Q) (keys : list string) :
  NoDup keys →
  (sumQ ((λ k, if decide (x = k) then a + f k else f k) <$> keys)
   == (if bool_decide (x ∈ keys) then a else 0) + sumQ (f <$> keys))%Q.
Proof.
  induction 1 as [|k keys Hk Hnd IH].
  - rewrite bool_decide_eq_false_2 by apply not_elem_of_nil. reflexivity.
  - cbn [fmap list_fmap]. rewrite !sumQ_cons, IH.
    destruct (decide (x = k)) as [->|Hne].
    + rewrite (bool_decide_eq_false_2 (k ∈ keys)) by exact Hk.
      rewrite (bool_decide_eq_true_2 (k ∈ k :: keys)) by left. ring.
    + rewrite (bool_decide_ext (x ∈ k :: keys) (x ∈ keys)); [ring|].
      rewrite elem_of_cons. split; [intros [?|?]; [congruence | assumption] | tauto].
Qed.

Section Partition.
Context {R : Type} `{Transaction R} (key : R → string).

Lemma total_filter_cons (k : string) (r : R) (rs : list R) :
  total (filter (λ r, key r = k) (r :: rs))
  = if decide (key r = k)
    then (amount r + total (filter (λ r, key r = k) rs))%Q
    else total (filter (λ r, key r = k) rs).
Proof. rewrite filter_cons. destruct (decide (key r = k)); reflexivity. Qed.

(** The totals of the groups of distinct keys add up to the total of the
    rows whose key is among them. *)
Lemma total_partition (keys : list string) (rs : list R) :
  NoDup keys →
  (sumQ ((λ k, total (filter (λ r, key r = k) rs)) <$> keys)
   == total (filter (λ r, key r ∈ keys) rs))%Q.
Proof.
  intros Hnd. induction rs as [|r rs IH].
  - cbn [filter list_filter total]. apply sumQ_zero.
  - rewrite (sumQ_ext _ (λ k, if decide (key r = k)
                              then (amount r + total (filter (λ r, key r = k) rs))%Q
                              else total (filter (λ r, key r = k) rs)))
      by (intros k _; rewrite total_filter_cons; reflexivity).
    rewrite (sumQ_add_at (key r) (amount r) _ keys Hnd), IH.
    rewrite (filter_cons (λ r, key r ∈ keys)).
    destruct (decide (key r ∈ keys)) as [Hin|Hout].
    + rewrite bool_decide_eq_true_2 by exact Hin. reflexivity.
    + rewrite bool_decide_eq_false_2 by exact Hout. cbn [total]. ring.
Qed.

Lemma filter_all (keys : list string) (rs : list R) :
  Forall (λ r, key r ∈ keys) rs → filter (λ r, key r ∈ keys) rs = rs.
Proof.
  induction 1 as [|r rs Hr _ IH]; [reflexivity|].
  rewrite filter_cons_True by exact Hr. rewrite IH. reflexivity.
Qed.

(** What the groups of [groupby(key)['amount'].sum()] hold for a key. *)
Lemma groupby_sum_get (k : string) (rs : list R) :
  (dict_get k 0 (Pd.groupby_sum key amount rs)
   == total (filter (λ r, key r = k) rs))%Q.
Proof.
  unfold Pd.groupby_sum. rewrite dict_get_fmap. case_bool_decide as Hin.
  - apply sum_amounts_total.
  - rewrite elem_of_group_keys in Hin.
    assert (Hnone : filter (λ r, key r = k) rs = []).
    { clear -Hin. induction rs as [|r rs IH]; [reflexivity|].
      cbn [fmap list_fmap] in Hin. rewrite not_elem_of_cons in Hin.
      destruct Hin as [Hne Hin]. rewrite filter_cons_False by congruence.
      apply IH, Hin. }
    rewrite Hnone. reflexivity.
Qed.

Lemma total_nonneg (rs : list R) :
  Forall (λ r, (0 <= amount r)%Q) rs → (0 <= total rs)%Q.
Proof.
  induction 1 as [|r rs Hr _ IH]; cbn [total]; [apply Qle_refl|].
  apply Qplus_nonneg_nonneg_compat || (rewrite <- (Qplus_0_l 0); apply Qplus_le_compat);
    assumption.
Qed.

End Partition.

(* ===================================================================== *)
(** * Running a page step by step *)
(* ===================================================================== *)

Lemma run_bind {A B : Type} (m : M A) (f : A → M B) (w : World) :
  run (m ≫= f) w
  = match run m w with
    | (Ok a, w') => run (f a) w'
    | (Raise e, w') => (Raise e, w')
    end.
Proof. unfold run, mbind, M_bind. destruct (m w) as [[a|e] w']; reflexivity. Qed.

Lemma run_ret {A : Type} (a : A) (w : World) : run (mret a) w = (Ok a, w).
Proof. reflexivity. Qed.

Lemma run_lift {A : Type} (r : result A) (w : World) : run (lift r) w = (r, w).
Proof. reflexivity. Qed.

Lemma run_attr {A : Type} (name : string) (proj : SessionState → option A)
    (w : World) (a : A) :
  proj (session w) = Some a → run (attr name proj) w = (Ok a, w).
Proof.
  intros Ha. unfold run, attr, gets, mbind, M_bind, mret, M_ret. rewrite Ha. reflexivity.
Qed.

Lemma run_attr_absent {A : Type} (name : string) (proj : SessionState → option A)
    (w : World) :
  proj (session w) = None → run (attr name proj) w = (Raise (AttributeError name), w).
Proof.
  intros Ha. unfold run, attr, gets, mbind, M_bind, mret, M_ret. rewrite Ha. reflexivity.
Qed.

(* ===================================================================== *)
(** * The budget page *)
(* ===================================================================== *)

Lemma dict_set_fresh {V : Type} (k : string) (v : V) (d : list (string * V)) :
  k ∉ d.*1 → dict_set k v d = (d ++ [(k, v)])%list.
Proof.
  induction d as [|[k' v'] d IH]; [reflexivity|].
  cbn [fmap list_fmap fst dict_set]. rewrite not_elem_of_cons. intros [Hne Hout].
  destruct (decide (k' = k)); [congruence|]. rewrite IH by exact Hout. reflexivity.
Qed.

Lemma foldl_dict_set_fresh {V : Type} (value : string → V) (keys : list string)
    (d : list (string * V)) :
  NoDup keys → (∀ k, k ∈ keys → k ∉ d.*1) →
  foldl (λ d c, dict_set c (value c) d) d keys
  = (d ++ ((λ c, (c, value c)) <$> keys))%list.
Proof.
  intros Hnd. revert d. induction Hnd as [|k keys Hk Hnd IH]; intros d Hfresh.
  - cbn. rewrite app_nil_r. reflexivity.
  - cbn [foldl fmap list_fmap]. rewrite dict_set_fresh by (apply Hfresh; left).
    rewrite IH.
    + rewrite <- app_assoc. reflexivity.
    + intros k' Hk'. rewrite fmap_app, elem_of_app. cbn. rewrite elem_of_cons.
      intros [Hin|[->|Hnil]].
      * exact (Hfresh k' ltac:(right; exact Hk') Hin).
      * exact (Hk Hk').
      * inversion Hnil.
Qed.

(** X15. The "Update Budget" button replaces the budget by one with the
    same categories in the same order, each with the number typed in its
    input, however the inputs are spread over the two columns of the
    form: no category is added, dropped or duplicated, and nothing else
    of the session state changes. *)
Theorem update_budget_keeps_the_categories
    (fault : bool) (now : Date) (typed : string → Q) (w : World) (b : Budget) :
  budget (session w) = Some b → NoDup b.*1 →
  let out := run (update_budget fault now typed) w in
  session out.2 = set_budget ((λ c, (c, typed c)) <$> b.*1) (session w)
  ∧ ((λ c, (c, typed c)) <$> b.*1).*1 = b.*1
  ∧ (is_Some (user_id (session w)) → out.1 = Ok ()).
Proof.
  intros Hb Hnd. cbv zeta.
  rewrite (update_budget_run fault now typed w b Hb).
  rewrite <- foldl_app, take_drop.
  rewrite foldl_dict_set_fresh by (exact Hnd || (intros k _ Hin; inversion Hin)).
  rewrite save_if_connected_session. split_and!.
  - reflexivity.
  - rewrite <- list_fmap_compose. apply list_fmap_id.
  - intros Huser. apply save_if_connected_ok. exact Huser.
Qed.

Lemma update_budget_keeps_the_categories_witness :
  budget (session (run (update_budget false jan5 (λ _, 700%Q)) sample_world).2)
  = Some ((λ c, (c, 700%Q)) <$> Config.DEFAULT_BUDGET.*1).
Proof.
  destruct (update_budget_keeps_the_categories false jan5 (λ _, 700%Q) sample_world
              Config.DEFAULT_BUDGET eq_refl) as (Hsession & _).
  - apply NoDup_ListNoDup. repeat constructor; cbn; intuition discriminate.
  - rewrite Hsession. reflexivity.
Defined.

(** The table of the budget page, row by row. *)
Lemma budget_data_table (b : Budget) (exp : Pd.DataFrame Expense) :
  ∃ table, budget_data b exp = Ok table
    ∧ Budgeted <$> table = b.*2
    ∧ Spent <$> table = (λ k, dict_get k 0%Q (expenses_by_category exp)) <$> b.*1
    ∧ Remaining <$> table = (λ row, (Budgeted row - Spent row)%Q) <$> table
    ∧ Forall (λ row, ((0 < Budgeted row)%Q →
                      Usage row = (Spent row / Budgeted row * 100)%Q)
                     ∧ ((Budgeted row <= 0)%Q → Usage row = 0%Q)) table.
Proof.
  unfold budget_data.
  induction b as [|item b (table & Htable & Hb & Hs & Hr & Hu)].
  - exists []. split_and!; try reflexivity. constructor.
  - destruct (budget_row_value (expenses_by_category exp) item)
      as (row & Hrow & Hc & Hbud & Hsp & Hrem & Hpos & Hzero).
    exists (row :: table). cbn [mapM]. rewrite Hrow, Htable.
    split; [reflexivity|]. cbn [fmap list_fmap].
    rewrite Hb, Hs, <- Hr, Hbud, Hsp, Hrem. split_and!; try reflexivity.
    constructor; [|exact Hu]. rewrite Hbud, Hsp. split; assumption.
Qed.

(** A loop that raises nowhere returns the list of its results; a loop
    raises what its first failing turn raises. *)
Lemma mapM_returns {A B : Type} (f : A → result B) (g : A → B) (xs : list A) :
  Forall (λ x, f x = Ok (g x)) xs → mapM f xs = Ok (g <$> xs).
Proof.
  induction 1 as [|x xs Hx _ IH]; [reflexivity|].
  cbn [mapM]. rewrite Hx. cbn. rewrite IH. reflexivity.
Qed.


Lemma progress_accepts (value : Q) :
  (0 <= value)%Q → (value <= 1)%Q → St.progress value = Ok ().
Proof.
  intros Hlo Hhi. unfold St.progress.
  rewrite (proj2 (Qle_bool_iff 0 value) Hlo), (proj2 (Qle_bool_iff value 1) Hhi).
  reflexivity.
Qed.


Lemma number_input_accepts (value min_value : Q) :
  St.whole value = true → (min_value <= value)%Q → (value <= St.max_int)%Q →
  St.number_input value min_value = Ok ().
Proof.
  intros Hwhole Hlo Hhi. unfold St.number_input.
  rewrite Hwhole, (proj2 (Qle_bool_iff _ _) Hlo), (proj2 (Qle_bool_iff _ _) Hhi).
  reflexivity.
Qed.

(** [d[k]] for a key of the dict is the value of one of its items. *)
Lemma dict_get_item {V : Type} (k : string) (default : V) (d : list (string * V)) :
  k ∈ d.*1 → (k, dict_get k default d) ∈ d.
Proof.
  induction d as [|[k' v] d IH]; cbn [fmap list_fmap fst dict_get].
  - intros Hin. inversion Hin.
  - intros Hin. destruct (decide (k' = k)) as [->|Hne]; [left|].
    right. apply IH. apply elem_of_cons in Hin as [Heq|Hin]; [congruence | exact Hin].
Qed.

(** The progress value of a row with a usage of at least 0. *)
Lemma usage_pct_bounds (row : BudgetRow) :
  (0 <= Usage row)%Q → (0 <= usage_pct row)%Q ∧ (usage_pct row <= 1)%Q.
Proof.
  intros Husage. split; [|apply Q.le_min_r].
  unfold usage_pct. apply Q.min_glb; [|discriminate].
  unfold Qdiv. apply Qmult_le_0_compat; [exact Husage | discriminate].
Qed.

(** The groups of the budget page do not depend on the form of the
    dates. *)
Lemma expenses_by_category_redated (exp : Pd.DataFrame Expense) :
  expenses_by_category (Pd.assign (λ r, with_date (to_datetime (date r)) r) exp)
  = expenses_by_category exp.
Proof.
  unfold expenses_by_category. rewrite empty_assign, rows_assign.
  destruct (Pd.empty exp); [reflexivity|]. cbn [negb].
  unfold Pd.groupby_sum. rewrite <- list_fmap_compose.
  assert (Hkeys : (exp_category ∘ (λ r : Expense, with_date (to_datetime (date r)) r))
                    <$> Pd.rows exp = exp_category <$> Pd.rows exp)
    by (apply list_fmap_ext; intros _ r _; reflexivity).
  rewrite Hkeys. clear Hkeys. apply list_fmap_ext. intros _ k _. do 2 f_equal.
  induction (Pd.rows exp) as [|r rs IH]; [reflexivity|].
  cbn [fmap list_fmap]. rewrite !filter_cons.
  change (exp_category (with_date (to_datetime (date r)) r)) with (exp_category r).
  destruct (decide (exp_category r = k)); [|exact IH].
  cbn [fmap list_fmap]. f_equal. exact IH.
Qed.

Lemma budget_data_categories (b : Budget) (exp : Pd.DataFrame Expense)
    (table : list BudgetRow) :
  budget_data b exp = Ok table → Category <$> table = b.*1.
Proof.
  unfold budget_data. revert table.
  induction b as [|item b IH]; intros table; cbn [mapM].
  - intros [= <-]. reflexivity.
  - destruct (budget_row_value (expenses_by_category exp) item) as (row & Hrow & Hc & _).
    rewrite Hrow. cbn.
    destruct (mapM (budget_row (expenses_by_category exp)) b) as [rows|e] eqn:Hrows;
      cbn; [|discriminate].
    intros [= <-]. cbn [fmap list_fmap]. rewrite Hc, (IH rows eq_refl). reflexivity.
Qed.

(** The run of the budget page, one outcome for each place where it can
    end. *)
Lemma budget_page_run (w : World) (b : Budget) (exp : Pd.DataFrame Expense) :
  budget (session w) = Some b → expenses (session w) = Some exp →
  let exp' := Pd.assign (λ r, with_date (to_datetime (date r)) r) exp in
  let spent := Pd.sum (exp_amount <$> Pd.rows exp) in
  run budget_page w
  = (table ← budget_data b exp;
     shown ← mapM show_budget_row table;
     mapM (budget_input b) (take (length b.*1 / 2) b.*1);;
     mapM (budget_input b) (drop (length b.*1 / 2) b.*1);;
     mret (builtin_sum b.*2, spent, (builtin_sum b.*2 - spent)%Q, shown),
     mkWorld (set_expenses exp' (session w)) (users w)).
Proof.
  intros Hb Hexp. cbv zeta.
  set (w' := mkWorld (set_expenses
                        (Pd.assign (λ r, with_date (to_datetime (date r)) r) exp)
                        (session w)) (users w)).
  assert (Hb' : budget (session w') = Some b)
    by (unfold w'; destruct (session w); exact Hb).
  assert (Hexp' : expenses (session w')
                  = Some (Pd.assign (λ r, with_date (to_datetime (date r)) r) exp))
    by (unfold w'; destruct (session w); reflexivity).
  unfold budget_page.
  rewrite run_bind, (run_attr _ _ w b Hb).
  rewrite run_bind, (on_expenses_get_monthly_data w exp Hexp). fold w'.
  rewrite run_bind, (run_attr _ _ w' _ Hexp').
  rewrite run_bind, (run_attr _ _ w' b Hb').
  rewrite run_bind, run_lift.
  unfold budget_data at 1. rewrite expenses_by_category_redated. fold (budget_data b exp).
  destruct (budget_data b exp) as [table|e]; [|reflexivity].
  cbn [mbind Py.result_bind]. rewrite run_bind, run_lift.
  destruct (mapM show_budget_row table) as [shown|e]; [|reflexivity].
  cbn [mbind Py.result_bind]. rewrite run_bind, (run_attr _ _ w' b Hb').
  rewrite run_bind, run_lift.
  destruct (mapM (budget_input b) (take _ _)) as [?|e]; [|reflexivity].
  cbn [mbind Py.result_bind]. rewrite run_bind, run_lift.
  destruct (mapM (budget_input b) (drop _ _)) as [?|e]; reflexivity.
Qed.

(** X16. On a session state in which the categories of the budget are
    distinct and its amounts are whole numbers from 0 to 2^53 - 1 (what
    the number inputs of the form take), and every expense has a category
    of the budget and an amount of at least 0, the budget page returns,
    and its overview adds up with its table. The table is that of the
    budget and the expenses, one row per category in the order of the
    budget with its budgeted amount; the total budget is the sum of the
    amounts of the budget, and equals the sum of the budgeted amounts of
    the rows; the total spent is what [get_monthly_data] returns for the
    expenses, and equals the sum of the spent amounts of the rows; the
    remaining budget is their difference, and equals the sum of the
    remaining amounts of the rows. *)
Theorem budget_overview_adds_up (w : World) (b : Budget) (exp : Pd.DataFrame Expense) :
  budget (session w) = Some b → expenses (session w) = Some exp →
  NoDup b.*1 →
  Forall (λ item, St.whole item.2 = true ∧ (0 <= item.2)%Q ∧ (item.2 <= St.max_int)%Q) b →
  Forall (λ e, exp_category e ∈ b.*1 ∧ (0 <= exp_amount e)%Q) (Pd.rows exp) →
  ∃ table,
    budget_data b exp = Ok table
    ∧ (run budget_page w).1
      = Ok (builtin_sum b.*2, (get_monthly_data exp).1,
            (builtin_sum b.*2 - (get_monthly_data exp).1)%Q,
            (λ row, (row, usage_pct row, usage_banner row)) <$> table)
    ∧ Category <$> table = b.*1
    ∧ Budgeted <$> table = b.*2
    ∧ (builtin_sum b.*2 == sumQ (Budgeted <$> table))%Q
    ∧ ((get_monthly_data exp).1 == sumQ (Spent <$> table))%Q
    ∧ (builtin_sum b.*2 - (get_monthly_data exp).1 == sumQ (Remaining <$> table))%Q.
Proof.
  intros Hb Hexp Hnd Hvalues Hrows.
  destruct (budget_data_table b exp) as (table & Htable & Hbud & Hsp & Hrem & Hu).
  exists table.
  assert (Hspent : (Pd.sum (exp_amount <$> Pd.rows exp) == sumQ (Spent <$> table))%Q).
  { rewrite Hsp. symmetry.
    etransitivity; [apply sumQ_ext; intros k _; apply expenses_by_category_get|].
    etransitivity; [apply (total_partition exp_category b.*1 (Pd.rows exp) Hnd)|].
    rewrite (filter_all exp_category).
    - symmetry. exact (sum_amounts_total (Pd.rows exp)).
    - eapply Forall_impl; [exact Hrows|]. intros e [He _]. exact He. }
  assert (Hshown : mapM show_budget_row table
                   = Ok ((λ row, (row, usage_pct row, usage_banner row)) <$> table)).
  { apply mapM_returns.
    assert (Hnonneg : Forall (λ row, (0 <= Spent row)%Q) table).
    { apply (proj1 (Forall_fmap Spent (λ s, (0 <= s)%Q) table)).
      rewrite Hsp. apply Forall_fmap, Forall_forall. intros k _. cbn.
      rewrite (expenses_by_category_get k exp).
      apply (total_nonneg (R := Expense)).
      apply Forall_forall. intros e He. apply list_elem_of_filter in He as [_ He].
      rewrite Forall_forall in Hrows. exact (proj2 (Hrows e He)). }
    pose proof (proj2 (Forall_and _ _) (conj Hnonneg Hu)) as Hall.
    eapply Forall_impl; [exact Hall|]. intros row [Hs [Hgt Hle]]. cbn beta in *.
    assert (Husage : (0 <= Usage row)%Q).
    { destruct (Qlt_le_dec 0 (Budgeted row)) as [Hpos|Hzero].
      - rewrite (Hgt Hpos). unfold Qdiv.
        apply Qmult_le_0_compat; [apply Qmult_le_0_compat|];
          [exact Hs | apply Qinv_le_0_compat, Qlt_le_weak, Hpos | discriminate].
      - rewrite (Hle Hzero). apply Qle_refl. }
    destruct (usage_pct_bounds row Husage) as [Hlo Hhi].
    unfold show_budget_row. rewrite (progress_accepts _ Hlo Hhi). reflexivity. }
  assert (Hinputs : ∀ categories, categories ⊆ b.*1 →
            mapM (budget_input b) categories = Ok ((λ _, ()) <$> categories)).
  { intros categories Hsub. apply mapM_returns, Forall_forall. intros c Hc.
    pose proof (dict_get_item c 0%Q b (Hsub c Hc)) as Hitem.
    rewrite Forall_forall in Hvalues.
    destruct (Hvalues _ Hitem) as (Hwhole & Hlo & Hhi).
    unfold budget_input. apply number_input_accepts; assumption. }
  split_and!.
  - exact Htable.
  - rewrite (budget_page_run w b exp Hb Hexp). cbv zeta. cbn [fst].
    rewrite Htable. cbn [mbind Py.result_bind]. rewrite Hshown. cbn [mbind Py.result_bind].
    rewrite (Hinputs _ (subseteq_take _ _)), (Hinputs _ (subseteq_drop _ _)).
    rewrite (get_monthly_data_value (R := Expense)). reflexivity.
  - exact (budget_data_categories b exp table Htable).
  - exact Hbud.
  - rewrite Hbud. apply builtin_sum_sumQ.
  - rewrite (get_monthly_data_value (R := Expense)). exact Hspent.
  - rewrite (get_monthly_data_value (R := Expense)), Hrem.
    etransitivity; [|symmetry; apply (sumQ_minus Budgeted Spent)].
    rewrite <- Hbud.
    apply Qplus_comp; [apply builtin_sum_sumQ | apply Qopp_comp; exact Hspent].
Qed.

Lemma budget_overview_adds_up_witness :
  ∃ table,
    budget_data Config.DEFAULT_BUDGET sample_expenses = Ok table
    ∧ (run budget_page sample_world).1
      = Ok (builtin_sum Config.DEFAULT_BUDGET.*2, (get_monthly_data sample_expenses).1,
            (builtin_sum Config.DEFAULT_BUDGET.*2 - (get_monthly_data sample_expenses).1)%Q,
            (λ row, (row, usage_pct row, usage_banner row)) <$> table).
Proof.
  destruct (budget_overview_adds_up sample_world Config.DEFAULT_BUDGET sample_expenses
              eq_refl eq_refl)
    as (table & Htable & Hrun & _).
  - apply NoDup_ListNoDup. repeat constructor; cbn; intuition discriminate.
  - repeat constructor; try reflexivity; discriminate.
  - repeat constructor; cbn; try discriminate; rewrite !elem_of_cons; tauto.
  - exists table. split; [exact Htable | exact Hrun].
Defined.

(** X17. When no expense has a negative amount, every row of the budget
    table has a spent amount and a usage of at least 0, and the value
    given to its progress bar lies between 0 and 1. *)
Theorem budget_progress_within_bounds (b : Budget) (exp : Pd.DataFrame Expense) :
  Forall (λ e, (0 <= exp_amount e)%Q) (Pd.rows exp) →
  ∃ table, budget_data b exp = Ok table
    ∧ Forall (λ row, (0 <= Spent row)%Q ∧ (0 <= Usage row)%Q
                     ∧ (0 <= usage_pct row)%Q ∧ (usage_pct row <= 1)%Q) table.
Proof.
  intros Hpos. destruct (budget_data_table b exp) as (table & Htable & _ & Hsp & _ & Hu).
  exists table. split; [exact Htable|].
  assert (Hspent : Forall (λ row, (0 <= Spent row)%Q) table).
  { apply (proj1 (Forall_fmap Spent (λ s, (0 <= s)%Q) table)).
    rewrite Hsp. apply Forall_fmap, Forall_forall. intros k _. cbn.
    rewrite (expenses_by_category_get k exp).
    apply (total_nonneg (R := Expense)).
    apply Forall_forall. intros e He. apply list_elem_of_filter in He as [_ He].
    rewrite Forall_forall in Hpos. exact (Hpos e He). }
  pose proof (proj2 (Forall_and _ _) (conj Hspent Hu)) as Hall.
  eapply Forall_impl; [exact Hall|]. intros row [Hs [Hgt Hle]]. cbn beta in *.
  assert (Husage : (0 <= Usage row)%Q).
  { destruct (Qlt_le_dec 0 (Budgeted row)) as [Hb|Hb].
    - rewrite (Hgt Hb). unfold Qdiv.
      apply Qmult_le_0_compat; [apply Qmult_le_0_compat|];
        [exact Hs | apply Qinv_le_0_compat, Qlt_le_weak, Hb | discriminate].
    - rewrite (Hle Hb). apply Qle_refl. }
  split_and!; [exact Hs | exact Husage | | apply Q.le_min_r].
  unfold usage_pct. apply Q.min_glb; [|discriminate].
  unfold Qdiv. apply Qmult_le_0_compat; [exact Husage | discriminate].
Qed.

Lemma budget_progress_within_bounds_witness :
  ∃ table, budget_data Config.DEFAULT_BUDGET sample_expenses = Ok table
    ∧ Forall (λ row, (0 <= usage_pct row)%Q ∧ (usage_pct row <= 1)%Q) table.
Proof.
  destruct (budget_progress_within_bounds Config.DEFAULT_BUDGET sample_expenses)
    as (table & Htable & Hall).
  - repeat constructor; discriminate.
  - exists table. split; [exact Htable|].
    eapply Forall_impl; [exact Hall|]. intros row (_ & _ & Hlo & Hhi). split; assumption.
Defined.



Lemma analytics_savings_rate_returns (monthly_income monthly_expenses : Q) :
  ∃ rate, analytics_savings_rate monthly_income monthly_expenses = Ok rate.
Proof.
  unfold analytics_savings_rate.
  destruct (Qlt_le_dec 0 monthly_income) as [Hpos|Hle]; [|eexists; reflexivity].
  rewrite (truediv_positive _ _ Hpos). eexists. reflexivity.
Qed.

(* ===================================================================== *)
(** * The dashboard *)
(* ===================================================================== *)









(* ===================================================================== *)
(** * The analytics page *)
(* ===================================================================== *)

Lemma day_name_in_day_order (d : Date) : day_name d ∈ day_order.
Proof.
  unfold day_name, day_order.
  repeat match goal with
         | |- context [match ?x with _ => _ end] => destruct x
         end;
    apply list_elem_of_In; cbn; tauto.
Qed.

Lemma day_order_NoDup : NoDup day_order.
Proof. apply (bool_decide_unpack _). vm_compute. exact I. Qed.

(** X19. The weekly spending pattern of the analytics page has one entry
    for each day of the week, from Monday to Sunday; the entry of a day is
    the total of the expenses dated on that weekday (0 when there is
    none), and the seven entries add up to the total of all expenses. *)
Theorem weekly_pattern_covers_the_week (expenses_df : Pd.DataFrame Expense) :
  (weekly_pattern expenses_df).*1 = day_order
  ∧ (∀ day, day ∈ day_order →
       (dict_get day 0 (weekly_pattern expenses_df)
        == total (filter (λ r, day_name (date_of (exp_date r)) = day)
                         (Pd.rows expenses_df)))%Q)
  ∧ (sumQ (weekly_pattern expenses_df).*2 == total (Pd.rows expenses_df))%Q.
Proof.
  unfold weekly_pattern, reindex. split_and!.
  - rewrite <- list_fmap_compose. apply list_fmap_id.
  - intros day Hday. rewrite dict_get_fmap, bool_decide_eq_true_2 by exact Hday.
    exact (groupby_sum_get (R := Expense)
             (λ r : Expense, day_name (date_of (exp_date r))) day (Pd.rows expenses_df)).
  - rewrite <- list_fmap_compose.
    etransitivity;
      [apply (sumQ_ext _ (λ k, total (filter (λ r : Expense,
                                 day_name (date_of (exp_date r)) = k)
                                 (Pd.rows expenses_df))))|].
    { intros k _.
      exact (groupby_sum_get (R := Expense)
               (λ r : Expense, day_name (date_of (exp_date r))) k (Pd.rows expenses_df)). }
    etransitivity;
      [apply (total_partition (R := Expense)
                (λ r : Expense, day_name (date_of (exp_date r))) day_order),
         day_order_NoDup|].
    rewrite (filter_all (R := Expense)); [reflexivity|].
    apply Forall_forall. intros r _. apply day_name_in_day_order.
Qed.

Lemma fold_max_spec (xs : list Q) (a : Q) :
  let m := fold_left (λ m y, if Qlt_le_dec m y then y else m) xs a in
  (m = a ∨ m ∈ xs) ∧ (a <= m)%Q ∧ Forall (λ x, (x <= m)%Q) xs.
Proof.
  revert a. induction xs as [|x xs IH]; intros a; cbn [fold_left].
  - split_and!; [left; reflexivity | apply Qle_refl | constructor].
  - destruct (IH (if Qlt_le_dec a x then x else a)) as (Hm & Hle & Hall).
    destruct (Qlt_le_dec a x) as [Hlt|Hge]; split_and!.
    + right. destruct Hm as [->|Hin]; [left | right; exact Hin].
    + eapply Qle_trans; [apply Qlt_le_weak, Hlt | exact Hle].
    + constructor; assumption.
    + destruct Hm as [->|Hin]; [left; reflexivity | right; right; exact Hin].
    + exact Hle.
    + constructor; [eapply Qle_trans; eassumption | exact Hall].
Qed.

(** [Series.max()] over a column that has values is one of them and no
    less than any. *)
Lemma column_max_spec (xs : list Q) :
  xs ≠ [] →
  ∃ m, column_max xs = Some m ∧ m ∈ xs ∧ Forall (λ x, (x <= m)%Q) xs.
Proof.
  destruct xs as [|x xs]; [congruence|]. intros _. eexists. split; [reflexivity|].
  destruct (fold_max_spec xs x) as (Hm & Hle & Hall). split.
  - destruct Hm as [->|Hin]; [left | right; exact Hin].
  - constructor; assumption.
Qed.

Lemma nunique_dates_redated (exp : Pd.DataFrame Expense) :
  nunique_dates (Pd.assign (λ r, with_date (to_datetime (date r)) r) exp)
  = nunique_dates exp.
Proof.
  unfold nunique_dates. rewrite rows_assign, <- list_fmap_compose. reflexivity.
Qed.

Lemma nunique_dates_positive (exp : Pd.DataFrame Expense) :
  Pd.empty exp = false → (1 ≤ nunique_dates exp)%nat.
Proof.
  destruct exp as [|[l r] exp]; [discriminate|]. intros _.
  unfold nunique_dates.
  set (ds := (λ r : Expense, date_of (exp_date r)) <$> Pd.rows ((l, r) :: exp)).
  assert (Hin : date_of (exp_date r) ∈ remove_dups ds)
    by (apply elem_of_remove_dups; left).
  destruct (remove_dups ds); [inversion Hin | cbn; lia].
Qed.

(** X20. With no expenses in the session state the analytics page shows
    no metric: when there is no income either it reports that there is no
    data and returns; when there is income it reaches the health metrics
    with the local variable [expenses_df] never bound, and the read of it
    ends the page with an [UnboundLocalError]. The session state and the
    store are left as they were. *)
Theorem analytics_without_expenses (w : World) (inc : Pd.DataFrame Income) :
  expenses (session w) = Some [] → income (session w) = Some inc →
  run analytics_page w
  = (Ok (if Pd.empty inc then NoData else UnboundLocalError "expenses_df"), w).
Proof.
  intros Hexp Hinc. unfold analytics_page.
  rewrite run_bind, (run_attr _ _ w _ Hexp). cbn [Pd.empty].
  rewrite run_bind, run_bind, (run_attr _ _ w _ Hinc), run_ret.
  destruct inc as [|lr inc]; cbn [Pd.empty]; [reflexivity|].
  rewrite run_bind, (run_attr _ _ w _ Hexp). cbn [Pd.empty negb].
  rewrite run_bind, (run_attr _ _ w _ Hinc). reflexivity.
Qed.

Lemma analytics_without_expenses_witness :
  (run analytics_page (mkWorld (set_expenses [] sample_session) ∅)).1
  = Ok (UnboundLocalError "expenses_df").
Proof.
  rewrite (analytics_without_expenses (mkWorld (set_expenses [] sample_session) ∅)
             sample_income eq_refl eq_refl).
  reflexivity.
Defined.

(** X21. With expenses in the session state the analytics page returns
    its health metrics and never divides by zero: the average daily spend
    is the total of the expenses over the number of distinct dates, which
    is at least 1; the weekly pattern is that of the expenses; and the
    largest single expense is the amount of one of the expenses, no less
    than any other. *)
Theorem analytics_with_expenses
    (w : World) (exp : Pd.DataFrame Expense) (inc : Pd.DataFrame Income) :
  expenses (session w) = Some exp → income (session w) = Some inc →
  Pd.empty exp = false →
  ∃ rate largest,
    (run analytics_page w).1
    = Ok (HealthMetrics
            (weekly_pattern (Pd.assign (λ r, with_date (to_datetime (date r)) r) exp))
            (Pd.sum (exp_amount <$> Pd.rows exp)
             / inject_Z (Z.of_nat (nunique_dates exp)))%Q
            rate (Some largest))
    ∧ (1 ≤ nunique_dates exp)%nat
    ∧ largest ∈ exp_amount <$> Pd.rows exp
    ∧ Forall (λ a, (a <= largest)%Q) (exp_amount <$> Pd.rows exp).
Proof.
  intros Hexp Hinc Hrows.
  pose proof (nunique_dates_positive exp Hrows) as Hdays.
  destruct (column_max_spec (exp_amount <$> Pd.rows exp)) as (largest & Hmax & Hin & Hall).
  { destruct exp as [|[l r] exp]; [discriminate|]. discriminate. }
  destruct (analytics_savings_rate_returns (Pd.sum (inc_amount <$> Pd.rows inc))
              (Pd.sum (exp_amount <$> Pd.rows exp))) as [rate Hrate].
  exists rate, largest. split_and!; [|exact Hdays|exact Hin|exact Hall].
  set (edf := Pd.assign (λ r : Expense, with_date (to_datetime (date r)) r) exp).
  assert (Hedf : Pd.empty edf = false)
    by (unfold edf; destruct exp as [|[l r] exp]; [discriminate | reflexivity]).
  assert (Hamounts : exp_amount <$> Pd.rows edf = exp_amount <$> Pd.rows exp)
    by (unfold edf; rewrite rows_assign;
        exact (amounts_redated (R := Expense) (λ r, to_datetime (date r)) (Pd.rows exp))).
  unfold analytics_page.
  rewrite run_bind, (run_attr _ _ w _ Hexp), Hrows.
  rewrite run_bind, run_ret.
  rewrite run_bind, (run_attr _ _ w _ Hexp), Hrows. cbn [negb]. fold edf.
  rewrite run_bind, (run_attr _ _ w _ Hinc).
  rewrite Hedf. cbn [negb].
  rewrite run_bind, run_lift, Hamounts.
  unfold edf at 1. rewrite nunique_dates_redated, (Nat.max_l _ 1 Hdays).
  rewrite truediv_positive
    by (unfold Qlt, inject_Z; cbn [Qnum Qden]; lia).
  rewrite run_bind, (on_income_get_monthly_data w inc Hinc).
  assert (Hexp1 : expenses (session (mkWorld
                    (set_income (Pd.assign (λ r, with_date (to_datetime (date r)) r) inc)
                       (session w)) (users w))) = Some exp)
    by (destruct (session w); exact Hexp).
  rewrite run_bind, (on_expenses_get_monthly_data _ exp Hexp1).
  rewrite run_bind, run_lift, Hrate, run_ret, Hmax. reflexivity.
Qed.

Lemma analytics_with_expenses_witness :
  ∃ weekly avg rate largest,
    (run analytics_page sample_world).1 = Ok (HealthMetrics weekly avg rate largest).
Proof.
  destruct (analytics_with_expenses sample_world sample_expenses sample_income
              eq_refl eq_refl eq_refl) as (rate & largest & Hrun & _).
  eexists _, _, _, _. exact Hrun.
Defined.

(* ===================================================================== *)
(** * The profile page *)
(* ===================================================================== *)

(** X22. The account statistics of the profile page change nothing and
    show the number of rows of the two frames, the totals of their
    amounts and the difference of the totals; the two totals are the
    figures the dashboard shows as this month's income and expenses, the
    dates of the rows playing no part in either. *)
Theorem profile_statistics_are_the_totals
    (w : World) (exp : Pd.DataFrame Expense) (inc : Pd.DataFrame Income) :
  expenses (session w) = Some exp → income (session w) = Some inc →
  run profile_page w
  = (Ok ((length exp + length inc)%nat,
         Pd.sum (exp_amount <$> Pd.rows exp),
         Pd.sum (inc_amount <$> Pd.rows inc),
         (Pd.sum (inc_amount <$> Pd.rows inc) - Pd.sum (exp_amount <$> Pd.rows exp))%Q),
     w)
  ∧ (run (on_expenses get_monthly_data) w).1 = Ok (Pd.sum (exp_amount <$> Pd.rows exp))
  ∧ (run (on_income get_monthly_data) w).1 = Ok (Pd.sum (inc_amount <$> Pd.rows inc)).
Proof.
  intros Hexp Hinc. split_and!.
  - unfold profile_page.
    rewrite run_bind, (run_attr _ _ w _ Hexp), run_bind, (run_attr _ _ w _ Hinc).
    destruct exp, inc; reflexivity.
  - rewrite (on_expenses_get_monthly_data w exp Hexp). reflexivity.
  - rewrite (on_income_get_monthly_data w inc Hinc). reflexivity.
Qed.

Lemma profile_statistics_are_the_totals_witness :
  (run profile_page sample_world).1 = Ok (5%nat, 1530, 57000, 55470)%Q.
Proof.
  rewrite (proj1 (profile_statistics_are_the_totals sample_world sample_expenses
                    sample_income eq_refl eq_refl)).
  reflexivity.
Defined.

(* ===================================================================== *)
(** * What the pages leave behind *)
(* ===================================================================== *)

Lemma iso_dates_redated_expenses (df : Pd.DataFrame Expense) :
  iso_dates (Pd.rows (Pd.assign (λ r, with_date (to_datetime (date r)) r) df))
  = iso_dates (Pd.rows df).
Proof.
  rewrite rows_assign. unfold iso_dates. rewrite <- list_fmap_compose.
  apply list_fmap_ext. intros _ [[d|d|d|d] ? ? ?] _; reflexivity.
Qed.

Lemma iso_dates_redated_income (df : Pd.DataFrame Income) :
  iso_dates (Pd.rows (Pd.assign (λ r, with_date (to_datetime (date r)) r) df))
  = iso_dates (Pd.rows df).
Proof.
  rewrite rows_assign. unfold iso_dates. rewrite <- list_fmap_compose.
  apply list_fmap_ext. intros _ [[d|d|d|d] ? ? ?] _; reflexivity.
Qed.

Lemma same_data_on_expenses (s0 : SessionState) :
  preserves (λ w, same_data s0 (session w)) (on_expenses get_monthly_data).
Proof.
  intros w Hw. destruct (expenses (session w)) as [df|] eqn:Hexp.
  - rewrite (on_expenses_get_monthly_data w df Hexp). cbn [snd session].
    destruct Hw as (He & Hi & Hb & Hg & Hp & Hm).
    destruct (session w); cbn in *. subst. unfold same_data. cbn.
    split_and!; try assumption; try reflexivity.
    rewrite <- He. unfold compose. rewrite iso_dates_redated_expenses. reflexivity.
  - unfold on_expenses. rewrite run_bind, (run_attr_absent _ _ w Hexp). exact Hw.
Qed.

Lemma same_data_on_income (s0 : SessionState) :
  preserves (λ w, same_data s0 (session w)) (on_income get_monthly_data).
Proof.
  intros w Hw. destruct (income (session w)) as [df|] eqn:Hinc.
  - rewrite (on_income_get_monthly_data w df Hinc). cbn [snd session].
    destruct Hw as (He & Hi & Hb & Hg & Hp & Hm).
    destruct (session w); cbn in *. subst. unfold same_data. cbn.
    split_and!; try assumption; try reflexivity.
    rewrite <- Hi. unfold compose. rewrite iso_dates_redated_income. reflexivity.
  - unfold on_income. rewrite run_bind, (run_attr_absent _ _ w Hinc). exact Hw.
Qed.

Ltac same_data_step :=
  lazymatch goal with
  | |- preserves _ (on_expenses _) => apply same_data_on_expenses
  | |- preserves _ (on_income _) => apply same_data_on_income
  | _ => preserves_step fail
  end.

Lemma same_data_page_view (s0 : SessionState) (a : Action) :
  page_view a = true → preserves (λ w, same_data s0 (session w)) (perform a).
Proof.
  destruct a; try discriminate; intros _; cbn [perform];
    unfold dashboard_page, analytics_page, budget_page, profile_page,
      generate_ai_insights, series_idxmax, series_max;
    repeat same_data_step.
Qed.

Lemma same_data_refl (s : SessionState) : same_data s s.
Proof. unfold same_data. split_and!; reflexivity. Qed.

Lemma same_data_document (now : Date) (uid : string) (s s' : SessionState) :
  same_data s s' → document_of now uid s' = document_of now uid s.
Proof.
  intros (He & Hi & Hb & Hg & Hp & Hm). unfold document_of. rewrite Hb, Hg, Hp, Hm.
  destruct (expenses s') as [e'|], (expenses s) as [e|]; cbn in He; try discriminate;
    [|reflexivity].
  destruct (income s') as [i'|], (income s) as [i|]; cbn in Hi; try discriminate;
    [|reflexivity].
  apply (inj Some) in He. apply (inj Some) in Hi. unfold compose in He, Hi.
  cbn [mbind option_bind]. rewrite He, Hi. reflexivity.
Qed.

(** X23. Opening the dashboard, the analytics, the budget overview or the
    profile never changes the data of the user: whether the page returns
    or raises, the session state holds the same records afterwards (only
    the form of their date cells may differ), the same budget, goals and
    profile, so that a later save writes the document it would have
    written before; and the store is left as it was. *)
Theorem page_views_keep_the_data (a : Action) (w : World) :
  page_view a = true →
  same_data (session w) (session (run (perform a) w).2)
  ∧ (∀ now uid,
       document_of now uid (session (run (perform a) w).2)
       = document_of now uid (session w))
  ∧ users (run (perform a) w).2 = users w.
Proof.
  intros Hpage.
  pose proof (same_data_page_view (session w) a Hpage w (same_data_refl (session w)))
    as Hsame.
  split_and!.
  - exact Hsame.
  - intros now uid. apply same_data_document, Hsame.
  - apply (perform_read_only (users w) a); [|reflexivity].
    destruct a; try discriminate; reflexivity.
Qed.

Lemma page_views_keep_the_data_witness :
  document_of jan5 (hash_email "a@b.com")
    (session (run (perform ShowDashboard) sample_world).2)
  = document_of jan5 (hash_email "a@b.com") (session sample_world).
Proof.
  exact (proj1 (proj2 (page_views_keep_the_data ShowDashboard sample_world eq_refl))
           jan5 (hash_email "a@b.com")).
Defined.
